(** * Smart Day Compass: conflict detection and the daily allocator

    A shallow embedding of [src/lib/conflictDetection.ts] and of
    [optimizeSchedule] of the planner page, in its gap-based version and
    in the older random-hour version of [pages/Index.tsx], with the
    properties of the scheduling core stated and proved over it.

    Numbers.  A JavaScript number is modelled by [num := option Z]:
    [Some z] is the integer [z], [None] is [NaN].  The times the planner
    handles are minutes of a day, far inside the range where doubles are
    exact integers.  [Number] follows the grammar of string numeric
    literals: blanks around the literal, the empty string, a sign,
    decimal digits with a fraction and an exponent, and the prefixes
    [0x], [0o] and [0b].  Whole values are all that [num] holds, so a
    literal whose value has a fractional part, and [Infinity], lie
    outside the model, which reads them as [NaN].  A string is the
    sequence of its code units, all below 256. *)

From Stdlib Require Import ZArith Strings.String Strings.Ascii Lia Bool.
From stdpp Require Import base list strings sorting fin.

Local Open Scope string_scope.
Local Open Scope Z_scope.

(** ** JavaScript numbers *)

Module JS.

Definition num : Type := option Z.

Definition NaN : num := None.

Definition lift2 (f : Z -> Z -> Z) (a b : num) : num :=
  match a, b with
  | Some x, Some y => Some (f x y)
  | _, _ => None
  end.

Definition add : num -> num -> num := lift2 Z.add.
Definition sub : num -> num -> num := lift2 Z.sub.
Definition mul : num -> num -> num := lift2 Z.mul.

(** [Math.max] returns [NaN] as soon as one argument is [NaN]. *)
Definition max : num -> num -> num := lift2 Z.max.

(** Comparisons with [NaN] are false. *)
Definition lt (a b : num) : bool :=
  match a, b with
  | Some x, Some y => x <? y
  | _, _ => false
  end.

Definition gt (a b : num) : bool := lt b a.

Definition ge (a b : num) : bool :=
  match a, b with
  | Some x, Some y => y <=? x
  | _, _ => false
  end.

(** A string or [undefined] used as a condition: only a non-empty string
    is truthy. *)
Definition truthy (o : option string) : bool :=
  match o with
  | Some s => negb (String.eqb s "")
  | None => false
  end.

(** *** [Number(string)] *)

Definition digit_of (c : ascii) : option Z :=
  let n := Z.of_N (N_of_ascii c) in
  if (48 <=? n) && (n <=? 57) then Some (n - 48) else None.

Fixpoint parse_digits (s : string) (acc : Z) : num :=
  match s with
  | EmptyString => Some acc
  | String c r =>
      match digit_of c with
      | Some d => parse_digits r (acc * 10 + d)
      | None => NaN
      end
  end.

(** White space and line terminators among the code units below 256:
    TAB, LF, VT, FF, CR, SP and NBSP. *)
Definition is_white (c : ascii) : bool :=
  let n := Z.of_N (N_of_ascii c) in
  ((9 <=? n) && (n <=? 13)) || (n =? 32) || (n =? 160).

Fixpoint trimStart (s : string) : string :=
  match s with
  | EmptyString => EmptyString
  | String c r => if is_white c then trimStart r else s
  end.

Fixpoint trimEnd (s : string) : string :=
  match s with
  | EmptyString => EmptyString
  | String c r =>
      match trimEnd r with
      | EmptyString => if is_white c then EmptyString else String c EmptyString
      | r' => String c r'
      end
  end.

(** The value of a digit in radix 2, 8 or 16, letters in either case. *)
Definition radix_digit (radix : Z) (c : ascii) : option Z :=
  let n := Z.of_N (N_of_ascii c) in
  let v :=
    if (48 <=? n) && (n <=? 57) then Some (n - 48)
    else if (97 <=? n) && (n <=? 102) then Some (n - 87)
    else if (65 <=? n) && (n <=? 70) then Some (n - 55)
    else None in
  match v with
  | Some d => if d <? radix then Some d else None
  | None => None
  end.

Fixpoint parse_radix (radix : Z) (s : string) (acc : Z) : num :=
  match s with
  | EmptyString => Some acc
  | String c r =>
      match radix_digit radix c with
      | Some d => parse_radix radix r (acc * radix + d)
      | None => NaN
      end
  end.

(** The digits after a prefix [0x], [0o] or [0b]: at least one. *)
Definition radix_literal (radix : Z) (s : string) : num :=
  match s with
  | EmptyString => NaN
  | _ => parse_radix radix s 0
  end.

(** The longest prefix of decimal digits, and what follows it. *)
Fixpoint span_digits (s : string) : string * string :=
  match s with
  | EmptyString => (EmptyString, EmptyString)
  | String c r =>
      match digit_of c with
      | Some _ => let (p, q) := span_digits r in (String c p, q)
      | None => (EmptyString, s)
      end
  end.

(** What follows the mantissa: nothing, or [e] or [E], an optional sign
    and at least one digit.  [None] when the text is neither. *)
Definition parse_exponent (s : string) : option Z :=
  match s with
  | EmptyString => Some 0
  | String c r =>
      if Ascii.eqb c "e" || Ascii.eqb c "E" then
        let (sign, ds) :=
          match r with
          | String c' r' =>
              if Ascii.eqb c' "+" then (1, r')
              else if Ascii.eqb c' "-" then (-1, r')
              else (1, r)
          | EmptyString => (1, r)
          end in
        match ds with
        | EmptyString => None
        | _ => option_map (Z.mul sign) (parse_digits ds 0)
        end
      else None
  end.

(** An unsigned decimal literal: digits, an optional point with digits,
    an optional exponent, with a digit before or after the point.  The
    value is the digits read as one number, scaled by the power of ten
    that the exponent and the length of the fraction give; a value that
    is not whole is outside the model. *)
Definition parse_unsigned (s : string) : num :=
  let (ip, rest) := span_digits s in
  let (fp, rest') :=
    match rest with
    | String c r => if Ascii.eqb c "." then span_digits r else (EmptyString, rest)
    | EmptyString => (EmptyString, rest)
    end in
  if String.eqb ip "" && String.eqb fp "" then NaN
  else
    match parse_exponent rest', parse_digits (ip +:+ fp) 0 with
    | Some e, Some m =>
        let k := e - Z.of_nat (String.length fp) in
        if 0 <=? k then Some (m * 10 ^ k)
        else if m mod 10 ^ (- k) =? 0 then Some (m / 10 ^ (- k))
        else NaN
    | _, _ => NaN
    end.

Definition parse_decimal (s : string) : num :=
  match s with
  | String c r =>
      if Ascii.eqb c "+" then parse_unsigned r
      else if Ascii.eqb c "-" then option_map Z.opp (parse_unsigned r)
      else parse_unsigned s
  | EmptyString => NaN
  end.

Definition Number (s : string) : num :=
  let t := trimEnd (trimStart s) in
  match t with
  | EmptyString => Some 0
  | String c0 (String c1 r) =>
      if Ascii.eqb c0 "0" && (Ascii.eqb c1 "x" || Ascii.eqb c1 "X")
      then radix_literal 16 r
      else if Ascii.eqb c0 "0" && (Ascii.eqb c1 "o" || Ascii.eqb c1 "O")
      then radix_literal 8 r
      else if Ascii.eqb c0 "0" && (Ascii.eqb c1 "b" || Ascii.eqb c1 "B")
      then radix_literal 2 r
      else parse_decimal t
  | _ => parse_decimal t
  end.

(** *** [n.toString()] on integers *)

Definition digit_char (d : Z) : ascii := ascii_of_N (Z.to_N (48 + d)).

Fixpoint digits_aux (fuel : nat) (n : Z) (acc : string) : string :=
  match fuel with
  | O => acc
  | S f =>
      let acc' := String (digit_char (n mod 10)) acc in
      if n <? 10 then acc' else digits_aux f (n / 10) acc'
  end.

Definition digits (n : Z) : string :=
  digits_aux (S (Z.to_nat (Z.log2 n))) n "".

Definition toString (x : num) : string :=
  match x with
  | None => "NaN"
  | Some z => if z <? 0 then String "-" (digits (- z)) else digits z
  end.

(** [s.padStart(2, '0')] *)
Definition padStart2 (s : string) : string :=
  match String.length s with
  | O => "00" +:+ s
  | S O => "0" +:+ s
  | _ => s
  end.

(** [s.split(':')]: always at least one piece. *)
Fixpoint split_colon (s : string) : list string :=
  match s with
  | EmptyString => [EmptyString]
  | String c r =>
      if Ascii.eqb c ":" then EmptyString :: split_colon r
      else match split_colon r with
           | h :: t => String c h :: t
           | [] => [String c EmptyString]
           end
  end.

(** Reading a destructured array element: a missing element is
    [undefined], which arithmetic turns into [NaN]. *)
Definition elem (l : list num) (i : nat) : num :=
  match l !! i with
  | Some v => v
  | None => NaN
  end.

(** [Math.floor(x / 60)] and [x % 60]; the remainder takes the sign of
    the dividend. *)
Definition floor_div60 (x : num) : num := option_map (fun z => z / 60) x.
Definition rem60 (x : num) : num := option_map (fun z => Z.rem z 60) x.

End JS.

Import JS.

(** ** Time arithmetic ([timeToMinutes], [minutesToTime]) *)

Definition timeToMinutes (time : string) : num :=
  let parts := map Number (split_colon time) in
  let hours := elem parts 0 in
  let minutes := elem parts 1 in
  add (mul hours (Some 60)) minutes.

Definition minutesToTime (minutes : num) : string :=
  let hours := floor_div60 minutes in
  let mins := rem60 minutes in
  padStart2 (toString hours) +:+ ":" +:+ padStart2 (toString mins).

(** ** The task record ([components/TaskCard.tsx]) *)

Module TaskCard.

Inductive TaskType := daily | once | flexible.

Inductive Frequency :=
  | every_day | weekdays | monday_to_saturday | weekends
  | monday | tuesday | wednesday | thursday | friday | saturday | sunday.

Inductive FlexibleDuration := day | week.
Inductive Priority := low | medium | high.

Inductive Category :=
  medicine | appointment | work | family | personal | school.

#[global] Instance TaskType_eq_dec : EqDecision TaskType.
Proof. solve_decision. Defined.
#[global] Instance Frequency_eq_dec : EqDecision Frequency.
Proof. solve_decision. Defined.
#[global] Instance Category_eq_dec : EqDecision Category.
Proof. solve_decision. Defined.

(** Optional fields are [option]s: [None] is an absent ([undefined])
    property.  [suggestedTime] is the field the optimizer writes. *)
Record Task := mkTask {
  id : string;
  title : string;
  type : TaskType;
  frequency : option Frequency;
  completed : bool;
  startTime : option string;
  endTime : option string;
  date : option string;
  flexibleDuration : option FlexibleDuration;
  priority : option Priority;
  category : option Category;
  suggestedTime : option string
}.

(** [{ ...task, suggestedTime: v }] *)
Definition set_suggestedTime (task : Task) (v : option string) : Task :=
  {| id := id task; title := title task; type := type task;
     frequency := frequency task; completed := completed task;
     startTime := startTime task; endTime := endTime task;
     date := date task; flexibleDuration := flexibleDuration task;
     priority := priority task; category := category task;
     suggestedTime := v |}.

(** How a category prints inside a template string. *)
Definition category_text (c : option Category) : string :=
  match c with
  | None => "undefined"
  | Some medicine => "medicine"
  | Some appointment => "appointment"
  | Some work => "work"
  | Some family => "family"
  | Some personal => "personal"
  | Some school => "school"
  end.

End TaskCard.

Import TaskCard.

(** ** The conflict detector ([lib/conflictDetection.ts]) *)

Module ConflictDetection.

Inductive ConflictType := overlap | adjacent | category_conflict.

#[global] Instance ConflictType_eq_dec : EqDecision ConflictType.
Proof. solve_decision. Defined.

Record TimeConflict := mkTimeConflict {
  conflictingTask : Task;
  conflictType : ConflictType;
  message : string
}.

Record ConflictCheckResult := mkResult {
  hasConflicts : bool;
  conflicts : list TimeConflict;
  suggestedTime : option string
}.

Inductive Severity := none | warning | error.

Definition doTimesOverlap
    (start1 : string) (end1 : option string)
    (start2 : string) (end2 : option string) : bool :=
  let start1Min := timeToMinutes start1 in
  let end1Min :=
    match end1 with
    | Some e => if truthy end1 then timeToMinutes e else add start1Min (Some 60)
    | None => add start1Min (Some 60)
    end in
  let start2Min := timeToMinutes start2 in
  let end2Min :=
    match end2 with
    | Some e => if truthy end2 then timeToMinutes e else add start2Min (Some 60)
    | None => add start2Min (Some 60)
    end in
  lt start1Min end2Min && lt start2Min end1Min.

(** [today] stands for [new Date().toISOString().split('T')[0]], the one
    reading of the clock the function makes. *)
Definition shouldCompareTasks (today : string) (task1 task2 : Task) : bool :=
  if completed task1 || completed task2 then false
  else if bool_decide (type task1 = flexible) || bool_decide (type task2 = flexible)
  then false
  else if bool_decide (type task1 = daily) && bool_decide (type task2 = daily)
  then bool_decide (frequency task1 = frequency task2)
  else if bool_decide (type task1 = once) && bool_decide (type task2 = once)
  then bool_decide (date task1 = date task2)
  else if bool_decide (type task1 = daily) && bool_decide (type task2 = once)
  then bool_decide (date task2 = Some today)
  else if bool_decide (type task1 = once) && bool_decide (type task2 = daily)
  then bool_decide (date task1 = Some today)
  else false.

(** The callback of [existingTasks.some] inside the probe loop. *)
Definition probeHits (today : string) (taskToCheck : Task)
    (testTime testEndTime : string) (existingTask : Task) : bool :=
  if negb (shouldCompareTasks today taskToCheck existingTask) then false
  else match startTime existingTask with
       | Some s =>
           if negb (truthy (Some s)) then false
           else doTimesOverlap testTime (Some testEndTime) s (endTime existingTask)
       | None => false
       end.

(** The [for] loop of [findNextAvailableTime]: [n] iterations are left and
    [currentTime] is the start being probed; [None] when the loop runs
    out. *)
Fixpoint probeLoop (today : string) (n : nat) (currentTime : num)
    (existingTasks : list Task) (taskToCheck : Task) : option string :=
  match n with
  | O => None
  | S n' =>
      let testTime := minutesToTime currentTime in
      let testEndTime := minutesToTime (add currentTime (Some 60)) in
      let hasConflict :=
        existsb (probeHits today taskToCheck testTime testEndTime) existingTasks in
      if negb hasConflict then Some testTime
      else probeLoop today n' (add currentTime (Some 30)) existingTasks taskToCheck
  end.

Definition findNextAvailableTime (today : string) (desiredStart : string)
    (existingTasks : list Task) (taskToCheck : Task) : string :=
  let desiredStartMin := timeToMinutes desiredStart in
  match probeLoop today 24 desiredStartMin existingTasks taskToCheck with
  | Some testTime => testTime
  | None => desiredStart
  end.

(** The [for ... of] loop of [checkTimeConflicts], pushing the conflicts
    in the order of [existingTasks]. *)
Fixpoint collectConflicts (today : string) (newTask : Task) (newStart : string)
    (existingTasks : list Task) : list TimeConflict :=
  match existingTasks with
  | [] => []
  | existingTask :: rest =>
      let others := collectConflicts today newTask newStart rest in
      if negb (shouldCompareTasks today newTask existingTask) then others
      else match startTime existingTask with
           | Some s =>
               if negb (truthy (Some s)) then others
               else if doTimesOverlap newStart (endTime newTask) s (endTime existingTask)
               then
                 let conflictType :=
                   if bool_decide (category newTask = category existingTask)
                   then category_conflict else overlap in
                 let message :=
                   if bool_decide (conflictType = category_conflict)
                   then "You have another " +:+ category_text (category existingTask)
                        +:+ " task at " +:+ s
                   else "You have another task at " +:+ s in
                 mkTimeConflict existingTask conflictType message :: others
               else others
           | None => others
           end
  end.

Definition checkTimeConflicts (today : string) (newTask : Task)
    (existingTasks : list Task) : ConflictCheckResult :=
  match startTime newTask with
  | None => mkResult false [] None
  | Some newStart =>
      if negb (truthy (Some newStart)) then mkResult false [] None
      else
        let conflicts := collectConflicts today newTask newStart existingTasks in
        let hasConflicts := Nat.ltb 0 (length conflicts) in
        let suggestedTime :=
          if hasConflicts
          then Some (findNextAvailableTime today newStart existingTasks newTask)
          else None in
        mkResult hasConflicts conflicts suggestedTime
  end.

Definition getConflictSeverity (conflicts : list TimeConflict) : Severity :=
  if Nat.eqb (length conflicts) 0 then none
  else
    let hasCategoryConflict :=
      existsb (fun c => bool_decide (conflictType c = category_conflict)) conflicts in
    if hasCategoryConflict then error else warning.

End ConflictDetection.

Module CD := ConflictDetection.

(** ** The daily allocator (gap-based [optimizeSchedule] of the planner page)

    The page keeps textual copies of [timeToMinutes] and [minutesToTime];
    they compute the same functions as the ones above. *)

Module Optimizer.

Record Interval := mkInterval { start : num; end_ : num }.

(** What the page does besides returning: one toast, and at most one
    [setTasks]. *)
Record Effects := mkEffects {
  toastTitle : string;
  toastDescription : string;
  setTasks : option (list Task)
}.

Definition isActiveFlexible (task : Task) : bool :=
  bool_decide (type task = flexible) && negb (completed task).

Definition isScheduled (task : Task) : bool :=
  truthy (startTime task) && negb (completed task).

(** The object built by [.map] from a task that passed the filter; the
    [None] branch of [startTime] is never reached after the filter. *)
Definition toInterval (task : Task) : Interval :=
  let s := match startTime task with Some s => timeToMinutes s | None => NaN end in
  {| start := s;
     end_ := match endTime task with
             | Some e => if truthy (Some e) then timeToMinutes e else add s (Some 60)
             | None => add s (Some 60)
             end |}.

(** [sort((a, b) => a.start - b.start)].  The sort is stable, and on
    numeric starts the comparator is a consistent ordering, so the result
    is the stable arrangement by [start], computed here by insertion.  A
    comparator result that is not positive (zero, or [NaN]) keeps the
    earlier element first.  With a start that reads as [NaN] the
    comparator is no consistent ordering and the language leaves the
    order of the result to the engine: there the model fixes one
    arrangement of the same elements, and the statements that speak of
    the order of the occupied intervals assume readable times. *)
Fixpoint insertByStart (x : Interval) (l : list Interval) : list Interval :=
  match l with
  | [] => [x]
  | y :: l' =>
      if gt (sub (start x) (start y)) (Some 0) then y :: insertByStart x l'
      else x :: y :: l'
  end.

Definition sortByStart (l : list Interval) : list Interval :=
  foldr insertByStart [] l.

Definition SLEEP_START_1 : num := Some (23 * 60).
Definition SLEEP_END_1 : num := Some (24 * 60).
Definition SLEEP_START_2 : num := Some 0.
Definition SLEEP_END_2 : num := Some (6 * 60).
Definition MORNING_START : num := Some (6 * 60).
Definition MORNING_END : num := Some (7 * 60).
Definition WORK_START : num := Some (7 * 60).
Definition WORK_END : num := Some (23 * 60).

Definition hasTaskIn (scheduledTasks : list Interval) (s e : num) : bool :=
  existsb (fun t => lt (start t) e && gt (end_ t) s) scheduledTasks.

(** One [if (!hasTaskIn(..)) scheduledTasks.push(..)]. *)
Definition pushUnlessTaken (scheduledTasks : list Interval) (s e : num)
    : list Interval :=
  if negb (hasTaskIn scheduledTasks s e)
  then scheduledTasks ++ [mkInterval s e] else scheduledTasks.

(** Steps 1 and 1a: the occupied intervals of the day. *)
Definition scheduledTasks (tasks : list Task) : list Interval :=
  let scheduled := sortByStart (map toInterval (List.filter isScheduled tasks)) in
  let scheduled := pushUnlessTaken scheduled SLEEP_START_1 SLEEP_END_1 in
  let scheduled := pushUnlessTaken scheduled SLEEP_START_2 SLEEP_END_2 in
  let scheduled := pushUnlessTaken scheduled MORNING_START MORNING_END in
  sortByStart scheduled.

(** Step 2: the gap loop.  [gaps l lastEnd] is the list of slots pushed
    from the moment the loop reaches [l] with the given [lastEnd],
    including the trailing slot pushed after the loop. *)
Fixpoint gaps (l : list Interval) (lastEnd : num) : list Interval :=
  match l with
  | [] =>
      if ge (sub WORK_END lastEnd) (Some 60) then [mkInterval lastEnd WORK_END]
      else []
  | t :: l' =>
      let later := gaps l' (max lastEnd (end_ t)) in
      if ge (sub (start t) lastEnd) (Some 60)
      then mkInterval lastEnd (start t) :: later
      else later
  end.

Definition availableSlots (scheduled : list Interval) : list Interval :=
  gaps scheduled WORK_START.

(** The inner [while]: skip the slots with less than 60 minutes left.
    [fuel] bounds the iterations; the length of the slot list is
    enough. *)
Fixpoint skipExhausted (fuel : nat) (slots : list Interval) (slotIdx : nat) : nat :=
  match fuel with
  | O => slotIdx
  | S fuel' =>
      match slots !! slotIdx with
      | Some slot =>
          if lt (sub (end_ slot) (start slot)) (Some 60)
          then skipExhausted fuel' slots (S slotIdx)
          else slotIdx
      | None => slotIdx
      end
  end.

(** Step 3: the assignment loop over the flexible tasks, with the slot
    array and [slotIdx] as its state; a suggestion is the pair
    [(id, suggestedTime)]. *)
Fixpoint assign (flexibleTasks : list Task) (slots : list Interval)
    (slotIdx : nat) : list (string * string) :=
  match flexibleTasks with
  | [] => []
  | task :: rest =>
      let slotIdx := skipExhausted (length slots) slots slotIdx in
      match slots !! slotIdx with
      | None => []
      | Some slot =>
          let suggestedTime := minutesToTime (start slot) in
          (id task, suggestedTime)
            :: assign rest
                 (<[slotIdx := mkInterval (add (start slot) (Some 60)) (end_ slot)]> slots)
                 slotIdx
      end
  end.

Definition suggestions (tasks : list Task) : list (string * string) :=
  assign (List.filter isActiveFlexible tasks)
         (availableSlots (scheduledTasks tasks)) 0.

(** Step 4: the callback of [tasks.map]. *)
Definition applySuggestion (sugg : list (string * string)) (task : Task) : Task :=
  if isActiveFlexible task then
    match List.find (fun s => String.eqb (fst s) (id task)) sugg with
    | Some s => set_suggestedTime task (Some (snd s))
    | None => set_suggestedTime task None
    end
  else task.

Definition optimizeSchedule (tasks : list Task) : Effects :=
  let flexibleTasks := List.filter isActiveFlexible tasks in
  if Nat.eqb (length flexibleTasks) 0 then
    mkEffects "No flexible tasks to optimize"
              "Add some flexible tasks to get AI scheduling suggestions."
              None
  else
    let sugg := suggestions tasks in
    let updatedTasks := map (applySuggestion sugg) tasks in
    mkEffects "Schedule optimized!"
              ("AI suggested times for "
                 +:+ toString (Some (Z.of_nat (length sugg)))
                 +:+ " flexible tasks. Check the schedule tab to see suggestions.")
              (Some updatedTasks).

(** The task collection after a pass. *)
Definition tasksAfter (tasks : list Task) : list Task :=
  match setTasks (optimizeSchedule tasks) with
  | Some updatedTasks => updatedTasks
  | None => tasks
  end.

End Optimizer.

Module Opt := Optimizer.

(** ** The random-hour [optimizeSchedule] of [pages/Index.tsx]

    This older page draws an hour for every active flexible task.
    [draw i] is the value of
    [Math.floor(Math.random() * hours.length)] at the [i]-th call, an
    index into the seven hours. *)

Module RandomOptimizer.

Definition hours : list Z := [9; 10; 11; 14; 15; 16; 17].

Definition suggest (draw : nat -> fin 7) (i : nat) (task : Task) : Task :=
  let randomHour := hours !!! fin_to_nat (draw i) in
  let time := padStart2 (toString (Some randomHour)) +:+ ":00" in
  set_suggestedTime task (Some time).

Definition suggestions (draw : nat -> fin 7) (tasks : list Task) : list Task :=
  imap (suggest draw) (List.filter Opt.isActiveFlexible tasks).

Definition applySuggestion (sugg : list Task) (task : Task) : Task :=
  if Opt.isActiveFlexible task then
    match List.find (fun s => String.eqb (id s) (id task)) sugg with
    | Some s => set_suggestedTime task (suggestedTime s)
    | None => task
    end
  else task.

Definition optimizeSchedule (draw : nat -> fin 7) (tasks : list Task)
    : Opt.Effects :=
  let flexibleTasks := List.filter Opt.isActiveFlexible tasks in
  if Nat.eqb (length flexibleTasks) 0 then
    Opt.mkEffects "No flexible tasks to optimize"
                  "Add some flexible tasks to get AI scheduling suggestions."
                  None
  else
    let sugg := suggestions draw tasks in
    let updatedTasks := map (applySuggestion sugg) tasks in
    Opt.mkEffects "Schedule optimized!"
                  ("AI suggested times for "
                     +:+ toString (Some (Z.of_nat (length sugg)))
                     +:+ " flexible tasks. Check the schedule tab to see suggestions.")
                  (Some updatedTasks).

Definition tasksAfter (draw : nat -> fin 7) (tasks : list Task) : list Task :=
  match Opt.setTasks (optimizeSchedule draw tasks) with
  | Some updatedTasks => updatedTasks
  | None => tasks
  end.

End RandomOptimizer.

(** ** The task list of the planner page

    The handlers of the page that change the task list ([addTask],
    [toggleTaskComplete], [saveEditedTask], [deleteTask]) and the counts
    it shows.  A handler is modelled by what it does to the list it is
    given; [now] stands for [Date.now().toString()]. *)

Module Page.

(** The double-quote character of the toast texts. *)
Definition dquote : string := String "034"%char EmptyString.

(** [{ ...task, id: i }] and [{ ...task, completed: b }] *)
Definition set_id (task : Task) (i : string) : Task :=
  {| id := i; title := title task; type := type task;
     frequency := frequency task; completed := completed task;
     startTime := startTime task; endTime := endTime task;
     date := date task; flexibleDuration := flexibleDuration task;
     priority := priority task; category := category task;
     suggestedTime := suggestedTime task |}.

Definition set_completed (task : Task) (b : bool) : Task :=
  {| id := id task; title := title task; type := type task;
     frequency := frequency task; completed := b;
     startTime := startTime task; endTime := endTime task;
     date := date task; flexibleDuration := flexibleDuration task;
     priority := priority task; category := category task;
     suggestedTime := suggestedTime task |}.

(** The argument [newTask] carries no id of its own: whatever its [id]
    field holds is overwritten. *)
Definition addTask (now : string) (newTask : Task) (prev : list Task)
    : Opt.Effects :=
  let task := set_id newTask now in
  Opt.mkEffects "Task added successfully!"
    (dquote +:+ title task +:+ dquote +:+ " has been added to your planner.")
    (Some (prev ++ [task])%list).

Definition toggleTaskComplete (i : string) (prev : list Task) : list Task :=
  map (fun task =>
         if String.eqb (id task) i
         then set_completed task (negb (completed task))
         else task) prev.

Definition saveEditedTask (updatedTask : Task) (prev : list Task)
    : Opt.Effects :=
  Opt.mkEffects "Task updated successfully!"
    (dquote +:+ title updatedTask +:+ dquote +:+ " has been updated.")
    (Some (map (fun task =>
                  if String.eqb (id task) (id updatedTask)
                  then updatedTask else task) prev)).

Definition deleteTask (i : string) (tasks : list Task) : Opt.Effects :=
  let taskToDelete := List.find (fun task => String.eqb (id task) i) tasks in
  Opt.mkEffects "Task deleted successfully!"
    (dquote +:+ match taskToDelete with
                | Some task => title task
                | None => "undefined"
                end
            +:+ dquote +:+ " has been removed from your planner.")
    (Some (List.filter (fun task => negb (String.eqb (id task) i)) tasks)).

Definition activeTasks (tasks : list Task) : list Task :=
  List.filter (fun task => negb (completed task)) tasks.
Definition completedTasks (tasks : list Task) : list Task :=
  List.filter (fun task => completed task) tasks.
Definition dailyTasks (tasks : list Task) : list Task :=
  List.filter (fun task => bool_decide (type task = daily)) (activeTasks tasks).
Definition onceTasks (tasks : list Task) : list Task :=
  List.filter (fun task => bool_decide (type task = once)) (activeTasks tasks).
Definition flexibleTasks (tasks : list Task) : list Task :=
  List.filter (fun task => bool_decide (type task = flexible)) (activeTasks tasks).

(** The four numbers of the statistics cards, with their labels. *)
Definition stats (tasks : list Task) : list (string * nat) :=
  [("Total Tasks", length (activeTasks tasks));
   ("Daily Tasks", length (dailyTasks tasks));
   ("Appointments", length (onceTasks tasks));
   ("Flexible", length (flexibleTasks tasks))].

(** The list a handler leaves behind. *)
Definition tasksOf (e : Opt.Effects) (prev : list Task) : list Task :=
  match Opt.setTasks e with
  | Some l => l
  | None => prev
  end.

End Page.

(** ** The texts of a task card ([components/TaskCard.tsx]) *)

Module CardText.

(** [null] is [None]. *)
Definition formatTimeRange (startTime endTime : option string) : option string :=
  match startTime with
  | Some s =>
      if negb (truthy (Some s)) then None
      else match endTime with
           | Some e => if negb (truthy (Some e)) then Some s
                       else Some (s +:+ " - " +:+ e)
           | None => Some s
           end
  | None => None
  end.

Definition getFrequencyLabel (frequency : option Frequency) : string :=
  match frequency with
  | None => ""
  | Some every_day => "Every day"
  | Some weekdays => "Mon-Fri"
  | Some monday_to_saturday => "Mon-Sat"
  | Some weekends => "Sat-Sun"
  | Some monday => "Monday"
  | Some tuesday => "Tuesday"
  | Some wednesday => "Wednesday"
  | Some thursday => "Thursday"
  | Some friday => "Friday"
  | Some saturday => "Saturday"
  | Some sunday => "Sunday"
  end.

End CardText.

(** ** Today's schedule ([components/DailySchedule.tsx])

    [dayOfWeek] stands for [new Date().getDay()] (0 is Sunday), [today]
    for the ISO date of the clock, [nowMinutes] for the minutes of the
    clock since midnight, and [localeCompare] for the string comparison
    of the host, whose sign is all the sort reads. *)

Module DailySchedule.

Inductive ItemType := scheduled | flexible.

#[global] Instance ItemType_eq_dec : EqDecision ItemType.
Proof. solve_decision. Defined.

Record ScheduleItem := mkItem {
  time : string;
  task : Task;
  type : ItemType
}.

Definition dayNames : list string :=
  ["sunday"; "monday"; "tuesday"; "wednesday"; "thursday"; "friday"; "saturday"].

(** The string a frequency value is. *)
Definition frequency_text (f : Frequency) : string :=
  match f with
  | every_day => "daily"
  | weekdays => "weekdays"
  | monday_to_saturday => "monday_to_saturday"
  | weekends => "weekends"
  | monday => "monday"
  | tuesday => "tuesday"
  | wednesday => "wednesday"
  | thursday => "thursday"
  | friday => "friday"
  | saturday => "saturday"
  | sunday => "sunday"
  end.

Definition shouldShowTaskToday (dayOfWeek : nat) (task : Task) : bool :=
  let todayName := dayNames !! dayOfWeek in
  match frequency task with
  | None => true
  | Some every_day => true
  | Some weekdays => Nat.leb 1 dayOfWeek && Nat.leb dayOfWeek 5
  | Some monday_to_saturday => Nat.leb 1 dayOfWeek && Nat.leb dayOfWeek 6
  | Some weekends => Nat.eqb dayOfWeek 0 || Nat.eqb dayOfWeek 6
  | Some f => bool_decide (Some (frequency_text f) = todayName)
  end.

(** The callback of the first [tasks.filter]. *)
Definition isTodaysTask (today : string) (dayOfWeek : nat) (task : Task) : bool :=
  if completed task then false
  else if bool_decide (TaskCard.type task = daily)
  then shouldShowTaskToday dayOfWeek task
  else if bool_decide (TaskCard.type task = once)
  then negb (truthy (date task)) || bool_decide (date task = Some today)
  else if bool_decide (TaskCard.type task = TaskCard.flexible)
  then true
  else false.

(** [task.startTime || ''] *)
Definition startOrEmpty (task : Task) : string :=
  match startTime task with
  | Some s => s
  | None => ""
  end.

(** The stable sort by [localeCompare] of the start times, by insertion:
    a positive comparison puts the later element first. *)
Fixpoint insertByTime (localeCompare : string -> string -> Z)
    (x : Task) (l : list Task) : list Task :=
  match l with
  | [] => [x]
  | y :: l' =>
      if 0 <? localeCompare (startOrEmpty x) (startOrEmpty y)
      then y :: insertByTime localeCompare x l'
      else x :: y :: l'
  end.

Definition sortByTime (localeCompare : string -> string -> Z)
    (l : list Task) : list Task :=
  foldr (insertByTime localeCompare) [] l.

(** The item pushed for a task with a start time. *)
Definition scheduledItem (task : Task) : ScheduleItem :=
  let timeDisplay :=
    match endTime task with
    | Some e => if truthy (Some e)
                then startOrEmpty task +:+ " - " +:+ e
                else startOrEmpty task
    | None => startOrEmpty task
    end in
  mkItem timeDisplay task scheduled.

Definition flexibleItem (task : Task) : ScheduleItem :=
  mkItem "Flexible" task flexible.

Definition generateSchedule (localeCompare : string -> string -> Z)
    (today : string) (dayOfWeek : nat) (tasks : list Task)
    : list ScheduleItem :=
  let todaysTasks := List.filter (isTodaysTask today dayOfWeek) tasks in
  let scheduledTasks :=
    sortByTime localeCompare
      (List.filter (fun task => truthy (startTime task)) todaysTasks) in
  let flexibleTasks :=
    List.filter (fun task => negb (truthy (startTime task))) todaysTasks in
  (map scheduledItem scheduledTasks ++ map flexibleItem flexibleTasks)%list.

(** The two lists the component renders.  A flexible item with a
    suggestion is kept only while the suggested time is still ahead; the
    component reads the suggestion with the same split-and-multiply as
    [timeToMinutes]. *)
Definition scheduledItems (schedule : list ScheduleItem) : list ScheduleItem :=
  List.filter (fun item => bool_decide (type item = scheduled)) schedule.

Definition flexibleItems (nowMinutes : Z) (schedule : list ScheduleItem)
    : list ScheduleItem :=
  List.filter
    (fun item =>
       if negb (bool_decide (type item = flexible)) then false
       else match suggestedTime (task item) with
            | Some s =>
                if negb (truthy (Some s)) then true
                else gt (timeToMinutes s) (Some nowMinutes)
            | None => true
            end)
    schedule.

End DailySchedule.

Module DS := DailySchedule.

(** ** The add and edit dialogs ([AddTaskDialog] in
    [components/TaskCard.tsx], [components/EditTaskDialog.tsx])

    The state hooks of a dialog are gathered in one record.  [trim]
    stands for [String.prototype.trim], [today] for the clock as in the
    detector.  A submit is modelled by the task it hands to its callback
    ([None] when it returns early) and the state of the form
    afterwards. *)

Module Dialogs.

Record Form := mkForm {
  title : string;
  type : TaskType;
  frequency : option Frequency;
  startTime : string;
  endTime : string;
  date : string;
  category : option Category;
  flexibleDuration : option FlexibleDuration;
  conflictResult : option CD.ConflictCheckResult
}.

Record Submit := mkSubmit {
  handedOver : option Task;
  formAfter : Form
}.

(** The initial state of the add dialog, to which a successful submit
    resets it. *)
Definition initialForm : Form :=
  {| title := ""; type := flexible; frequency := Some every_day;
     startTime := ""; endTime := ""; date := "";
     category := Some personal; flexibleDuration := Some day;
     conflictResult := None |}.

Definition isTimed (ty : TaskType) : bool :=
  bool_decide (ty = daily) || bool_decide (ty = once).

(** [s && { field: s }]: the field is set only by a non-empty string. *)
Definition nonEmpty (s : string) : option string :=
  if String.eqb s "" then None else Some s.

(** [conflictResult?.hasConflicts] followed by the severity test: the
    submit is refused. *)
Definition refused (form : Form) : bool :=
  match conflictResult form with
  | Some r =>
      CD.hasConflicts r &&
      match CD.getConflictSeverity (CD.conflicts r) with
      | CD.error => true
      | _ => false
      end
  | None => false
  end.

(** *** The add dialog *)

(** The candidate built by the conflict effect.  It has no id yet (the
    detector never reads one); the model writes the empty string. *)
Definition addCandidate (form : Form) : Task :=
  {| TaskCard.id := "";
     TaskCard.title := title form;
     TaskCard.type := type form;
     TaskCard.frequency :=
       if bool_decide (type form = daily) then frequency form else None;
     TaskCard.completed := false;
     TaskCard.startTime := Some (startTime form);
     TaskCard.endTime := Some (endTime form);
     TaskCard.date :=
       if bool_decide (type form = once) then Some (date form) else None;
     TaskCard.flexibleDuration := None;
     TaskCard.priority := None;
     TaskCard.category := category form;
     TaskCard.suggestedTime := None |}.

(** The value the conflict effect stores in [conflictResult]. *)
Definition addCheck (today : string) (form : Form) (existingTasks : list Task)
    : option CD.ConflictCheckResult :=
  if negb (String.eqb (startTime form) "") && isTimed (type form)
  then Some (CD.checkTimeConflicts today (addCandidate form) existingTasks)
  else None.

Definition addedTask (trim : string -> string) (form : Form) : Task :=
  {| TaskCard.id := "";
     TaskCard.title := trim (title form);
     TaskCard.type := type form;
     TaskCard.frequency :=
       if bool_decide (type form = daily) then frequency form else None;
     TaskCard.completed := false;
     TaskCard.startTime := nonEmpty (startTime form);
     TaskCard.endTime := nonEmpty (endTime form);
     TaskCard.date :=
       if bool_decide (type form = once) then nonEmpty (date form) else None;
     TaskCard.flexibleDuration :=
       if bool_decide (type form = flexible) then flexibleDuration form else None;
     TaskCard.priority := None;
     TaskCard.category := category form;
     TaskCard.suggestedTime := None |}.

Definition addSubmit (trim : string -> string) (form : Form) : Submit :=
  if String.eqb (trim (title form)) "" then mkSubmit None form
  else if refused form then mkSubmit None form
  else mkSubmit (Some (addedTask trim form)) initialForm.

(** [handleSuggestedTime], the same in both dialogs. *)
Definition handleSuggestedTime (form : Form) : Form :=
  match conflictResult form with
  | Some r =>
      match CD.suggestedTime r with
      | Some t =>
          if String.eqb t "" then form
          else {| title := title form; type := type form;
                  frequency := frequency form; startTime := t;
                  endTime := endTime form; date := date form;
                  category := category form;
                  flexibleDuration := flexibleDuration form;
                  conflictResult := conflictResult form |}
      | None => form
      end
  | None => form
  end.

(** *** The edit dialog *)

(** The effect that fills the form from the task being edited; an absent
    or empty field takes the default after [||]. *)
Definition loadTask (form : Form) (task : Task) : Form :=
  {| title := TaskCard.title task;
     type := TaskCard.type task;
     frequency := match TaskCard.frequency task with
                  | Some f => Some f
                  | None => Some every_day
                  end;
     startTime := match TaskCard.startTime task with Some s => s | None => "" end;
     endTime := match TaskCard.endTime task with Some s => s | None => "" end;
     date := match TaskCard.date task with Some s => s | None => "" end;
     category := match TaskCard.category task with
                 | Some c => Some c
                 | None => Some personal
                 end;
     flexibleDuration := match TaskCard.flexibleDuration task with
                         | Some d => Some d
                         | None => Some day
                         end;
     conflictResult := conflictResult form |}.

Definition editCandidate (form : Form) (task : Task) : Task :=
  {| TaskCard.id := TaskCard.id task;
     TaskCard.title := title form;
     TaskCard.type := type form;
     TaskCard.frequency :=
       if bool_decide (type form = daily) then frequency form else None;
     TaskCard.completed := TaskCard.completed task;
     TaskCard.startTime := Some (startTime form);
     TaskCard.endTime := Some (endTime form);
     TaskCard.date :=
       if bool_decide (type form = once) then Some (date form) else None;
     TaskCard.flexibleDuration := TaskCard.flexibleDuration task;
     TaskCard.priority := TaskCard.priority task;
     TaskCard.category := category form;
     TaskCard.suggestedTime := TaskCard.suggestedTime task |}.

Definition otherTasks (task : Task) (existingTasks : list Task) : list Task :=
  List.filter (fun t => negb (String.eqb (TaskCard.id t) (TaskCard.id task)))
    existingTasks.

Definition editCheck (today : string) (form : Form) (task : option Task)
    (existingTasks : list Task) : option CD.ConflictCheckResult :=
  match task with
  | Some task =>
      if negb (String.eqb (startTime form) "") && isTimed (type form)
      then Some (CD.checkTimeConflicts today (editCandidate form task)
                   (otherTasks task existingTasks))
      else None
  | None => None
  end.

(** The object spread of [handleSubmit], field by field: later entries
    win, and an empty form field adds no entry, so the field of the task
    being edited stays. *)
Definition editedTask (trim : string -> string) (form : Form) (task : Task)
    : Task :=
  let timed := isTimed (type form) in
  {| TaskCard.id := TaskCard.id task;
     TaskCard.title := trim (title form);
     TaskCard.type := type form;
     TaskCard.frequency :=
       if bool_decide (type form = daily) then frequency form else None;
     TaskCard.completed := TaskCard.completed task;
     TaskCard.startTime :=
       if negb timed then None
       else match nonEmpty (startTime form) with
            | Some s => Some s
            | None => TaskCard.startTime task
            end;
     TaskCard.endTime :=
       if negb timed then None
       else match nonEmpty (endTime form) with
            | Some s => Some s
            | None => TaskCard.endTime task
            end;
     TaskCard.date :=
       if negb (bool_decide (type form = once)) then None
       else match nonEmpty (date form) with
            | Some s => Some s
            | None => TaskCard.date task
            end;
     TaskCard.flexibleDuration :=
       if bool_decide (type form = flexible) then flexibleDuration form else None;
     TaskCard.priority := TaskCard.priority task;
     TaskCard.category := category form;
     TaskCard.suggestedTime := TaskCard.suggestedTime task |}.

Definition editSubmit (trim : string -> string) (form : Form)
    (task : option Task) : Submit :=
  match task with
  | Some task =>
      if String.eqb (trim (title form)) "" then mkSubmit None form
      else if refused form then mkSubmit None form
      else mkSubmit (Some (editedTask trim form task)) form
  | None => mkSubmit None form
  end.

End Dialogs.

(** ** Notions used in the statements *)

(** A string made of decimal digits only. *)
Fixpoint is_digits (s : string) : bool :=
  match s with
  | EmptyString => true
  | String c r =>
      match digit_of c with Some _ => is_digits r | None => false end
  end.

(** The end of an interval in minutes: the end string when one is given
    (a non-empty string), the start plus 60 minutes otherwise. *)
Definition intervalEnd (start : string) (end_ : option string) : num :=
  match end_ with
  | Some e => if String.eqb e "" then add (timeToMinutes start) (Some 60)
              else timeToMinutes e
  | None => add (timeToMinutes start) (Some 60)
  end.

(** The half-open intervals [[a1, b1)] and [[a2, b2)] of minutes meet. *)
Definition meet (a1 b1 a2 b2 : Z) : Prop := a1 < b2 /\ a2 < b1.

(** An existing task takes part in the check of [newTask] and its interval
    meets the 60-minute interval that starts at minute [x]. *)
Definition blocks (today : string) (newTask : Task) (x : Z) (e : Task) : Prop :=
  CD.shouldCompareTasks today newTask e = true /\
  exists s a b, startTime e = Some s /\ s <> "" /\
    timeToMinutes s = Some a /\ intervalEnd s (endTime e) = Some b /\
    meet x (x + 60) a b.

(** The probe at minute [x] is conflict-free against [existingTasks]. *)
Definition probeFree (today : string) (newTask : Task)
    (existingTasks : list Task) (x : Z) : Prop :=
  forall e, e ∈ existingTasks -> ~ blocks today newTask x e.

(** An occupied interval with numeric bounds whose end is not before its
    start. *)
Definition proper (iv : Opt.Interval) : Prop :=
  exists a b, iv = Opt.mkInterval (Some a) (Some b) /\ a <= b.

Definition startsBefore (x y : Opt.Interval) : Prop :=
  exists a a', Opt.start x = Some a /\ Opt.start y = Some a' /\ a <= a'.

(** The times of a task read as minutes, and the task does not end before
    it starts (the end being the start plus 60 minutes when none is
    given). *)
Definition wellTimed (task : Task) : Prop :=
  forall s, startTime task = Some s ->
  exists a b, timeToMinutes s = Some a /\
              intervalEnd s (endTime task) = Some b /\ a <= b.

(** A free slot [[a, b)] with at least [60] minutes, starting at or after
    minute [L]. *)
Definition roomy (L : Z) (slot : Opt.Interval) : Prop :=
  exists a b, slot = Opt.mkInterval (Some a) (Some b) /\ L <= a /\ a + 60 <= b.

(** The slot [slot] lies apart from the interval [iv]. *)
Definition apart (slot iv : Opt.Interval) : Prop :=
  exists a b p q,
    slot = Opt.mkInterval (Some a) (Some b) /\
    iv = Opt.mkInterval (Some p) (Some q) /\ (q <= a \/ b <= p).

(** The slot array: every entry has numeric bounds, and an entry ends
    before any later entry starts. *)
Definition chained (slots : list Opt.Interval) : Prop :=
  (forall j slot, slots !! j = Some slot ->
     exists a b, slot = Opt.mkInterval (Some a) (Some b)) /\
  (forall j j' a b a' b', (j < j')%nat ->
     slots !! j = Some (Opt.mkInterval (Some a) (Some b)) ->
     slots !! j' = Some (Opt.mkInterval (Some a') (Some b')) -> b <= a').

(** Minute [x] starts a full hour inside a slot at index [i] or later. *)
Definition placed (slots : list Opt.Interval) (i : nat) (x : Z) : Prop :=
  exists j a b, (i <= j)%nat /\
    slots !! j = Some (Opt.mkInterval (Some a) (Some b)) /\
    a <= x /\ x + 60 <= b.

(** [tasks'] is [tasks] with other values in the [suggestedTime] fields. *)
Definition resuggested (tasks tasks' : list Task) : Prop :=
  Forall2 (fun t t' => exists v, t' = set_suggestedTime t v) tasks tasks'.

(** A time string in the canonical shape [HH:MM]: two digits, a colon,
    two digits, the minutes below 60. *)
Definition canonicalTime (s : string) : bool :=
  match s with
  | String h1 (String h2 (String c (String m1 (String m2 EmptyString)))) =>
      match digit_of h1, digit_of h2, digit_of m1, digit_of m2 with
      | Some _, Some _, Some d, Some _ => Ascii.eqb c ":" && (d <=? 5)
      | _, _, _, _ => false
      end
  | _ => false
  end.

(** A canonical time of the 24-hour clock: the hours are at most 23. *)
Definition clockTime (s : string) : bool :=
  canonicalTime s &&
  match s with
  | String h1 (String h2 _) =>
      match digit_of h1, digit_of h2 with
      | Some a, Some b => a * 10 + b <=? 23
      | _, _ => false
      end
  | _ => false
  end.

(** The test [checkTimeConflicts] applies to one existing task [e] for a
    candidate that starts at [newStart]: the pair is compared, [e] has a
    start time, and the two intervals overlap. *)
Definition overlapsTask (today : string) (newTask : Task) (newStart : string)
    (e : Task) : bool :=
  CD.shouldCompareTasks today newTask e &&
  match startTime e with
  | Some s =>
      negb (String.eqb s "") &&
      CD.doTimesOverlap newStart (endTime newTask) s (endTime e)
  | None => false
  end.

(** [{ ...task, startTime: v }] *)
Definition set_startTime (task : Task) (v : option string) : Task :=
  {| id := id task; title := title task; type := type task;
     frequency := frequency task; completed := completed task;
     startTime := v; endTime := endTime task;
     date := date task; flexibleDuration := flexibleDuration task;
     priority := priority task; category := category task;
     suggestedTime := suggestedTime task |}.

(** The whole hours a slot can still give, and the whole hours left in a
    list of slots. *)
Definition capacity (slot : Opt.Interval) : nat :=
  match Opt.start slot, Opt.end_ slot with
  | Some a, Some b => Z.to_nat ((b - a) / 60)
  | _, _ => 0%nat
  end.

Definition freeHours (slots : list Opt.Interval) : nat :=
  foldr (fun slot n => (capacity slot + n)%nat) 0%nat slots.

(** The intervals of the user's own tasks, before any block is added. *)
Definition userIntervals (tasks : list Task) : list Opt.Interval :=
  map Opt.toInterval (List.filter Opt.isScheduled tasks).

(** A non-completed task with a start time starts at or before minute
    [limit]. *)
Definition startsBy (limit : Z) (task : Task) : Prop :=
  forall s, startTime task = Some s -> s <> "" ->
  exists a, timeToMinutes s = Some a /\ a <= limit.

(** A task as the dialogs themselves produce it: the title is trimmed
    and not empty, a category is set, and the optional fields go with
    the type (a frequency exactly for a daily task, a duration exactly
    for a flexible one, a date only for a one-time task, no times on a
    flexible task). *)
Definition dialogShaped (trim : string -> string) (task : Task) : Prop :=
  trim (title task) = title task /\ title task <> "" /\
  category task <> None /\
  (frequency task <> None <-> type task = daily) /\
  (flexibleDuration task <> None <-> type task = flexible) /\
  (type task <> once -> date task = None) /\
  (type task = flexible -> startTime task = None /\ endTime task = None).

(** The minutes that the text printed by [minutesToTime] for minute [x]
    reads back as: the printed hour is the floor of [x / 60] and the
    printed minute the remainder with the sign of [x]. *)
Definition readBack (x : Z) : Z := x / 60 * 60 + Z.rem x 60.

(** ** Sample tasks *)

Definition sampleTask (i : string) (ty : TaskType) (c : Category)
    (s e : option string) : Task :=
  {| id := i; title := "task " +:+ i; type := ty;
     frequency := match ty with daily => Some every_day | _ => None end;
     completed := false; startTime := s; endTime := e; date := None;
     flexibleDuration := match ty with flexible => Some day | _ => None end;
     priority := None; category := Some c; suggestedTime := None |}.

(** Scenario of the planner: [taskA] occupies 09:00-10:00 every day and
    [taskB] is a daily candidate at 09:30. *)
Definition taskA : Task := sampleTask "A" daily work (Some "09:00") (Some "10:00").
Definition taskB : Task := sampleTask "B" daily family (Some "09:30") None.
Definition taskNoStart : Task := sampleTask "N" daily work None None.

(** A day filled from 07:00 to 23:00, and a flexible task that still
    carries the suggestion of an earlier pass. *)
Definition taskAllDay : Task :=
  sampleTask "D" daily work (Some "07:00") (Some "23:00").
Definition taskStale : Task :=
  set_suggestedTime (sampleTask "F" flexible personal None None) (Some "09:00").

(** Two flexible tasks waiting for a slot. *)
Definition taskFlex1 : Task := sampleTask "F1" flexible personal None None.
Definition taskFlex2 : Task := sampleTask "F2" flexible family None None.

(** The two fixed tasks of the allocator scenario. *)
Definition taskMorning : Task := sampleTask "M" daily work (Some "08:00") (Some "09:00").
Definition taskNoon : Task := sampleTask "L" once family (Some "12:00") (Some "13:00").

(** A task whose end time is earlier than its start time, and a third
    flexible task. *)
Definition taskInverted : Task :=
  sampleTask "I" daily work (Some "09:00") (Some "07:00").
Definition taskFlex3 : Task := sampleTask "F3" flexible school None None.

(** Two outcomes of the random draws: always the first hour, always the
    second. *)
Definition drawFirst : nat -> fin 7 := fun _ => 0%fin.
Definition drawSecond : nat -> fin 7 := fun _ => 1%fin.

(** A Monday-to-Saturday task and a weekend task at the same hour. *)
Definition taskMonSat : Task :=
  {| id := "MS"; title := "shop"; type := daily;
     frequency := Some monday_to_saturday; completed := false;
     startTime := Some "10:00"; endTime := Some "11:00"; date := None;
     flexibleDuration := None; priority := None; category := Some work;
     suggestedTime := None |}.
Definition taskWeekend : Task :=
  {| id := "WE"; title := "market"; type := daily;
     frequency := Some weekends; completed := false;
     startTime := Some "10:30"; endTime := None; date := None;
     flexibleDuration := None; priority := None; category := Some family;
     suggestedTime := None |}.

(** A form of the dialogs: a daily family task at 09:30, with the
    stored conflict result left open, and the same form once the
    conflict effect has run against [taskA]. *)
Definition formStandup (r : option CD.ConflictCheckResult) : Dialogs.Form :=
  {| Dialogs.title := "standup"; Dialogs.type := daily;
     Dialogs.frequency := Some every_day; Dialogs.startTime := "09:30";
     Dialogs.endTime := ""; Dialogs.date := "";
     Dialogs.category := Some family; Dialogs.flexibleDuration := Some day;
     Dialogs.conflictResult := r |}.
Definition formChecked : Dialogs.Form :=
  formStandup (Dialogs.addCheck "2025-01-01" (formStandup None) [taskA]).

(** A candidate whose start time reads as a negative number of minutes,
    and an existing task of twenty minutes at the same start. *)
Definition taskMinus : Task := sampleTask "E1" daily work (Some "-1:00") None.
Definition taskMinusShort : Task :=
  sampleTask "E2" daily family (Some "-1:00") (Some "-1:20").

(** * Properties *)

(** ** Printing and reading numbers *)

Section Decimal.

Lemma str_nil (t : string) : "" +:+ t = t.
Proof. reflexivity. Qed.

Lemma str_cons c (s t : string) : String c s +:+ t = String c (s +:+ t).
Proof. reflexivity. Qed.

Lemma str_nil_r (s : string) : s +:+ "" = s.
Proof.
  induction s as [| c s IH]; [reflexivity |].
  rewrite str_cons. f_equal. exact IH.
Qed.

Lemma digit_of_digit_char d :
  0 <= d < 10 -> digit_of (digit_char d) = Some d.
Proof.
  intros Hd.
  assert (Hcases : d = 0 \/ d = 1 \/ d = 2 \/ d = 3 \/ d = 4 \/
                   d = 5 \/ d = 6 \/ d = 7 \/ d = 8 \/ d = 9) by lia.
  repeat (destruct Hcases as [-> | Hcases]; [reflexivity |]).
  subst d; reflexivity.
Qed.

Lemma parse_digits_app s1 s2 a :
  parse_digits (s1 +:+ s2) a =
  match parse_digits s1 a with
  | Some v => parse_digits s2 v
  | None => None
  end.
Proof.
  revert a; induction s1 as [| c s1 IH]; intros a; [reflexivity |].
  rewrite str_cons. simpl.
  destruct (digit_of c); [apply IH | reflexivity].
Qed.

Lemma is_digits_app s1 s2 :
  is_digits (s1 +:+ s2) = is_digits s1 && is_digits s2.
Proof.
  induction s1 as [| c s1 IH]; [reflexivity |].
  rewrite str_cons. simpl.
  destruct (digit_of c); [apply IH | reflexivity].
Qed.

Lemma string_app_assoc (s1 s2 s3 : string) :
  (s1 +:+ s2) +:+ s3 = s1 +:+ (s2 +:+ s3).
Proof.
  induction s1 as [| c s1 IH]; [reflexivity |].
  rewrite !str_cons. f_equal. exact IH.
Qed.

Lemma string_length_app (s1 s2 : string) :
  String.length (s1 +:+ s2) = (String.length s1 + String.length s2)%nat.
Proof.
  induction s1 as [| c s1 IH]; [reflexivity |].
  rewrite str_cons. simpl. now rewrite IH.
Qed.

(** The digit loop prepends to [acc] a non-empty digit string that reads
    back as [n], as long as the fuel covers the digits of [n]. *)
Lemma digits_aux_spec fuel :
  forall n acc, 0 <= n < 10 ^ Z.of_nat (S fuel) ->
  exists p, digits_aux (S fuel) n acc = p +:+ acc /\ is_digits p = true /\
            parse_digits p 0 = Some n /\ (1 <= String.length p)%nat.
Proof.
  induction fuel as [| f IH]; intros n acc Hn;
    assert (Hd : 0 <= n mod 10 < 10) by (apply Z.mod_pos_bound; lia);
    cbn [digits_aux]; destruct (Z.ltb_spec n 10) as [Hlt | Hge].
  1, 3: exists (String (digit_char (n mod 10)) "");
    rewrite str_cons, str_nil; simpl;
    rewrite (digit_of_digit_char _ Hd), Z.mod_small by lia;
    repeat split; lia.
  - change (10 ^ Z.of_nat 1) with 10 in Hn. lia.
  - destruct (IH (n / 10) (String (digit_char (n mod 10)) acc))
      as (p & Hp & Hdig & Hparse & Hlen).
    { split; [apply Z.div_pos; lia |].
      apply Z.div_lt_upper_bound; [lia |].
      rewrite (Nat2Z.inj_succ (S f)), Z.pow_succ_r in Hn; lia. }
    exists (p +:+ String (digit_char (n mod 10)) "").
    cbn [digits_aux] in Hp.
    rewrite Hp, string_app_assoc, str_cons, str_nil.
    split; [reflexivity |].
    rewrite is_digits_app, Hdig, parse_digits_app, Hparse,
      string_length_app. simpl.
    rewrite (digit_of_digit_char _ Hd).
    repeat split; [| lia].
    f_equal. pose proof (Z.div_mod n 10). lia.
Qed.

Lemma digits_spec n :
  0 <= n ->
  is_digits (digits n) = true /\ parse_digits (digits n) 0 = Some n /\
  (1 <= String.length (digits n))%nat.
Proof.
  intros Hn. unfold digits.
  destruct (digits_aux_spec (Z.to_nat (Z.log2 n)) n "") as (p & Hp & H).
  - split; [lia |].
    rewrite Nat2Z.inj_succ, Z2Nat.id by apply Z.log2_nonneg.
    destruct (Z.eq_dec n 0) as [-> | Hne]; [reflexivity |].
    assert (Hlog : n < 2 ^ Z.succ (Z.log2 n)) by (apply Z.log2_spec; lia).
    assert (Hpow : 2 ^ Z.succ (Z.log2 n) <= 10 ^ Z.succ (Z.log2 n)).
    { apply Z.pow_le_mono_l. lia. }
    lia.
  - rewrite Hp, str_nil_r. exact H.
Qed.

Lemma padStart2_digits s :
  is_digits s = true -> (1 <= String.length s)%nat ->
  is_digits (padStart2 s) = true /\
  parse_digits (padStart2 s) 0 = parse_digits s 0 /\
  (2 <= String.length (padStart2 s))%nat.
Proof.
  intros Hd Hlen. unfold padStart2.
  destruct s as [| c [| c' s]]; simpl in *; try lia.
  - destruct (digit_of c); [| discriminate].
    repeat split; lia.
  - repeat split; try assumption; lia.
Qed.

Lemma split_colon_digits p q :
  is_digits p = true -> split_colon (p +:+ String ":" q) = p :: split_colon q.
Proof.
  induction p as [| c p IH]; intros Hd; [reflexivity |].
  rewrite str_cons. simpl in *.
  destruct (Ascii.eqb_spec c ":") as [-> | Hc]; [discriminate |].
  destruct (digit_of c); [| discriminate].
  now rewrite (IH Hd).
Qed.

Lemma split_colon_no_colon p :
  is_digits p = true -> split_colon p = [p].
Proof.
  induction p as [| c p IH]; simpl; intros Hd; [reflexivity |].
  destruct (Ascii.eqb_spec c ":") as [-> | Hc]; [discriminate |].
  destruct (digit_of c); [| discriminate].
  now rewrite (IH Hd).
Qed.

(** A decimal digit is no blank, no sign and no radix letter. *)
Lemma digit_of_plain c d :
  digit_of c = Some d ->
  is_white c = false /\
  Ascii.eqb c "x" || Ascii.eqb c "X" = false /\
  Ascii.eqb c "o" || Ascii.eqb c "O" = false /\
  Ascii.eqb c "b" || Ascii.eqb c "B" = false /\
  Ascii.eqb c "+" = false /\ Ascii.eqb c "-" = false.
Proof.
  destruct c as [[] [] [] [] [] [] [] []]; vm_compute; intros H;
    try discriminate; repeat split.
Qed.

Lemma trimStart_digits s : is_digits s = true -> trimStart s = s.
Proof.
  destruct s as [| c s]; [reflexivity |]. simpl.
  destruct (digit_of c) as [d |] eqn:Hc; [| discriminate].
  intros _. destruct (digit_of_plain _ _ Hc) as (-> & _). reflexivity.
Qed.

Lemma trimEnd_digits s : is_digits s = true -> trimEnd s = s.
Proof.
  induction s as [| c s IH]; [reflexivity |]. simpl.
  destruct (digit_of c) as [d |] eqn:Hc; [| discriminate].
  intros Hs. rewrite (IH Hs).
  destruct (digit_of_plain _ _ Hc) as (-> & _).
  destruct s; reflexivity.
Qed.

Lemma span_digits_digits s : is_digits s = true -> span_digits s = (s, "").
Proof.
  induction s as [| c s IH]; [reflexivity |]. simpl.
  destruct (digit_of c); [| discriminate].
  intros Hs. rewrite (IH Hs). reflexivity.
Qed.

Lemma parse_unsigned_digits s :
  is_digits s = true -> s <> "" -> parse_unsigned s = parse_digits s 0.
Proof.
  intros Hs Hne. unfold parse_unsigned.
  rewrite (span_digits_digits _ Hs), str_nil_r.
  apply String.eqb_neq in Hne. rewrite Hne.
  cbn [andb parse_exponent String.length].
  destruct (parse_digits s 0) as [m |]; [| reflexivity].
  change (0 - Z.of_nat 0) with 0. change (0 <=? 0) with true.
  cbn iota. f_equal. change (10 ^ 0) with 1. lia.
Qed.

Lemma parse_decimal_digits s :
  is_digits s = true -> s <> "" -> parse_decimal s = parse_digits s 0.
Proof.
  intros Hs Hne. destruct s as [| c r]; [now elim Hne |].
  unfold parse_decimal.
  assert (Hc : exists d, digit_of c = Some d).
  { simpl in Hs. destruct (digit_of c) as [d |]; [eauto | discriminate]. }
  destruct Hc as (d & Hc).
  destruct (digit_of_plain _ _ Hc) as (_ & _ & _ & _ & -> & ->).
  now apply parse_unsigned_digits.
Qed.

(** On a string of decimal digits [Number] is the plain digit reader. *)
Lemma Number_digits s : is_digits s = true -> Number s = parse_digits s 0.
Proof.
  intros Hs. unfold Number.
  rewrite (trimStart_digits _ Hs), (trimEnd_digits _ Hs).
  destruct s as [| c0 [| c1 r]]; [reflexivity | |].
  - apply parse_decimal_digits; [exact Hs | discriminate].
  - assert (Hc : exists d, digit_of c1 = Some d).
    { simpl in Hs. destruct (digit_of c0); [| discriminate].
      destruct (digit_of c1) as [d |]; [eauto | discriminate]. }
    destruct Hc as (d & Hc).
    destruct (digit_of_plain _ _ Hc) as (_ & -> & -> & -> & _).
    rewrite andb_false_r.
    apply parse_decimal_digits; [exact Hs | discriminate].
Qed.

(** A minus sign before decimal digits negates their value. *)
Lemma Number_minus_digits d :
  is_digits d = true -> d <> "" ->
  Number (String "-" d) = option_map Z.opp (parse_digits d 0).
Proof.
  intros Hd Hne. unfold Number.
  change (trimStart (String "-" d)) with (String "-" d).
  assert (Htrim : trimEnd (String "-" d) = String "-" d).
  { cbn [trimEnd]. rewrite (trimEnd_digits _ Hd).
    destruct d; [now elim Hne | reflexivity]. }
  rewrite Htrim. destruct d as [| c r]; [now elim Hne |].
  change (Ascii.eqb "-" "0") with false. cbn [andb].
  unfold parse_decimal.
  change (Ascii.eqb "-" "+") with false. change (Ascii.eqb "-" "-") with true.
  cbn iota. now rewrite parse_unsigned_digits.
Qed.

(** What [toString] and [padStart] print for an integer reads back as
    that integer and holds no colon. *)
Lemma printed_number z :
  let p := padStart2 (toString (Some z)) in
  Number p = Some z /\
  (forall q, split_colon (p +:+ String ":" q) = p :: split_colon q) /\
  split_colon p = [p].
Proof.
  intros p. subst p. cbn [toString].
  destruct (Z.ltb_spec z 0) as [Hneg | Hpos].
  - destruct (digits_spec (- z) ltac:(lia)) as (Hd & Hp & Hl).
    assert (Hne : digits (- z) <> "").
    { intros Heq. rewrite Heq in Hl. simpl in Hl. lia. }
    assert (Hpad : padStart2 (String "-" (digits (- z))) = String "-" (digits (- z))).
    { unfold padStart2. destruct (digits (- z)); [now elim Hne | reflexivity]. }
    rewrite Hpad. split; [| split].
    + rewrite (Number_minus_digits _ Hd Hne), Hp. simpl. f_equal. lia.
    + intros q. rewrite str_cons. cbn [split_colon].
      change (Ascii.eqb "-" ":") with false. cbn iota.
      now rewrite (split_colon_digits _ q Hd).
    + cbn [split_colon]. change (Ascii.eqb "-" ":") with false. cbn iota.
      now rewrite (split_colon_no_colon _ Hd).
  - destruct (digits_spec z Hpos) as (Hd & Hp & Hl).
    destruct (padStart2_digits _ Hd Hl) as (Hd' & Hp' & _).
    split; [| split].
    + now rewrite (Number_digits _ Hd'), Hp'.
    + intros q. now apply split_colon_digits.
    + now apply split_colon_no_colon.
Qed.

End Decimal.

(** ** Time arithmetic *)

Example timeToMinutes_0930 : timeToMinutes "09:30" = Some 570.
Proof. reflexivity. Qed.

Example minutesToTime_570 : minutesToTime (Some 570) = "09:30".
Proof. reflexivity. Qed.

Example timeToMinutes_malformed : timeToMinutes "soon" = NaN.
Proof. reflexivity. Qed.

Example minutesToTime_NaN : minutesToTime NaN = "NaN:NaN".
Proof. reflexivity. Qed.

(** The shape of [minutesToTime] on a non-negative number of minutes. *)
Lemma minutesToTime_nonneg m :
  0 <= m ->
  minutesToTime (Some m) =
  padStart2 (digits (m / 60)) +:+ ":" +:+ padStart2 (digits (m mod 60)).
Proof.
  intros Hm. unfold minutesToTime. simpl.
  rewrite Z.rem_mod_nonneg by lia.
  assert (H1 : 0 <= m / 60) by (apply Z.div_pos; lia).
  assert (H2 : 0 <= m mod 60) by (apply Z.mod_pos_bound; lia).
  destruct (Z.ltb_spec (m / 60) 0); [lia |].
  destruct (Z.ltb_spec (m mod 60) 0); [lia |].
  reflexivity.
Qed.

(** Reading back a printed time gives the minutes that were printed. *)
Lemma timeToMinutes_minutesToTime m :
  0 <= m -> timeToMinutes (minutesToTime (Some m)) = Some m.
Proof.
  intros Hm. rewrite minutesToTime_nonneg by assumption.
  assert (H1 : 0 <= m / 60) by (apply Z.div_pos; lia).
  assert (H2 : 0 <= m mod 60) by (apply Z.mod_pos_bound; lia).
  destruct (digits_spec _ H1) as (Hd1 & Hp1 & Hl1).
  destruct (digits_spec _ H2) as (Hd2 & Hp2 & Hl2).
  destruct (padStart2_digits _ Hd1 Hl1) as (Hd1' & Hp1' & _).
  destruct (padStart2_digits _ Hd2 Hl2) as (Hd2' & Hp2' & _).
  unfold timeToMinutes.
  rewrite str_cons, str_nil.
  rewrite split_colon_digits, split_colon_no_colon by assumption.
  cbn [map elem lookup list_lookup].
  rewrite !Number_digits by assumption.
  rewrite Hp1', Hp1, Hp2', Hp2. simpl. f_equal.
  pose proof (Z.div_mod m 60). lia.
Qed.

Lemma minutesToTime_truthy m : truthy (Some (minutesToTime m)) = true.
Proof.
  unfold truthy, minutesToTime.
  destruct (padStart2 (toString (floor_div60 m))); reflexivity.
Qed.

(** C8.  For every non-negative number of minutes [m], [minutesToTime]
    prints the decimal hour [m / 60] and the decimal minute [m mod 60],
    each padded with a zero to two characters, around a colon; the two
    pieces read back as exactly these numbers, so nothing is reduced
    modulo 1440: from 1440 minutes on the hour printed is at least 24,
    and 1500 minutes print as 25:00. *)
Theorem minutesToTime_not_normalized (m : Z) :
  0 <= m ->
  minutesToTime (Some m) =
    padStart2 (toString (Some (m / 60))) +:+ ":"
      +:+ padStart2 (toString (Some (m mod 60))) /\
  (exists hh mm : string,
     split_colon (minutesToTime (Some m)) = [hh; mm] /\
     (2 <= String.length hh)%nat /\ (2 <= String.length mm)%nat /\
     Number hh = Some (m / 60) /\ Number mm = Some (m mod 60) /\
     (1440 <= m -> exists h, Number hh = Some h /\ 24 <= h)) /\
  minutesToTime (Some 1500) = "25:00" /\
  minutesToTime (Some 1500) <> "01:00".
Proof.
  intros Hm.
  assert (H1 : 0 <= m / 60) by (apply Z.div_pos; lia).
  assert (H2 : 0 <= m mod 60) by (apply Z.mod_pos_bound; lia).
  destruct (digits_spec _ H1) as (Hd1 & Hp1 & Hl1).
  destruct (digits_spec _ H2) as (Hd2 & Hp2 & Hl2).
  destruct (padStart2_digits _ Hd1 Hl1) as (Hd1' & Hp1' & Hl1').
  destruct (padStart2_digits _ Hd2 Hl2) as (Hd2' & Hp2' & Hl2').
  assert (Hts1 : toString (Some (m / 60)) = digits (m / 60)).
  { simpl. destruct (Z.ltb_spec (m / 60) 0); [lia | reflexivity]. }
  assert (Hts2 : toString (Some (m mod 60)) = digits (m mod 60)).
  { simpl. destruct (Z.ltb_spec (m mod 60) 0); [lia | reflexivity]. }
  rewrite Hts1, Hts2, <- minutesToTime_nonneg by assumption.
  split; [reflexivity |]. split; [| split; [reflexivity | discriminate]].
  exists (padStart2 (digits (m / 60))), (padStart2 (digits (m mod 60))).
  rewrite minutesToTime_nonneg, str_cons, str_nil by assumption.
  rewrite split_colon_digits, split_colon_no_colon by assumption.
  rewrite !Number_digits by assumption. rewrite Hp1', Hp2'.
  repeat split; try assumption.
  intros Hbig. exists (m / 60). split; [assumption |].
  apply Z.div_le_lower_bound; lia.
Qed.

Lemma minutesToTime_not_normalized_witness :
  0 <= 1500 /\
  minutesToTime (Some 1500) =
    padStart2 (toString (Some (1500 / 60))) +:+ ":"
      +:+ padStart2 (toString (Some (1500 mod 60))).
Proof.
  split; [lia |].
  apply (minutesToTime_not_normalized 1500). lia.
Defined.

(** ** The overlap test *)

Lemma lt_Some_iff (a b : num) :
  lt a b = true <-> exists x y, a = Some x /\ b = Some y /\ x < y.
Proof.
  destruct a as [x |], b as [y |]; simpl; split;
    try discriminate; try (intros (? & ? & ? & ? & ?); discriminate).
  - intros H. exists x, y. repeat split. lia.
  - intros (x' & y' & Hx & Hy & Hlt). inversion Hx; inversion Hy; subst. lia.
Qed.

(** [doTimesOverlap] compares the starts with the ends as [intervalEnd]
    gives them. *)
Lemma doTimesOverlap_unfold s1 e1 s2 e2 :
  CD.doTimesOverlap s1 e1 s2 e2 =
  lt (timeToMinutes s1) (intervalEnd s2 e2) &&
  lt (timeToMinutes s2) (intervalEnd s1 e1).
Proof.
  unfold CD.doTimesOverlap, intervalEnd, truthy.
  destruct e1 as [x1 |], e2 as [x2 |]; try reflexivity;
    try destruct (String.eqb x1 ""); try destruct (String.eqb x2 "");
    reflexivity.
Qed.

Lemma doTimesOverlap_true_iff s1 e1 s2 e2 :
  CD.doTimesOverlap s1 e1 s2 e2 = true <->
  exists a1 b1 a2 b2,
    timeToMinutes s1 = Some a1 /\ intervalEnd s1 e1 = Some b1 /\
    timeToMinutes s2 = Some a2 /\ intervalEnd s2 e2 = Some b2 /\
    meet a1 b1 a2 b2.
Proof.
  rewrite doTimesOverlap_unfold, andb_true_iff, !lt_Some_iff. unfold meet.
  split.
  - intros [(a1 & b2 & H1 & H2 & Hlt1) (a2 & b1 & H3 & H4 & Hlt2)].
    exists a1, b1, a2, b2. auto 10.
  - intros (a1 & b1 & a2 & b2 & H1 & H2 & H3 & H4 & Hlt1 & Hlt2).
    split; [exists a1, b2 | exists a2, b1]; auto.
Qed.

(** C4.  Two intervals, each given by a start string and an optional end
    string (an end that is absent or empty stands for the start plus 60
    minutes), are reported as overlapping exactly when both starts and
    both ends are numbers of minutes with start1 < end2 and
    start2 < end1.  The test is therefore symmetric, and an interval that
    ends at the very minute the other starts does not overlap it, as for
    09:00-10:00 against 10:00. *)
Theorem doTimesOverlap_half_open (s1 : string) (e1 : option string)
    (s2 : string) (e2 : option string) :
  (CD.doTimesOverlap s1 e1 s2 e2 = true <->
   exists a1 b1 a2 b2,
     timeToMinutes s1 = Some a1 /\ intervalEnd s1 e1 = Some b1 /\
     timeToMinutes s2 = Some a2 /\ intervalEnd s2 e2 = Some b2 /\
     a1 < b2 /\ a2 < b1) /\
  intervalEnd s1 None = add (timeToMinutes s1) (Some 60) /\
  intervalEnd s1 (Some "") = add (timeToMinutes s1) (Some 60) /\
  CD.doTimesOverlap s1 e1 s2 e2 = CD.doTimesOverlap s2 e2 s1 e1 /\
  (forall m, intervalEnd s1 e1 = Some m -> timeToMinutes s2 = Some m ->
     CD.doTimesOverlap s1 e1 s2 e2 = false /\
     CD.doTimesOverlap s2 e2 s1 e1 = false) /\
  CD.doTimesOverlap "09:00" (Some "10:00") "10:00" None = false /\
  CD.doTimesOverlap "10:00" None "09:00" (Some "10:00") = false.
Proof.
  split; [apply doTimesOverlap_true_iff |].
  split; [reflexivity |]. split; [reflexivity |].
  split; [rewrite !doTimesOverlap_unfold; apply andb_comm |].
  split; [| split; reflexivity].
  intros m Hend Hstart.
  rewrite !doTimesOverlap_unfold, Hend, Hstart.
  split.
  - destruct (timeToMinutes s1), (intervalEnd s2 e2); simpl;
      rewrite ?Z.ltb_irrefl, ?andb_false_r; reflexivity.
  - destruct (timeToMinutes s1), (intervalEnd s2 e2); simpl;
      rewrite ?Z.ltb_irrefl; reflexivity.
Qed.

(** ** The conflict list *)

(** Every entry of the conflict list comes from an existing task that
    takes part in the check, has a start time and overlaps the new task;
    its type records whether the categories agree. *)
Lemma collectConflicts_elem today newTask newStart existingTasks c :
  c ∈ CD.collectConflicts today newTask newStart existingTasks ->
  CD.conflictingTask c ∈ existingTasks /\
  CD.shouldCompareTasks today newTask (CD.conflictingTask c) = true /\
  (exists s, startTime (CD.conflictingTask c) = Some s /\ s <> "" /\
     CD.doTimesOverlap newStart (endTime newTask) s
       (endTime (CD.conflictingTask c)) = true) /\
  CD.conflictType c =
    (if bool_decide (category newTask = category (CD.conflictingTask c))
     then CD.category_conflict else CD.overlap).
Proof.
  induction existingTasks as [| e rest IH]; simpl.
  - intros H. inversion H.
  - assert (Hrest :
      c ∈ CD.collectConflicts today newTask newStart rest ->
      CD.conflictingTask c ∈ e :: rest /\
      CD.shouldCompareTasks today newTask (CD.conflictingTask c) = true /\
      (exists s, startTime (CD.conflictingTask c) = Some s /\ s <> "" /\
         CD.doTimesOverlap newStart (endTime newTask) s
           (endTime (CD.conflictingTask c)) = true) /\
      CD.conflictType c =
        (if bool_decide (category newTask = category (CD.conflictingTask c))
         then CD.category_conflict else CD.overlap)).
    { intros H. destruct (IH H) as (H1 & H2). split; [now right | exact H2]. }
    destruct (CD.shouldCompareTasks today newTask e) eqn:Hcmp; simpl; [| exact Hrest].
    destruct (startTime e) as [s |] eqn:Hs; [| exact Hrest].
    destruct (String.eqb_spec s "") as [-> | Hne]; simpl; [exact Hrest |].
    destruct (CD.doTimesOverlap newStart (endTime newTask) s (endTime e)) eqn:Hov;
      [| exact Hrest].
    intros H. apply elem_of_cons in H as [-> | H]; [| exact (Hrest H)].
    simpl. split; [left |]. split; [exact Hcmp |].
    split; [exists s; auto | reflexivity].
Qed.

Lemma checkTimeConflicts_conflicts today newTask existingTasks c :
  c ∈ CD.conflicts (CD.checkTimeConflicts today newTask existingTasks) ->
  exists newStart, startTime newTask = Some newStart /\ newStart <> "" /\
    c ∈ CD.collectConflicts today newTask newStart existingTasks.
Proof.
  unfold CD.checkTimeConflicts.
  destruct (startTime newTask) as [s |]; simpl; [| intros H; inversion H].
  destruct (String.eqb_spec s "") as [-> | Hne]; simpl; [intros H; inversion H |].
  intros H. exists s. auto.
Qed.

Lemma getConflictSeverity_cases (l : list CD.TimeConflict) :
  (CD.getConflictSeverity l = CD.none <-> l = []) /\
  (CD.getConflictSeverity l = CD.error <->
     exists c, c ∈ l /\ CD.conflictType c = CD.category_conflict) /\
  (CD.getConflictSeverity l = CD.warning <->
     l <> [] /\ forall c, c ∈ l -> CD.conflictType c <> CD.category_conflict).
Proof.
  unfold CD.getConflictSeverity.
  destruct l as [| c0 l']; simpl.
  { repeat split; try discriminate; try tauto.
    intros (c & H & _). inversion H. }
  set (P := fun c => bool_decide (CD.conflictType c = CD.category_conflict)).
  change (bool_decide (CD.conflictType c0 = CD.category_conflict) || existsb P l')
    with (existsb P (c0 :: l')).
  destruct (existsb P (c0 :: l')) eqn:Hex.
  - apply existsb_exists in Hex as (c & Hin & Hc).
    apply list_elem_of_In in Hin. apply bool_decide_eq_true in Hc.
    repeat split; try discriminate; eauto.
    intros [_ Hall]. elim (Hall c Hin Hc).
  - assert (Hall : forall c, c ∈ c0 :: l' ->
                     CD.conflictType c <> CD.category_conflict).
    { intros c Hin Hc.
      assert (existsb P (c0 :: l') = true); [| congruence].
      apply existsb_exists. exists c. split; [now apply list_elem_of_In |].
      now apply bool_decide_eq_true. }
    repeat split; try discriminate; auto.
    intros (c & Hin & Hc). elim (Hall c Hin Hc).
Qed.

(** C3.  For every result of [checkTimeConflicts]: the severity is
    [error] exactly when some conflict entry has type 'category', and an
    entry has that type exactly when the new task and the conflicting task
    have the same category value; the severity is [warning] when there are
    conflicts and none is a category conflict; it is [none] exactly when
    the conflict list is empty. *)
Theorem getConflictSeverity_of_check (today : string) (newTask : Task)
    (existingTasks : list Task) :
  let r := CD.checkTimeConflicts today newTask existingTasks in
  (CD.getConflictSeverity (CD.conflicts r) = CD.error <->
     exists c, c ∈ CD.conflicts r /\ CD.conflictType c = CD.category_conflict) /\
  (forall c, c ∈ CD.conflicts r ->
     (CD.conflictType c = CD.category_conflict <->
      category newTask = category (CD.conflictingTask c))) /\
  (CD.conflicts r <> [] /\
   (forall c, c ∈ CD.conflicts r -> CD.conflictType c <> CD.category_conflict) ->
   CD.getConflictSeverity (CD.conflicts r) = CD.warning) /\
  (CD.getConflictSeverity (CD.conflicts r) = CD.none <-> CD.conflicts r = []) /\
  (CD.hasConflicts r = false <-> CD.conflicts r = []).
Proof.
  intros r.
  destruct (getConflictSeverity_cases (CD.conflicts r)) as (Hnone & Herr & Hwarn).
  split; [exact Herr |]. split; [| split; [apply Hwarn | split; [exact Hnone |]]].
  - intros c Hc.
    apply checkTimeConflicts_conflicts in Hc as (s & _ & _ & Hc).
    apply collectConflicts_elem in Hc as (_ & _ & _ & Hty).
    rewrite Hty. case_bool_decide; split; intros; congruence.
  - subst r. unfold CD.checkTimeConflicts.
    destruct (startTime newTask) as [s |]; simpl; [| tauto].
    destruct (String.eqb s ""); simpl; [tauto |].
    destruct (CD.collectConflicts today newTask s existingTasks); simpl;
      split; intros; (reflexivity || discriminate).
Qed.

(** ** Eligibility *)

Lemma shouldCompareTasks_flexible today task1 task2 :
  type task1 = flexible \/ type task2 = flexible ->
  CD.shouldCompareTasks today task1 task2 = false.
Proof.
  intros H. unfold CD.shouldCompareTasks.
  destruct (completed task1 || completed task2); [reflexivity |].
  destruct H as [-> | ->]; simpl; rewrite ?orb_true_r; reflexivity.
Qed.

Lemma collectConflicts_none today newTask newStart existingTasks :
  (forall e, e ∈ existingTasks -> CD.shouldCompareTasks today newTask e = false) ->
  CD.collectConflicts today newTask newStart existingTasks = [].
Proof.
  induction existingTasks as [| e rest IH]; intros H; simpl; [reflexivity |].
  rewrite (H e) by left. simpl. apply IH. intros e' He'. apply H. now right.
Qed.

(** C5.  A pair with a flexible member is never eligible for comparison,
    whatever the other fields are.  Hence no conflict entry of
    [checkTimeConflicts] names a flexible task, a flexible task never hits
    a probe of the suggestion search, and a flexible candidate gets
    hasConflicts = false with an empty conflict list (and no suggested
    time). *)
Theorem flexible_never_compared (today : string) (newTask : Task)
    (existingTasks : list Task) :
  (forall task1 task2, type task1 = flexible \/ type task2 = flexible ->
     CD.shouldCompareTasks today task1 task2 = false) /\
  (forall c, c ∈ CD.conflicts (CD.checkTimeConflicts today newTask existingTasks) ->
     type (CD.conflictingTask c) <> flexible /\ type newTask <> flexible) /\
  (forall testTime testEndTime e, type e = flexible ->
     CD.probeHits today newTask testTime testEndTime e = false) /\
  (type newTask = flexible ->
     CD.checkTimeConflicts today newTask existingTasks = CD.mkResult false [] None).
Proof.
  split; [intros; now apply shouldCompareTasks_flexible |].
  split; [| split].
  - intros c Hc.
    apply checkTimeConflicts_conflicts in Hc as (s & _ & _ & Hc).
    apply collectConflicts_elem in Hc as (_ & Hcmp & _).
    split; intros Hflex;
      rewrite shouldCompareTasks_flexible in Hcmp by auto; discriminate.
  - intros testTime testEndTime e He. unfold CD.probeHits.
    rewrite shouldCompareTasks_flexible by auto. reflexivity.
  - intros Hflex. unfold CD.checkTimeConflicts.
    destruct (startTime newTask) as [s |]; [| reflexivity].
    destruct (negb (truthy (Some s))); [reflexivity |].
    rewrite collectConflicts_none; [reflexivity |].
    intros e _. apply shouldCompareTasks_flexible. now left.
Qed.

(** C10.  When the candidate has no start time, [checkTimeConflicts]
    returns hasConflicts = false, an empty conflict list and no suggested
    time, whatever the existing tasks are. *)
Theorem checkTimeConflicts_no_start (today : string) (newTask : Task) :
  startTime newTask = None ->
  forall existingTasks,
    CD.checkTimeConflicts today newTask existingTasks = CD.mkResult false [] None /\
    CD.checkTimeConflicts today newTask existingTasks =
      CD.checkTimeConflicts today newTask [].
Proof.
  intros Hnone existingTasks. unfold CD.checkTimeConflicts.
  rewrite Hnone. split; reflexivity.
Qed.

(** ** The suggested-time search *)

Lemma probeHits_blocks today newTask x e :
  0 <= x ->
  CD.probeHits today newTask (minutesToTime (Some x))
    (minutesToTime (Some (x + 60))) e = true <->
  blocks today newTask x e.
Proof.
  intros Hx. unfold CD.probeHits, blocks.
  assert (Hend : intervalEnd (minutesToTime (Some x))
                   (Some (minutesToTime (Some (x + 60)))) = Some (x + 60)).
  { unfold intervalEnd.
    pose proof (minutesToTime_truthy (Some (x + 60))) as Ht. simpl in Ht.
    destruct (String.eqb (minutesToTime (Some (x + 60))) ""); [discriminate |].
    apply timeToMinutes_minutesToTime. lia. }
  destruct (CD.shouldCompareTasks today newTask e); simpl;
    [| split; [discriminate | intros [H _]; discriminate]].
  destruct (startTime e) as [s |];
    [| split; [discriminate | intros (_ & s & a & b & H & _); discriminate]].
  destruct (String.eqb_spec s "") as [-> | Hne]; simpl.
  { split; [discriminate |].
    intros (_ & s & a & b & H & Hne & _). inversion H; subst. now elim Hne. }
  rewrite doTimesOverlap_true_iff, Hend, timeToMinutes_minutesToTime by assumption.
  split.
  - intros (a1 & b1 & a2 & b2 & H1 & H2 & H3 & H4 & Hm).
    inversion H1; inversion H2; subst.
    split; [reflexivity |]. exists s, a2, b2. auto.
  - intros (_ & s' & a & b & Hs & _ & Ha & Hb & Hm).
    inversion Hs; subst s'.
    exists x, (x + 60), a, b. auto.
Qed.

Lemma probe_existsb today newTask existingTasks x :
  0 <= x ->
  existsb (CD.probeHits today newTask (minutesToTime (Some x))
             (minutesToTime (Some (x + 60)))) existingTasks = false <->
  probeFree today newTask existingTasks x.
Proof.
  intros Hx. unfold probeFree. split.
  - intros Hex e He Hb.
    apply (probeHits_blocks today newTask x e Hx) in Hb.
    assert (existsb (CD.probeHits today newTask (minutesToTime (Some x))
               (minutesToTime (Some (x + 60)))) existingTasks = true);
      [| congruence].
    apply existsb_exists. exists e. split; [now apply list_elem_of_In | exact Hb].
  - intros Hfree.
    destruct (existsb _ existingTasks) eqn:Hex; [| reflexivity].
    apply existsb_exists in Hex as (e & He & Hhit).
    apply list_elem_of_In in He.
    apply (probeHits_blocks today newTask x e Hx) in Hhit.
    elim (Hfree e He Hhit).
Qed.

(** The probe loop returns the first conflict-free probe among
    [x, x + 30, ..., x + 30 * (n - 1)], and runs out only when all of
    them are blocked. *)
Lemma probeLoop_first_free today newTask existingTasks n :
  forall x, 0 <= x ->
  match CD.probeLoop today n (Some x) existingTasks newTask with
  | Some t =>
      exists k, 0 <= k < Z.of_nat n /\ t = minutesToTime (Some (x + 30 * k)) /\
        probeFree today newTask existingTasks (x + 30 * k) /\
        forall j, 0 <= j < k ->
          ~ probeFree today newTask existingTasks (x + 30 * j)
  | None =>
      forall k, 0 <= k < Z.of_nat n ->
        ~ probeFree today newTask existingTasks (x + 30 * k)
  end.
Proof.
  induction n as [| n IH]; intros x Hx.
  - simpl. intros k Hk. lia.
  - cbn [CD.probeLoop]. cbn [add lift2].
    destruct (existsb _ existingTasks) eqn:Hex; simpl.
    + assert (Hblocked : ~ probeFree today newTask existingTasks x).
      { intros Hfree. apply (probe_existsb _ _ _ _ Hx) in Hfree. congruence. }
      specialize (IH (x + 30) ltac:(lia)).
      destruct (CD.probeLoop today n (Some (x + 30)) existingTasks newTask) as [t |].
      * destruct IH as (k & Hk & Ht & Hfree & Hbefore).
        exists (k + 1). replace (x + 30 * (k + 1)) with (x + 30 + 30 * k) by lia.
        repeat split; try assumption; try lia.
        intros j Hj. destruct (Z.eq_dec j 0) as [-> | Hj0].
        -- now replace (x + 30 * 0) with x by lia.
        -- replace (x + 30 * j) with (x + 30 + 30 * (j - 1)) by lia.
           apply Hbefore. lia.
      * intros k Hk. destruct (Z.eq_dec k 0) as [-> | Hk0].
        -- now replace (x + 30 * 0) with x by lia.
        -- replace (x + 30 * k) with (x + 30 + 30 * (k - 1)) by lia.
           apply IH. lia.
    + apply (probe_existsb _ _ _ _ Hx) in Hex.
      exists 0. replace (x + 30 * 0) with x by lia.
      repeat split; try assumption; try lia.
Qed.

(** A candidate has conflicts only if its start time reads as a number
    of minutes. *)
Lemma hasConflicts_start today newTask existingTasks :
  CD.hasConflicts (CD.checkTimeConflicts today newTask existingTasks) = true ->
  exists s o, startTime newTask = Some s /\ s <> "" /\
    timeToMinutes s = Some o /\
    CD.suggestedTime (CD.checkTimeConflicts today newTask existingTasks) =
      Some (CD.findNextAvailableTime today s existingTasks newTask).
Proof.
  unfold CD.checkTimeConflicts.
  destruct (startTime newTask) as [s |]; [| discriminate]. unfold truthy.
  destruct (String.eqb_spec s "") as [-> | Hne]; simpl; [discriminate |].
  destruct (CD.collectConflicts today newTask s existingTasks) as [| c l] eqn:Hc;
    simpl; [discriminate |].
  intros _.
  assert (Hin : c ∈ CD.collectConflicts today newTask s existingTasks)
    by (rewrite Hc; left).
  apply collectConflicts_elem in Hin as (_ & _ & (s2 & _ & _ & Hov) & _).
  apply doTimesOverlap_true_iff in Hov as (a1 & _ & _ & _ & Ha1 & _).
  exists s, a1. repeat split; try assumption; try reflexivity.
Qed.

Lemma findNextAvailableTime_spec today s o existingTasks newTask :
  timeToMinutes s = Some o -> 0 <= o ->
  (exists k, 0 <= k < 24 /\
     probeFree today newTask existingTasks (o + 30 * k) /\
     (forall j, 0 <= j < k ->
        ~ probeFree today newTask existingTasks (o + 30 * j)) /\
     CD.findNextAvailableTime today s existingTasks newTask =
       minutesToTime (Some (o + 30 * k)))
  \/
  ((forall k, 0 <= k < 24 ->
      ~ probeFree today newTask existingTasks (o + 30 * k)) /\
   CD.findNextAvailableTime today s existingTasks newTask = s).
Proof.
  intros Ho Hpos. unfold CD.findNextAvailableTime. rewrite Ho.
  pose proof (probeLoop_first_free today newTask existingTasks 24 o Hpos) as Hloop.
  destruct (CD.probeLoop today 24 (Some o) existingTasks newTask) as [t |].
  - left. destruct Hloop as (k & Hk & -> & Hfree & Hbefore).
    exists k. repeat split; try assumption; lia.
  - right. split; [| reflexivity]. intros k Hk. apply Hloop. lia.
Qed.

(** C1.  Take a candidate whose start time [s] reads as a number [o] of
    minutes that is not negative.  When [checkTimeConflicts] finds a
    conflict, the suggested time is found by probing the starts
    [o + 30 * k] for [k = 0, 1, ..., 23] in order, each probe being the
    60-minute interval from that start tested against every eligible
    existing task: the suggestion is the first conflict-free probe,
    printed by [minutesToTime], and when none of the 24 probes is
    conflict-free it is the requested start [s] unchanged.  So a
    suggestion that differs from [s] is at [o + 30 * k] minutes for some
    [k] from 0 to 23. *)
Theorem suggestedTime_first_free_probe (today : string) (newTask : Task)
    (existingTasks : list Task) (s : string) (o : Z) :
  startTime newTask = Some s -> timeToMinutes s = Some o -> 0 <= o ->
  let r := CD.checkTimeConflicts today newTask existingTasks in
  CD.hasConflicts r = true ->
  ((exists k, 0 <= k < 24 /\
      probeFree today newTask existingTasks (o + 30 * k) /\
      (forall j, 0 <= j < k ->
         ~ probeFree today newTask existingTasks (o + 30 * j)) /\
      CD.suggestedTime r = Some (minutesToTime (Some (o + 30 * k))))
   \/
   ((forall k, 0 <= k < 24 ->
       ~ probeFree today newTask existingTasks (o + 30 * k)) /\
    CD.suggestedTime r = Some s)) /\
  (forall t, CD.suggestedTime r = Some t -> t <> s ->
     exists k, 0 <= k < 24 /\ t = minutesToTime (Some (o + 30 * k)) /\
               timeToMinutes t = Some (o + 30 * k)).
Proof.
  intros Hs Ho Hpos r Hconf.
  destruct (hasConflicts_start _ _ _ Hconf) as (s' & o' & Hs' & Hne & _ & Hsugg).
  rewrite Hs in Hs'. injection Hs' as <-.
  fold r in Hsugg. rewrite Hsugg.
  destruct (findNextAvailableTime_spec today s o existingTasks newTask Ho Hpos)
    as [(k & Hk & Hfree & Hbefore & ->) | (Hall & ->)].
  - split.
    + left. exists k. auto.
    + intros t Ht _. inversion Ht; subst t. exists k.
      split; [exact Hk |]. split; [reflexivity |].
      apply timeToMinutes_minutesToTime. lia.
  - split.
    + right. auto.
    + intros t Ht Hdiff. inversion Ht. congruence.
Qed.

Lemma suggestedTime_first_free_probe_witness :
  startTime taskB = Some "09:30" /\ timeToMinutes "09:30" = Some 570 /\
  CD.hasConflicts (CD.checkTimeConflicts "2025-01-01" taskB [taskA]) = true /\
  exists k, 0 <= k < 24 /\
    "10:00" = minutesToTime (Some (570 + 30 * k)) /\
    timeToMinutes "10:00" = Some (570 + 30 * k).
Proof.
  split; [reflexivity |]. split; [reflexivity |]. split; [reflexivity |].
  destruct (suggestedTime_first_free_probe "2025-01-01" taskB [taskA] "09:30" 570
              eq_refl eq_refl ltac:(lia) eq_refl) as [_ Hdiff].
  apply Hdiff; [reflexivity | discriminate].
Defined.

(** ** A start time that reads as a negative number

    The detector validates no time string.  [taskMinus] starts at
    [-1:00], which reads as [-60] minutes, and meets [taskMinusShort]
    ([-1:00] to [-1:20]).  The second probe lies at [-30] minutes, and
    the hour from there is free; but [minutesToTime] prints [-30] as
    [-1:-30], which reads back as [-90], so the loop tests the interval
    from [-90] to [30], finds it taken, and returns the third probe,
    [00:00]: the suggestion is not the first conflict-free probe. *)
Lemma negative_start_probe_misread :
  let r := CD.checkTimeConflicts "2025-01-01" taskMinus [taskMinusShort] in
  startTime taskMinus = Some "-1:00" /\
  timeToMinutes "-1:00" = Some (-60) /\
  CD.hasConflicts r = true /\
  minutesToTime (Some (-60 + 30 * 1)) = "-1:-30" /\
  timeToMinutes "-1:-30" = Some (-90) /\
  ~ probeFree "2025-01-01" taskMinus [taskMinusShort] (-60 + 30 * 0) /\
  probeFree "2025-01-01" taskMinus [taskMinusShort] (-60 + 30 * 1) /\
  CD.suggestedTime r = Some "00:00" /\
  ~ (forall (today : string) (newTask : Task) (existingTasks : list Task)
            (s : string) (o : Z),
       startTime newTask = Some s -> timeToMinutes s = Some o ->
       let r := CD.checkTimeConflicts today newTask existingTasks in
       CD.hasConflicts r = true ->
       (exists k, 0 <= k < 24 /\
          probeFree today newTask existingTasks (o + 30 * k) /\
          (forall j, 0 <= j < k ->
             ~ probeFree today newTask existingTasks (o + 30 * j)) /\
          CD.suggestedTime r = Some (minutesToTime (Some (o + 30 * k))))
       \/
       ((forall k, 0 <= k < 24 ->
           ~ probeFree today newTask existingTasks (o + 30 * k)) /\
        CD.suggestedTime r = Some s)).
Proof.
  assert (Htaken : ~ probeFree "2025-01-01" taskMinus [taskMinusShort]
                     (-60 + 30 * 0)).
  { intros Hfree. apply (Hfree taskMinusShort); [left |].
    split; [reflexivity |].
    exists "-1:00", (-60), (-40).
    repeat split; try reflexivity; try discriminate; lia. }
  assert (Hfree : probeFree "2025-01-01" taskMinus [taskMinusShort]
                    (-60 + 30 * 1)).
  { intros e He (_ & s & a & b & Hs & _ & Ha & Hb & Hm1 & Hm2).
    apply list_elem_of_In in He. destruct He as [<- | []].
    injection Hs as <-. vm_compute in Hb. injection Hb as <-. lia. }
  cbn zeta. repeat (split; [first [reflexivity | assumption] |]).
  intros Hall.
  destruct (Hall "2025-01-01" taskMinus [taskMinusShort] "-1:00" (-60)
              eq_refl eq_refl eq_refl)
    as [(k & Hk & Hk_free & Hbefore & Hsugg) | (Hblocked & _)].
  - destruct (Z.eq_dec k 0) as [-> | Hk0]; [now elim Htaken |].
    destruct (Z.eq_dec k 1) as [-> | Hk1]; [discriminate Hsugg |].
    apply (Hbefore 1); [lia | exact Hfree].
  - apply (Hblocked 1); [lia | exact Hfree].
Qed.

(** Scenario 2 of the planner: the first conflict-free probe after
    09:00-10:00 for a candidate at 09:30 is 10:00. *)
Example suggestedTime_scenario :
  CD.checkTimeConflicts "2025-01-01" taskB [taskA] =
  CD.mkResult true
    [CD.mkTimeConflict taskA CD.overlap "You have another task at 09:00"]
    (Some "10:00").
Proof. reflexivity. Qed.

Lemma checkTimeConflicts_no_start_witness :
  startTime taskNoStart = None /\
  CD.checkTimeConflicts "2025-01-01" taskNoStart [taskA; taskB] =
    CD.mkResult false [] None.
Proof.
  split; [reflexivity |].
  apply (checkTimeConflicts_no_start "2025-01-01" taskNoStart eq_refl [taskA; taskB]).
Defined.

(** ** The allocator: what a pass writes *)

Section Pass.

Lemma isActiveFlexible_set task v :
  Opt.isActiveFlexible (set_suggestedTime task v) = Opt.isActiveFlexible task.
Proof. reflexivity. Qed.

Lemma isActiveFlexible_true task :
  Opt.isActiveFlexible task = true <->
  type task = flexible /\ completed task = false.
Proof.
  unfold Opt.isActiveFlexible.
  rewrite andb_true_iff, bool_decide_eq_true, negb_true_iff. tauto.
Qed.

Lemma isActiveFlexible_false task :
  Opt.isActiveFlexible task = false <->
  completed task = true \/ type task <> flexible.
Proof.
  unfold Opt.isActiveFlexible.
  rewrite andb_false_iff, bool_decide_eq_false, negb_false_iff. tauto.
Qed.

(** With an active flexible task in the list the pass does call
    [setTasks]. *)
Lemma tasksAfter_map tasks task :
  task ∈ tasks -> Opt.isActiveFlexible task = true ->
  Opt.tasksAfter tasks = map (Opt.applySuggestion (Opt.suggestions tasks)) tasks.
Proof.
  intros Hin Hflex. unfold Opt.tasksAfter, Opt.optimizeSchedule.
  destruct (List.filter Opt.isActiveFlexible tasks) as [| t l] eqn:Hfilter;
    [| reflexivity].
  assert (Hin' : In task (List.filter Opt.isActiveFlexible tasks)).
  { apply filter_In. split; [now apply list_elem_of_In | exact Hflex]. }
  rewrite Hfilter in Hin'. destruct Hin'.
Qed.

Lemma tasksAfter_inactive tasks i task :
  tasks !! i = Some task -> Opt.isActiveFlexible task = false ->
  Opt.tasksAfter tasks !! i = Some task.
Proof.
  intros Hi Hflex. unfold Opt.tasksAfter, Opt.optimizeSchedule.
  destruct (length (List.filter Opt.isActiveFlexible tasks) =? 0)%nat; simpl;
    [exact Hi |].
  rewrite list_lookup_fmap, Hi. simpl. unfold Opt.applySuggestion.
  now rewrite Hflex.
Qed.

Lemma tasksAfter_active tasks i task :
  tasks !! i = Some task -> Opt.isActiveFlexible task = true ->
  Opt.tasksAfter tasks !! i =
  Some (set_suggestedTime task
          (snd <$> List.find (fun s => String.eqb (fst s) (id task))
                     (Opt.suggestions tasks))).
Proof.
  intros Hi Hflex.
  rewrite (tasksAfter_map tasks task) by (eauto using list_elem_of_lookup_2).
  rewrite list_lookup_fmap, Hi. simpl. unfold Opt.applySuggestion.
  rewrite Hflex. now destruct (List.find _ _).
Qed.

Lemma find_id_none (sugg : list (string * string)) i :
  (forall time, (i, time) ∉ sugg) ->
  List.find (fun s => String.eqb (fst s) i) sugg = None.
Proof.
  intros Hno.
  destruct (List.find _ sugg) as [[i' time] |] eqn:Hfind; [| reflexivity].
  apply find_some in Hfind as [Hin Heq]. simpl in Heq.
  apply String.eqb_eq in Heq. subst i'.
  apply list_elem_of_In in Hin. elim (Hno time Hin).
Qed.

(** The random-hour pass: every active flexible task finds its own
    suggestion. *)
Lemma random_find draw tasks task :
  task ∈ tasks -> Opt.isActiveFlexible task = true ->
  exists s time,
    List.find (fun s => String.eqb (id s) (id task))
      (RandomOptimizer.suggestions draw tasks) = Some s /\
    suggestedTime s = Some time.
Proof.
  intros Hin Hflex. unfold RandomOptimizer.suggestions.
  assert (Hin' : task ∈ List.filter Opt.isActiveFlexible tasks).
  { apply list_elem_of_In, filter_In. split; [now apply list_elem_of_In | exact Hflex]. }
  apply list_elem_of_lookup in Hin' as [j Hj].
  set (l := imap (RandomOptimizer.suggest draw)
              (List.filter Opt.isActiveFlexible tasks)).
  assert (Hl : l !! j = Some (RandomOptimizer.suggest draw j task)).
  { unfold l. rewrite list_lookup_imap, Hj. reflexivity. }
  destruct (List.find (fun s => String.eqb (id s) (id task)) l) as [s |] eqn:Hfind.
  - apply find_some in Hfind as [Hs _].
    apply list_elem_of_In, list_elem_of_lookup in Hs as [k Hk].
    unfold l in Hk. rewrite list_lookup_imap in Hk.
    destruct (List.filter Opt.isActiveFlexible tasks !! k) as [t' |]; [| discriminate].
    simpl in Hk. inversion Hk. eexists _, _. split; reflexivity.
  - pose proof (find_none _ _ Hfind (RandomOptimizer.suggest draw j task)) as Hnone.
    simpl in Hnone. rewrite String.eqb_refl in Hnone.
    assert (true = false); [| discriminate].
    apply Hnone. apply list_elem_of_In. eauto using list_elem_of_lookup_2.
Qed.

End Pass.

(** C6.  After a pass of the gap-based allocator, a task that is completed
    or not flexible is returned unchanged, and a non-completed flexible
    task that received no suggestion in this pass is returned with its
    [suggestedTime] absent, whatever it carried before (one that received
    a suggestion carries exactly that time).  In the random-hour pass of
    the older page every non-completed flexible task receives a
    suggestion, so none is left unassigned, and completed or non-flexible
    tasks are returned unchanged as well. *)
Theorem unassigned_suggestion_cleared (tasks : list Task) (i : nat) (task : Task) :
  tasks !! i = Some task ->
  (completed task = true \/ type task <> flexible ->
     Opt.tasksAfter tasks !! i = Some task) /\
  (completed task = false -> type task = flexible ->
     (forall time, (id task, time) ∉ Opt.suggestions tasks) ->
     exists task', Opt.tasksAfter tasks !! i = Some task' /\
       suggestedTime task' = None /\ task' = set_suggestedTime task None) /\
  (completed task = false -> type task = flexible ->
     forall s, List.find (fun s => String.eqb (fst s) (id task))
                 (Opt.suggestions tasks) = Some s ->
     Opt.tasksAfter tasks !! i = Some (set_suggestedTime task (Some (snd s)))) /\
  (forall draw : nat -> fin 7,
     (completed task = true \/ type task <> flexible ->
        RandomOptimizer.tasksAfter draw tasks !! i = Some task) /\
     (completed task = false -> type task = flexible ->
        exists time, RandomOptimizer.tasksAfter draw tasks !! i =
                       Some (set_suggestedTime task (Some time)))).
Proof.
  intros Hi. split; [| split; [| split]].
  - intros Hinactive. apply tasksAfter_inactive; [exact Hi |].
    now apply isActiveFlexible_false.
  - intros Hc Hty Hno. exists (set_suggestedTime task None).
    rewrite (tasksAfter_active tasks i task Hi)
      by (apply isActiveFlexible_true; auto).
    rewrite find_id_none by assumption. auto.
  - intros Hc Hty s Hfind.
    rewrite (tasksAfter_active tasks i task Hi)
      by (apply isActiveFlexible_true; auto).
    now rewrite Hfind.
  - intros draw. unfold RandomOptimizer.tasksAfter, RandomOptimizer.optimizeSchedule.
    split.
    + intros Hinactive. apply isActiveFlexible_false in Hinactive.
      destruct (length (List.filter Opt.isActiveFlexible tasks) =? 0)%nat; simpl;
        [exact Hi |].
      rewrite list_lookup_fmap, Hi. simpl. unfold RandomOptimizer.applySuggestion.
      now rewrite Hinactive.
    + intros Hc Hty.
      assert (Hflex : Opt.isActiveFlexible task = true)
        by (apply isActiveFlexible_true; auto).
      assert (Hin : task ∈ tasks) by eauto using list_elem_of_lookup_2.
      destruct (List.filter Opt.isActiveFlexible tasks) as [| t l] eqn:Hfilter.
      { assert (Hin' : In task (List.filter Opt.isActiveFlexible tasks)).
        { apply filter_In. split; [now apply list_elem_of_In | exact Hflex]. }
        rewrite Hfilter in Hin'. destruct Hin'. }
      simpl. rewrite list_lookup_fmap, Hi. simpl.
      unfold RandomOptimizer.applySuggestion. rewrite Hflex.
      destruct (random_find draw tasks task Hin Hflex) as (s & time & -> & ->).
      eauto.
Qed.

Lemma unassigned_suggestion_cleared_witness :
  [taskAllDay; taskStale] !! 1%nat = Some taskStale /\
  suggestedTime taskStale = Some "09:00" /\
  exists task', Opt.tasksAfter [taskAllDay; taskStale] !! 1%nat = Some task' /\
    suggestedTime task' = None.
Proof.
  split; [reflexivity |]. split; [reflexivity |].
  destruct (unassigned_suggestion_cleared [taskAllDay; taskStale] 1 taskStale eq_refl)
    as (_ & Hclear & _).
  destruct Hclear as (task' & Hafter & Hnone & _); [reflexivity | reflexivity | |].
  - intros time Hin. vm_compute in Hin. inversion Hin.
  - exists task'. auto.
Defined.

(** ** The allocator does not read [suggestedTime] *)

Section Idempotence.

Lemma set_suggestedTime_same task :
  set_suggestedTime task (suggestedTime task) = task.
Proof. destruct task; reflexivity. Qed.

Lemma applySuggestion_sets sugg task :
  exists v, Opt.applySuggestion sugg task = set_suggestedTime task v.
Proof.
  unfold Opt.applySuggestion.
  destruct (Opt.isActiveFlexible task); [destruct (List.find _ sugg) |]; eauto.
  exists (suggestedTime task). now rewrite set_suggestedTime_same.
Qed.

Lemma resuggested_map sugg tasks :
  resuggested tasks (map (Opt.applySuggestion sugg) tasks).
Proof.
  induction tasks as [| t l IH]; constructor;
    [apply applySuggestion_sets | exact IH].
Qed.

Lemma resuggested_refl tasks : resuggested tasks tasks.
Proof.
  induction tasks as [| t l IH]; constructor; [| exact IH].
  exists (suggestedTime t). now rewrite set_suggestedTime_same.
Qed.

Lemma resuggested_after tasks : resuggested tasks (Opt.tasksAfter tasks).
Proof.
  unfold Opt.tasksAfter, Opt.optimizeSchedule.
  destruct (length (List.filter Opt.isActiveFlexible tasks) =? 0)%nat; simpl;
    [apply resuggested_refl | apply resuggested_map].
Qed.

Lemma resuggested_scheduled tasks tasks' :
  resuggested tasks tasks' ->
  map Opt.toInterval (List.filter Opt.isScheduled tasks') =
  map Opt.toInterval (List.filter Opt.isScheduled tasks).
Proof.
  induction 1 as [| t t' l l' (v & ->) _ IH]; [reflexivity |]. simpl.
  change (Opt.isScheduled (set_suggestedTime t v)) with (Opt.isScheduled t).
  destruct (Opt.isScheduled t); simpl; [| exact IH].
  f_equal. exact IH.
Qed.

Lemma resuggested_flexible tasks tasks' :
  resuggested tasks tasks' ->
  map id (List.filter Opt.isActiveFlexible tasks') =
  map id (List.filter Opt.isActiveFlexible tasks).
Proof.
  induction 1 as [| t t' l l' (v & ->) _ IH]; [reflexivity |]. simpl.
  rewrite isActiveFlexible_set.
  destruct (Opt.isActiveFlexible t); simpl; [| exact IH].
  f_equal. exact IH.
Qed.

(** The assignment loop reads only the [id] of the flexible tasks. *)
Lemma assign_ids flex flex' :
  map id flex = map id flex' ->
  forall slots slotIdx, Opt.assign flex slots slotIdx = Opt.assign flex' slots slotIdx.
Proof.
  revert flex'. induction flex as [| t l IH]; intros [| t' l'] Hids;
    try discriminate; [reflexivity |].
  simpl in Hids. inversion Hids as [[Hid Hrest]].
  intros slots slotIdx. simpl. rewrite Hid.
  destruct (slots !! _); [| reflexivity].
  f_equal. now apply IH.
Qed.

Lemma resuggested_same_pass tasks tasks' :
  resuggested tasks tasks' ->
  Opt.scheduledTasks tasks' = Opt.scheduledTasks tasks /\
  Opt.suggestions tasks' = Opt.suggestions tasks.
Proof.
  intros H.
  assert (Hs : Opt.scheduledTasks tasks' = Opt.scheduledTasks tasks).
  { unfold Opt.scheduledTasks. now rewrite (resuggested_scheduled _ _ H). }
  split; [exact Hs |].
  unfold Opt.suggestions. rewrite Hs.
  apply assign_ids. now apply resuggested_flexible.
Qed.

Lemma applySuggestion_twice sugg task :
  Opt.applySuggestion sugg (Opt.applySuggestion sugg task) =
  Opt.applySuggestion sugg task.
Proof.
  unfold Opt.applySuggestion.
  destruct (Opt.isActiveFlexible task) eqn:Hflex; [| now rewrite Hflex].
  destruct (List.find _ sugg) eqn:Hfind;
    rewrite isActiveFlexible_set, Hflex; simpl; rewrite Hfind; reflexivity.
Qed.

Lemma filter_length_resuggested tasks tasks' :
  resuggested tasks tasks' ->
  length (List.filter Opt.isActiveFlexible tasks') =
  length (List.filter Opt.isActiveFlexible tasks).
Proof.
  intros H. apply resuggested_flexible in H.
  apply (f_equal length) in H. now rewrite !length_map in H.
Qed.

Lemma tasksAfter_twice tasks :
  Opt.tasksAfter (Opt.tasksAfter tasks) = Opt.tasksAfter tasks.
Proof.
  pose proof (resuggested_after tasks) as Hre.
  destruct (resuggested_same_pass _ _ Hre) as [_ Hsugg].
  pose proof (filter_length_resuggested _ _ Hre) as Hlen.
  unfold Opt.tasksAfter at 1. unfold Opt.optimizeSchedule.
  rewrite Hlen, Hsugg.
  unfold Opt.tasksAfter, Opt.optimizeSchedule.
  destruct (length (List.filter Opt.isActiveFlexible tasks) =? 0)%nat eqn:Hz;
    simpl; [reflexivity |].
  rewrite map_map. apply map_ext. intros t. apply applySuggestion_twice.
Qed.

End Idempotence.

(** C7.  In the gap-based allocator the occupied intervals and the
    suggestions of a pass are the same for any two task lists that differ
    only in their [suggestedTime] fields: suggested times do not feed
    back.  Hence running the gap-based optimizer on the outcome of a pass
    computes the same suggestions again and leaves every task, with its
    [suggestedTime], as the first pass left it. *)
Theorem optimizeSchedule_twice (tasks : list Task) :
  (forall tasks', resuggested tasks tasks' ->
     Opt.scheduledTasks tasks' = Opt.scheduledTasks tasks /\
     Opt.suggestions tasks' = Opt.suggestions tasks) /\
  resuggested tasks (Opt.tasksAfter tasks) /\
  Opt.scheduledTasks (Opt.tasksAfter tasks) = Opt.scheduledTasks tasks /\
  Opt.suggestions (Opt.tasksAfter tasks) = Opt.suggestions tasks /\
  Opt.tasksAfter (Opt.tasksAfter tasks) = Opt.tasksAfter tasks /\
  map suggestedTime (Opt.tasksAfter (Opt.tasksAfter tasks)) =
    map suggestedTime (Opt.tasksAfter tasks).
Proof.
  split; [intros tasks' H; now apply resuggested_same_pass |].
  split; [apply resuggested_after |].
  destruct (resuggested_same_pass _ _ (resuggested_after tasks)) as [Hs Hsugg].
  rewrite tasksAfter_twice. auto.
Qed.

(** ** The random-hour pass

    [optimizeSchedule] of [pages/Index.tsx] computes no occupied
    intervals: it draws an hour for every active flexible task.  A
    second pass draws again, so it need not repeat the first: with the
    first hour drawn in one pass and the second hour in the next, the
    suggestion of [taskFlex1] changes from 09:00 to 10:00. *)
Lemma random_pass_not_repeatable :
  RandomOptimizer.tasksAfter drawFirst [taskFlex1] =
    [set_suggestedTime taskFlex1 (Some "09:00")] /\
  RandomOptimizer.tasksAfter drawSecond
      (RandomOptimizer.tasksAfter drawFirst [taskFlex1]) =
    [set_suggestedTime taskFlex1 (Some "10:00")] /\
  ~ (forall (draw draw' : nat -> fin 7) (tasks : list Task),
       map suggestedTime
         (RandomOptimizer.tasksAfter draw'
            (RandomOptimizer.tasksAfter draw tasks)) =
       map suggestedTime (RandomOptimizer.tasksAfter draw tasks)).
Proof.
  split; [reflexivity |]. split; [reflexivity |].
  intros Hall. specialize (Hall drawFirst drawSecond [taskFlex1]).
  discriminate Hall.
Qed.

(** ** The allocator: occupied intervals and free slots *)

Section Occupied.

Lemma insertByStart_perm x l : Opt.insertByStart x l ≡ₚ x :: l.
Proof.
  induction l as [| y l IH]; cbn [Opt.insertByStart]; [reflexivity |].
  destruct (gt (sub (Opt.start x) (Opt.start y)) (Some 0)); [| reflexivity].
  rewrite IH. apply Permutation_swap.
Qed.

Lemma sortByStart_perm l : Opt.sortByStart l ≡ₚ l.
Proof.
  induction l as [| x l IH]; simpl; [reflexivity |].
  rewrite insertByStart_perm. now rewrite IH.
Qed.

Lemma startsBefore_trans x y z :
  startsBefore x y -> startsBefore y z -> startsBefore x z.
Proof.
  intros (a & a' & Ha & Ha' & Hle) (b & b' & Hb & Hb' & Hle').
  rewrite Ha' in Hb. inversion Hb; subst b.
  exists a, b'. repeat split; try assumption. lia.
Qed.

Lemma insertByStart_sorted x l :
  proper x -> Forall proper l ->
  StronglySorted startsBefore l ->
  StronglySorted startsBefore (Opt.insertByStart x l).
Proof.
  intros (a & b & -> & Hab) Hl Hsorted.
  induction l as [| y l IH]; simpl.
  - repeat constructor.
  - apply Forall_cons_1 in Hl as [(a' & b' & -> & Hab') Hl].
    apply StronglySorted_inv in Hsorted as [Hsorted Hy]. simpl.
    destruct (Z.ltb_spec 0 (a - a')) as [Hgt | Hle].
    + apply SSorted_cons; [now apply IH |].
      rewrite insertByStart_perm. apply Forall_cons_2; [| exact Hy].
      exists a', a. simpl. repeat split. lia.
    + assert (Hxy : startsBefore (Opt.mkInterval (Some a) (Some b))
                      (Opt.mkInterval (Some a') (Some b'))).
      { exists a, a'. simpl. repeat split. lia. }
      apply SSorted_cons.
      * apply SSorted_cons; assumption.
      * apply Forall_cons_2; [exact Hxy |].
        eapply list.Forall_impl; [exact Hy |].
        intros z Hz. eapply startsBefore_trans; eassumption.
Qed.

Lemma sortByStart_sorted l :
  Forall proper l ->
  Forall proper (Opt.sortByStart l) /\
  StronglySorted startsBefore (Opt.sortByStart l).
Proof.
  intros Hl. split; [now rewrite sortByStart_perm |].
  induction l as [| x l IH]; simpl; [constructor |].
  apply Forall_cons_1 in Hl as [Hx Hl].
  apply insertByStart_sorted; [exact Hx | now rewrite sortByStart_perm | auto].
Qed.

Lemma pushUnlessTaken_proper l s e :
  proper (Opt.mkInterval s e) -> Forall proper l ->
  Forall proper (Opt.pushUnlessTaken l s e).
Proof.
  intros Hb Hl. unfold Opt.pushUnlessTaken.
  destruct (negb _); [| exact Hl].
  apply Forall_app_2; [exact Hl |]. now repeat constructor.
Qed.

Lemma pushUnlessTaken_incl l s e iv :
  iv ∈ l -> iv ∈ Opt.pushUnlessTaken l s e.
Proof.
  intros Hin. unfold Opt.pushUnlessTaken.
  destruct (negb _); [| exact Hin].
  apply elem_of_app. now left.
Qed.

(** The interval the page builds for a task, in terms of the task's
    times. *)
Lemma toInterval_times task s :
  startTime task = Some s ->
  Opt.toInterval task =
  Opt.mkInterval (timeToMinutes s) (intervalEnd s (endTime task)).
Proof.
  intros Hs. unfold Opt.toInterval, intervalEnd, truthy. rewrite Hs.
  destruct (endTime task) as [e |]; [| reflexivity].
  now destruct (String.eqb e "").
Qed.

Lemma isScheduled_true task :
  Opt.isScheduled task = true <->
  completed task = false /\ exists s, startTime task = Some s /\ s <> "".
Proof.
  unfold Opt.isScheduled, truthy.
  rewrite andb_true_iff, negb_true_iff.
  destruct (startTime task) as [s |].
  - destruct (String.eqb_spec s "") as [-> | Hne]; simpl.
    + split; [intros [? _]; discriminate |].
      intros (_ & s & Hs & Hne). inversion Hs; subst. now elim Hne.
    + split; [intros [_ Hc]; eauto | tauto].
  - split; [intros [? _]; discriminate |].
    intros (_ & s & Hs & _). discriminate.
Qed.

Lemma toInterval_proper task :
  wellTimed task -> Opt.isScheduled task = true ->
  proper (Opt.toInterval task).
Proof.
  intros Hw Hs. apply isScheduled_true in Hs as (_ & s & Hs & _).
  destruct (Hw s Hs) as (a & b & Ha & Hb & Hab).
  rewrite (toInterval_times task s Hs), Ha, Hb. exists a, b. auto.
Qed.

(** The occupied intervals of a pass are proper and sorted by start, and
    they include the interval of every non-completed task with a start
    time. *)
Lemma scheduledTasks_sorted tasks :
  (forall task, task ∈ tasks -> completed task = false -> wellTimed task) ->
  Forall proper (Opt.scheduledTasks tasks) /\
  StronglySorted startsBefore (Opt.scheduledTasks tasks).
Proof.
  intros Hw. unfold Opt.scheduledTasks.
  apply sortByStart_sorted.
  repeat apply pushUnlessTaken_proper;
    try (eexists _, _; split; [reflexivity | lia]).
  apply sortByStart_sorted.
  apply list.Forall_forall. intros iv Hiv.
  apply list_elem_of_fmap in Hiv as (task & -> & Htask).
  apply list_elem_of_In, filter_In in Htask as [Hin Hsched].
  apply list_elem_of_In in Hin.
  apply toInterval_proper; [| exact Hsched].
  apply Hw; [exact Hin |].
  now apply isScheduled_true in Hsched.
Qed.

Lemma scheduledTasks_contains tasks task :
  task ∈ tasks -> Opt.isScheduled task = true ->
  Opt.toInterval task ∈ Opt.scheduledTasks tasks.
Proof.
  intros Hin Hs. unfold Opt.scheduledTasks.
  rewrite sortByStart_perm.
  repeat apply pushUnlessTaken_incl.
  rewrite sortByStart_perm.
  apply list_elem_of_fmap. exists task. split; [reflexivity |].
  apply list_elem_of_In, filter_In. split; [now apply list_elem_of_In | exact Hs].
Qed.

(** Every slot of the gap loop starts at or after [lastEnd], has at least
    60 minutes, and lies apart from every occupied interval still to be
    walked; the slots come in order, each ending before the next
    starts. *)
Lemma gaps_spec l :
  Forall proper l -> StronglySorted startsBefore l ->
  forall L,
    Forall (fun slot => roomy L slot /\ Forall (apart slot) l)
      (Opt.gaps l (Some L)) /\
    StronglySorted
      (fun s s' => exists a b a' b',
         s = Opt.mkInterval (Some a) (Some b) /\
         s' = Opt.mkInterval (Some a') (Some b') /\ b <= a')
      (Opt.gaps l (Some L)).
Proof.
  induction l as [| t l IH]; intros Hl Hsorted L.
  - simpl. destruct (Z.leb_spec 60 (23 * 60 - L)) as [Hroom | Hfull].
    + split; repeat constructor. exists L, (23 * 60). repeat split; lia.
    + split; constructor.
  - apply Forall_cons_1 in Hl as [(x & y & -> & Hxy) Hl].
    apply StronglySorted_inv in Hsorted as [Hsorted Ht].
    cbn [Opt.gaps Opt.start Opt.end_ max lift2 sub ge].
    destruct (IH Hl Hsorted (Z.max L y)) as [Hlater Hchain].
    assert (Hlater' :
      Forall (fun slot => roomy L slot /\
                Forall (apart slot) (Opt.mkInterval (Some x) (Some y) :: l))
        (Opt.gaps l (Some (Z.max L y)))).
    { eapply list.Forall_impl; [exact Hlater |].
      intros slot [(a & b & -> & Ha & Hab) Hapart]. split.
      - exists a, b. repeat split; lia.
      - apply Forall_cons_2; [| exact Hapart].
        exists a, b, x, y. repeat split. lia. }
    destruct (Z.leb_spec 60 (x - L)) as [Hgap | Hnogap]; [| now split].
    split.
    + apply Forall_cons_2; [| exact Hlater'].
      split; [exists L, x; repeat split; lia |].
      apply Forall_cons_2.
      * exists L, x, x, y. repeat split. lia.
      * apply list.Forall_forall. intros iv Hiv.
        pose proof (proj1 (list.Forall_forall _ _) Ht iv Hiv)
          as (a & a' & Ha & Ha' & Hle).
        pose proof (proj1 (list.Forall_forall _ _) Hl iv Hiv) as (p & q & -> & Hpq).
        simpl in *. inversion Ha; inversion Ha'; subst.
        exists L, a, a', q. repeat split. lia.
    + apply SSorted_cons; [exact Hchain |].
      eapply list.Forall_impl; [exact Hlater |].
      intros slot [(a & b & -> & Ha & Hab) _].
      exists L, x, a, b. repeat split. lia.
Qed.

End Occupied.

(** ** The allocator: the assignment loop *)

Section Assignment.

Lemma StronglySorted_lookup {A} (R : A -> A -> Prop) (l : list A) :
  StronglySorted R l ->
  forall j j' x y, (j < j')%nat -> l !! j = Some x -> l !! j' = Some y -> R x y.
Proof.
  induction 1 as [| x0 l Hsorted IH Hall]; intros j j' x y Hlt Hj Hj'.
  - discriminate.
  - destruct j' as [| j']; [lia |]. simpl in Hj'.
    destruct j as [| j]; simpl in Hj.
    + inversion Hj; subst x0.
      apply (proj1 (list.Forall_forall _ _) Hall).
      eauto using list_elem_of_lookup_2.
    + apply (IH j j'); [lia | assumption | assumption].
Qed.

(** The slots computed from proper, sorted occupied intervals. *)
Lemma availableSlots_chained sched :
  Forall proper sched -> StronglySorted startsBefore sched ->
  chained (Opt.availableSlots sched) /\
  Forall (fun slot => roomy (7 * 60) slot /\ Forall (apart slot) sched)
    (Opt.availableSlots sched).
Proof.
  intros Hp Hs.
  destruct (gaps_spec sched Hp Hs (7 * 60)) as [Hroomy Hchain].
  split; [| exact Hroomy]. split.
  - intros j slot Hj.
    apply list_elem_of_lookup_2 in Hj.
    apply (proj1 (list.Forall_forall _ _) Hroomy) in Hj
      as [(a & b & -> & _) _].
    eauto.
  - intros j j' a b a' b' Hlt Hj Hj'.
    destruct (StronglySorted_lookup _ _ Hchain j j' _ _ Hlt Hj Hj')
      as (a0 & b0 & a1 & b1 & H0 & H1 & Hle).
    inversion H0; inversion H1; subst. exact Hle.
Qed.

Lemma chained_insert slots i a b :
  chained slots ->
  slots !! i = Some (Opt.mkInterval (Some a) (Some b)) -> a + 60 <= b ->
  chained (<[i := Opt.mkInterval (Some (a + 60)) (Some b)]> slots).
Proof.
  intros [Hnum Hchain] Hi Hab.
  assert (Hlen : (i < length slots)%nat) by (eapply lookup_lt_Some; eauto).
  split.
  - intros j slot Hj. destruct (decide (i = j)) as [<- | Hne].
    + rewrite list_lookup_insert_eq in Hj by exact Hlen. inversion Hj. eauto.
    + rewrite list_lookup_insert_ne in Hj by exact Hne. eauto.
  - intros j j' x y x' y' Hlt Hj Hj'.
    destruct (decide (i = j)) as [<- | Hne];
      destruct (decide (i = j')) as [<- | Hne']; try lia.
    + rewrite list_lookup_insert_eq in Hj by exact Hlen.
      rewrite list_lookup_insert_ne in Hj' by exact Hne'.
      inversion Hj; subst. eapply (Hchain i j'); eauto.
    + rewrite list_lookup_insert_ne in Hj by exact Hne.
      rewrite list_lookup_insert_eq in Hj' by exact Hlen.
      inversion Hj'; subst.
      pose proof (Hchain j i x y a y' Hlt Hj Hi). lia.
    + rewrite list_lookup_insert_ne in Hj by exact Hne.
      rewrite list_lookup_insert_ne in Hj' by exact Hne'.
      eapply (Hchain j j'); eauto.
Qed.

(** With the length of the slot array as fuel the inner loop stops on a
    slot with 60 minutes left, or past the end of the array. *)
Lemma skipExhausted_spec slots fuel :
  forall i, (length slots <= fuel + i)%nat ->
  (i <= Opt.skipExhausted fuel slots i)%nat /\
  forall a b,
    slots !! Opt.skipExhausted fuel slots i =
      Some (Opt.mkInterval (Some a) (Some b)) -> a + 60 <= b.
Proof.
  induction fuel as [| fuel IH]; intros i Hlen; simpl.
  - split; [lia |]. intros a b Hi.
    apply lookup_lt_Some in Hi. lia.
  - destruct (slots !! i) as [slot |] eqn:Hi.
    + destruct (lt (sub (Opt.end_ slot) (Opt.start slot)) (Some 60)) eqn:Hshort.
      * destruct (IH (S i)) as [Hle Hroom]; [lia |]. split; [lia | exact Hroom].
      * split; [lia |]. intros a b Hi'. rewrite Hi in Hi'.
        inversion Hi'; subst slot. simpl in Hshort.
        apply Z.ltb_ge in Hshort. lia.
    + split; [lia |]. intros a b Hi'. congruence.
Qed.

(** The assignment loop hands out starts [xs], one per suggestion and in
    the order of the suggestions: each is the start of a full hour inside
    a slot, and each later one is at least 60 minutes after the earlier
    ones. *)
Lemma assign_spec flex :
  forall slots i, chained slots ->
  exists xs : list Z,
    map snd (Opt.assign flex slots i) = map (fun x => minutesToTime (Some x)) xs /\
    Forall (placed slots i) xs /\
    StronglySorted (fun x x' => x + 60 <= x') xs.
Proof.
  induction flex as [| task rest IH]; intros slots i Hch.
  - exists []. repeat split; constructor.
  - cbn [Opt.assign].
    destruct (skipExhausted_spec slots (length slots) i ltac:(lia)) as [Hle Hroom].
    set (i' := Opt.skipExhausted (length slots) slots i) in *.
    destruct (slots !! i') as [slot |] eqn:Hi'.
    2: { exists []. repeat split; constructor. }
    destruct (proj1 Hch i' slot Hi') as (a & b & ->).
    specialize (Hroom a b eq_refl). cbn [Opt.start Opt.end_ add lift2].
    pose proof (chained_insert slots i' a b Hch Hi' Hroom) as Hch'.
    destruct (IH _ i' Hch') as (xs & Hmap & Hplaced & Hsorted).
    assert (Hlen : (i' < length slots)%nat) by (eapply lookup_lt_Some; eauto).
    exists (a :: xs). split; [simpl; now rewrite Hmap |]. split.
    + apply Forall_cons_2.
      * exists i', a, b. repeat split; try assumption; lia.
      * eapply list.Forall_impl; [exact Hplaced |].
        intros x (j & a' & b' & Hj & Hslot & Hlo & Hhi).
        destruct (decide (i' = j)) as [<- | Hne].
        -- rewrite list_lookup_insert_eq in Hslot by exact Hlen.
           injection Hslot as Ha' Hb'.
           exists i', a, b. repeat split; try assumption; lia.
        -- rewrite list_lookup_insert_ne in Hslot by exact Hne.
           exists j, a', b'. repeat split; try assumption; lia.
    + apply SSorted_cons; [exact Hsorted |].
      eapply list.Forall_impl; [exact Hplaced |].
      intros x (j & a' & b' & Hj & Hslot & Hlo & Hhi).
      destruct (decide (i' = j)) as [<- | Hne].
      * rewrite list_lookup_insert_eq in Hslot by exact Hlen.
        injection Hslot as Ha' Hb'. lia.
      * rewrite list_lookup_insert_ne in Hslot by exact Hne.
        pose proof (proj2 Hch i' j a b a' b' ltac:(lia) Hi' Hslot). lia.
Qed.

(** A suggested time carried by an active flexible task after a pass is
    an entry of the suggestion list of that pass. *)
Lemma tasksAfter_suggestion tasks task s :
  task ∈ Opt.tasksAfter tasks -> Opt.isActiveFlexible task = true ->
  suggestedTime task = Some s ->
  (id task, s) ∈ Opt.suggestions tasks.
Proof.
  unfold Opt.tasksAfter, Opt.optimizeSchedule.
  destruct (List.filter Opt.isActiveFlexible tasks) as [| t0 l0] eqn:Hfilter; simpl.
  - intros Hin Hflex _.
    assert (Hin' : In task (List.filter Opt.isActiveFlexible tasks)).
    { apply filter_In. split; [now apply list_elem_of_In | exact Hflex]. }
    rewrite Hfilter in Hin'. destruct Hin'.
  - intros Hin Hflex Hs.
    apply list_elem_of_fmap in Hin as (t & -> & Ht).
    unfold Opt.applySuggestion in *.
    destruct (Opt.isActiveFlexible t) eqn:Hact.
    + destruct (List.find _ (Opt.suggestions tasks)) as [[i time] |] eqn:Hfind;
        simpl in Hs; [| discriminate].
      inversion Hs; subst time.
      apply find_some in Hfind as [He Heq]. simpl in Heq.
      apply String.eqb_eq in Heq. subst i.
      now apply list_elem_of_In.
    + congruence.
Qed.

End Assignment.

(** Two entries of the suggestion list with different ids sit at different
    positions, so their starts are at least 60 minutes apart. *)
Lemma suggestions_apart (sugg : list (string * string)) (xs : list Z)
    i1 s1 i2 s2 :
  map snd sugg = map (fun x => minutesToTime (Some x)) xs ->
  StronglySorted (fun x x' => x + 60 <= x') xs ->
  (i1, s1) ∈ sugg -> (i2, s2) ∈ sugg -> i1 <> i2 ->
  exists x1 x2, x1 ∈ xs /\ x2 ∈ xs /\
    s1 = minutesToTime (Some x1) /\ s2 = minutesToTime (Some x2) /\
    (x1 + 60 <= x2 \/ x2 + 60 <= x1).
Proof.
  intros Hmap Hsorted H1 H2 Hne.
  apply list_elem_of_lookup in H1 as [p1 Hp1].
  apply list_elem_of_lookup in H2 as [p2 Hp2].
  assert (Hx : forall p i s, sugg !! p = Some (i, s) ->
                 exists x, xs !! p = Some x /\ s = minutesToTime (Some x)).
  { intros p i s Hp.
    assert (Hsnd : map snd sugg !! p = Some s)
      by (rewrite list_lookup_fmap, Hp; reflexivity).
    rewrite Hmap, list_lookup_fmap in Hsnd.
    destruct (xs !! p) as [x |]; [| discriminate].
    inversion Hsnd. eauto. }
  destruct (Hx _ _ _ Hp1) as (x1 & Hx1 & ->).
  destruct (Hx _ _ _ Hp2) as (x2 & Hx2 & ->).
  exists x1, x2.
  split; [eauto using list_elem_of_lookup_2 |].
  split; [eauto using list_elem_of_lookup_2 |].
  split; [reflexivity |]. split; [reflexivity |].
  destruct (Nat.lt_trichotomy p1 p2) as [Hlt | [Heq | Hgt]].
  - left. exact (StronglySorted_lookup _ _ Hsorted p1 p2 x1 x2 Hlt Hx1 Hx2).
  - subst p2. rewrite Hp1 in Hp2. inversion Hp2. congruence.
  - right. exact (StronglySorted_lookup _ _ Hsorted p2 p1 x2 x1 Hgt Hx2 Hx1).
Qed.

(** C9.  Take a task list whose non-completed tasks have times that read
    as minutes and do not end before they start (the data model's
    invariants).  After a pass of the gap-based allocator, the 60-minute
    interval that begins at the [suggestedTime] of a non-completed
    flexible task meets no occupied interval of the pass, neither the
    interval of a non-completed task with a start time (its end being
    the start plus 60 minutes when none is given) nor an injected sleep or
    morning block; and for two such flexible tasks with different ids
    the two 60-minute intervals do not meet, so the suggested times
    differ. *)
Theorem suggestions_disjoint (tasks : list Task) :
  (forall task, task ∈ tasks -> completed task = false -> wellTimed task) ->
  forall t1 s1,
    t1 ∈ Opt.tasksAfter tasks -> type t1 = flexible -> completed t1 = false ->
    suggestedTime t1 = Some s1 ->
    exists x1, timeToMinutes s1 = Some x1 /\
      (forall iv, iv ∈ Opt.scheduledTasks tasks ->
         exists p q, iv = Opt.mkInterval (Some p) (Some q) /\
                     ~ meet x1 (x1 + 60) p q) /\
      (forall task s, task ∈ tasks -> completed task = false ->
         startTime task = Some s -> s <> "" ->
         exists p q, timeToMinutes s = Some p /\
                     intervalEnd s (endTime task) = Some q /\
                     ~ meet x1 (x1 + 60) p q) /\
      (forall t2 s2,
         t2 ∈ Opt.tasksAfter tasks -> type t2 = flexible ->
         completed t2 = false -> suggestedTime t2 = Some s2 ->
         id t1 <> id t2 ->
         exists x2, timeToMinutes s2 = Some x2 /\
                    ~ meet x1 (x1 + 60) x2 (x2 + 60) /\ s1 <> s2).
Proof.
  intros Hw t1 s1 Hin1 Hty1 Hc1 Hs1.
  destruct (scheduledTasks_sorted tasks Hw) as [Hproper Hsorted].
  destruct (availableSlots_chained _ Hproper Hsorted) as [Hch Hroomy].
  destruct (assign_spec (List.filter Opt.isActiveFlexible tasks)
              (Opt.availableSlots (Opt.scheduledTasks tasks)) 0 Hch)
    as (xs & Hmap & Hplaced & Hxs).
  fold (Opt.suggestions tasks) in Hmap.
  (* what being handed out by the loop means for a start *)
  assert (Hstart : forall x, x ∈ xs ->
            0 <= x /\
            forall iv, iv ∈ Opt.scheduledTasks tasks ->
              exists p q, iv = Opt.mkInterval (Some p) (Some q) /\
                          ~ meet x (x + 60) p q).
  { intros x Hx.
    destruct (proj1 (list.Forall_forall _ _) Hplaced x Hx)
      as (j & a & b & _ & Hslot & Hlo & Hhi).
    apply list_elem_of_lookup_2 in Hslot.
    destruct (proj1 (list.Forall_forall _ _) Hroomy _ Hslot)
      as [(a0 & b0 & Heq & Hwork & _) Hapart].
    inversion Heq; subst a0 b0. split; [lia |].
    intros iv Hiv.
    destruct (proj1 (list.Forall_forall _ _) Hapart iv Hiv)
      as (a1 & b1 & p & q & Heq1 & -> & Hside).
    inversion Heq1; subst a1 b1.
    exists p, q. split; [reflexivity |]. unfold meet. lia. }
  assert (Hentry : forall t s, t ∈ Opt.tasksAfter tasks -> type t = flexible ->
            completed t = false -> suggestedTime t = Some s ->
            (id t, s) ∈ Opt.suggestions tasks).
  { intros t s Hin Hty Hc Hs. apply tasksAfter_suggestion; try assumption.
    apply isActiveFlexible_true. auto. }
  pose proof (Hentry t1 s1 Hin1 Hty1 Hc1 Hs1) as He1.
  assert (Hx1 : exists x1, x1 ∈ xs /\ s1 = minutesToTime (Some x1)).
  { apply list_elem_of_lookup in He1 as [p Hp].
    assert (Hsnd : map snd (Opt.suggestions tasks) !! p = Some s1)
      by (rewrite list_lookup_fmap, Hp; reflexivity).
    rewrite Hmap, list_lookup_fmap in Hsnd.
    destruct (xs !! p) as [x |] eqn:Hxp; [| discriminate].
    inversion Hsnd. eauto using list_elem_of_lookup_2. }
  destruct Hx1 as (x1 & Hx1 & ->).
  destruct (Hstart x1 Hx1) as [Hpos1 Hfree1].
  exists x1. split; [now apply timeToMinutes_minutesToTime |].
  split; [exact Hfree1 |]. split.
  - intros task s Hin Hc Hs Hne.
    assert (Hsched : Opt.isScheduled task = true)
      by (apply isScheduled_true; eauto).
    pose proof (scheduledTasks_contains tasks task Hin Hsched) as Hiv.
    destruct (Hfree1 _ Hiv) as (p & q & Heq & Hmeet).
    rewrite (toInterval_times task s Hs) in Heq.
    inversion Heq as [[Hp Hq]]. exists p, q. auto.
  - intros t2 s2 Hin2 Hty2 Hc2 Hs2 Hids.
    pose proof (Hentry t2 s2 Hin2 Hty2 Hc2 Hs2) as He2.
    destruct (suggestions_apart _ _ _ _ _ _ Hmap Hxs He1 He2 Hids)
      as (y1 & y2 & Hy1 & Hy2 & Heq1 & -> & Hsep).
    destruct (Hstart y1 Hy1) as [Hposy1 _].
    destruct (Hstart y2 Hy2) as [Hposy2 _].
    assert (y1 = x1).
    { apply (f_equal timeToMinutes) in Heq1.
      rewrite !timeToMinutes_minutesToTime in Heq1 by assumption.
      congruence. }
    subst y1. exists y2.
    split; [now apply timeToMinutes_minutesToTime |].
    split; [unfold meet; lia |].
    intros Heq. apply (f_equal timeToMinutes) in Heq.
    rewrite !timeToMinutes_minutesToTime in Heq by assumption.
    inversion Heq. lia.
Qed.

Lemma suggestions_disjoint_witness :
  exists x1, timeToMinutes "07:00" = Some x1 /\
    forall iv, iv ∈ Opt.scheduledTasks [taskA; taskFlex1; taskFlex2] ->
      exists p q, iv = Opt.mkInterval (Some p) (Some q) /\
                  ~ meet x1 (x1 + 60) p q.
Proof.
  destruct (suggestions_disjoint [taskA; taskFlex1; taskFlex2]) with
    (t1 := set_suggestedTime taskFlex1 (Some "07:00")) (s1 := "07:00")
    as (x1 & Hx1 & Hfree & _).
  - intros task Hin _ s Hs.
    repeat (apply elem_of_cons in Hin as [-> | Hin]);
      [| discriminate | discriminate | inversion Hin].
    inversion Hs; subst s. exists 540, 600. vm_compute. split; [reflexivity |].
    split; [reflexivity | discriminate].
  - vm_compute. right. left.
  - reflexivity.
  - reflexivity.
  - reflexivity.
  - exists x1. split; [exact Hx1 | exact Hfree].
Defined.

(** ** A task that ends before it starts

    The allocator trusts that no occupied interval ends before it starts.
    With [taskInverted] (09:00 to 07:00) the gap loop records the slot
    07:00-09:00, falls back to 07:00 as the last end, and records the
    overlapping slot 07:00-23:00: the third flexible task is given
    07:00, the time the first one already has. *)
Lemma inverted_interval_clash :
  Opt.availableSlots
      (Opt.scheduledTasks [taskInverted; taskFlex1; taskFlex2; taskFlex3]) =
    [Opt.mkInterval (Some 420) (Some 540); Opt.mkInterval (Some 420) (Some 1380)] /\
  Opt.tasksAfter [taskInverted; taskFlex1; taskFlex2; taskFlex3] =
    [taskInverted;
     set_suggestedTime taskFlex1 (Some "07:00");
     set_suggestedTime taskFlex2 (Some "08:00");
     set_suggestedTime taskFlex3 (Some "07:00")] /\
  ~ (forall (tasks : list Task) (t1 t2 : Task) (s1 s2 : string) (x1 x2 : Z),
       t1 ∈ Opt.tasksAfter tasks -> t2 ∈ Opt.tasksAfter tasks ->
       type t1 = flexible -> completed t1 = false ->
       type t2 = flexible -> completed t2 = false ->
       id t1 <> id t2 ->
       suggestedTime t1 = Some s1 -> suggestedTime t2 = Some s2 ->
       timeToMinutes s1 = Some x1 -> timeToMinutes s2 = Some x2 ->
       ~ meet x1 (x1 + 60) x2 (x2 + 60) /\ s1 <> s2).
Proof.
  split; [reflexivity |]. split; [reflexivity |].
  intros Hall.
  destruct (Hall [taskInverted; taskFlex1; taskFlex2; taskFlex3]
              (set_suggestedTime taskFlex1 (Some "07:00"))
              (set_suggestedTime taskFlex3 (Some "07:00"))
              "07:00" "07:00" 420 420) as [_ Hdiff];
    try reflexivity; try discriminate.
  - right. left.
  - do 3 right. left.
  - now elim Hdiff.
Qed.

(** ** Scenario: two fixed tasks and one flexible task *)

Section Scenario.

Variables t1 t2 f : Task.
Hypothesis t1_active : completed t1 = false.
Hypothesis t1_start : startTime t1 = Some "08:00".
Hypothesis t1_end : endTime t1 = Some "09:00".
Hypothesis t1_fixed : type t1 <> flexible.
Hypothesis t2_active : completed t2 = false.
Hypothesis t2_start : startTime t2 = Some "12:00".
Hypothesis t2_end : endTime t2 = Some "13:00".
Hypothesis t2_fixed : type t2 <> flexible.
Hypothesis f_active : completed f = false.
Hypothesis f_flexible : type f = flexible.
Hypothesis f_untimed : startTime f = None.

Lemma scenario_facts :
  (Opt.isScheduled t1 = true /\ Opt.isActiveFlexible t1 = false /\
   Opt.toInterval t1 = Opt.mkInterval (Some 480) (Some 540)) /\
  (Opt.isScheduled t2 = true /\ Opt.isActiveFlexible t2 = false /\
   Opt.toInterval t2 = Opt.mkInterval (Some 720) (Some 780)) /\
  (Opt.isScheduled f = false /\ Opt.isActiveFlexible f = true).
Proof.
  unfold Opt.isScheduled, Opt.isActiveFlexible, Opt.toInterval.
  rewrite t1_active, t1_start, t1_end, t2_active, t2_start, t2_end,
    f_active, f_flexible, f_untimed.
  rewrite !bool_decide_eq_false_2 by assumption.
  repeat split; reflexivity.
Qed.

(** Whatever the order of the three tasks, the pass sees the same
    occupied intervals and the same single flexible task. *)
Lemma scenario_pass tasks :
  tasks ≡ₚ [t1; t2; f] ->
  Opt.scheduledTasks tasks =
    [Opt.mkInterval Opt.SLEEP_START_2 Opt.SLEEP_END_2;
     Opt.mkInterval Opt.MORNING_START Opt.MORNING_END;
     Opt.mkInterval (Some 480) (Some 540);
     Opt.mkInterval (Some 720) (Some 780);
     Opt.mkInterval Opt.SLEEP_START_1 Opt.SLEEP_END_1] /\
  List.filter Opt.isActiveFlexible tasks = [f].
Proof.
  intros Hperm.
  destruct scenario_facts as ((Hs1 & Hf1 & Hi1) & (Hs2 & Hf2 & Hi2) & (Hs3 & Hf3)).
  apply Permutation_sym, permutations_Permutation in Hperm.
  cbn in Hperm.
  unfold Opt.scheduledTasks.
  repeat (apply elem_of_cons in Hperm as [-> | Hperm]);
    try (inversion Hperm; fail);
    cbn [List.filter];
    rewrite ?Hs1, ?Hs2, ?Hs3, ?Hf1, ?Hf2, ?Hf3; cbn [map];
    rewrite ?Hi1, ?Hi2; split; reflexivity.
Qed.

(** C2.  For a task list made of two non-completed time-bound tasks at
    08:00-09:00 and 12:00-13:00 and one non-completed flexible task, in
    any order: the occupied intervals of the pass are the two tasks plus
    the injected sleep blocks 23:00-24:00 and 00:00-06:00 and the morning
    block 06:00-07:00; the first free gap of the working window is
    07:00-08:00; and the flexible task gets suggestedTime 07:00 while the
    two fixed tasks are left as they are. *)
Theorem scenario_first_gap (tasks : list Task) :
  tasks ≡ₚ [t1; t2; f] ->
  Opt.scheduledTasks tasks =
    [Opt.mkInterval (timeToMinutes "00:00") (timeToMinutes "06:00");
     Opt.mkInterval (timeToMinutes "06:00") (timeToMinutes "07:00");
     Opt.mkInterval (timeToMinutes "08:00") (timeToMinutes "09:00");
     Opt.mkInterval (timeToMinutes "12:00") (timeToMinutes "13:00");
     Opt.mkInterval (timeToMinutes "23:00") (timeToMinutes "24:00")] /\
  Opt.mkInterval Opt.SLEEP_START_1 Opt.SLEEP_END_1 ∈ Opt.scheduledTasks tasks /\
  Opt.mkInterval Opt.SLEEP_START_2 Opt.SLEEP_END_2 ∈ Opt.scheduledTasks tasks /\
  Opt.mkInterval Opt.MORNING_START Opt.MORNING_END ∈ Opt.scheduledTasks tasks /\
  Opt.availableSlots (Opt.scheduledTasks tasks) =
    [Opt.mkInterval (timeToMinutes "07:00") (timeToMinutes "08:00");
     Opt.mkInterval (timeToMinutes "09:00") (timeToMinutes "12:00");
     Opt.mkInterval (timeToMinutes "13:00") (timeToMinutes "23:00")] /\
  Opt.suggestions tasks = [(id f, "07:00")] /\
  (forall i, tasks !! i = Some f ->
     Opt.tasksAfter tasks !! i = Some (set_suggestedTime f (Some "07:00"))) /\
  (forall i t, tasks !! i = Some t -> t = t1 \/ t = t2 ->
     Opt.tasksAfter tasks !! i = Some t).
Proof.
  intros Hperm.
  destruct scenario_facts as ((Hs1 & Hf1 & Hi1) & (Hs2 & Hf2 & Hi2) & (Hs3 & Hf3)).
  destruct (scenario_pass tasks Hperm) as [Hsched Hflex].
  assert (Hsugg : Opt.suggestions tasks = [(id f, "07:00")]).
  { unfold Opt.suggestions. rewrite Hsched, Hflex. reflexivity. }
  rewrite Hsched.
  split; [reflexivity |].
  split; [do 4 right; left |]. split; [left |]. split; [right; left |].
  split; [reflexivity |]. split; [exact Hsugg |]. split.
  - intros i Hi. rewrite (tasksAfter_active tasks i f Hi Hf3), Hsugg.
    simpl. now rewrite String.eqb_refl.
  - intros i t Hi [-> | ->]; now apply tasksAfter_inactive.
Qed.

End Scenario.

Lemma scenario_first_gap_witness :
  [taskNoon; taskFlex1; taskMorning] ≡ₚ [taskMorning; taskNoon; taskFlex1] /\
  Opt.suggestions [taskNoon; taskFlex1; taskMorning] = [("F1", "07:00")].
Proof.
  assert (Hperm : [taskNoon; taskFlex1; taskMorning]
                    ≡ₚ [taskMorning; taskNoon; taskFlex1]).
  { symmetry. apply (Permutation_cons_append [taskNoon; taskFlex1] taskMorning). }
  split; [exact Hperm |].
  apply (scenario_first_gap taskMorning taskNoon taskFlex1);
    try reflexivity; try discriminate.
  exact Hperm.
Defined.

(** * Further properties *)

(** ** Time strings *)

Section TimeStrings.

Lemma digit_of_inv c d :
  digit_of c = Some d -> 0 <= d <= 9 /\ digit_char d = c /\ c <> ":"%char.
Proof.
  destruct c as [[] [] [] [] [] [] [] []]; vm_compute; intros H;
    try discriminate; inversion H; subst d;
    (split; [split; discriminate | split; [reflexivity | discriminate]]).
Qed.

Lemma padStart2_two_digits n :
  0 <= n < 100 ->
  padStart2 (digits n) =
  String (digit_char (n / 10)) (String (digit_char (n mod 10)) "").
Proof.
  intros Hn.
  assert (Hall : forallb (fun k =>
             String.eqb (padStart2 (digits (Z.of_nat k)))
               (String (digit_char (Z.of_nat k / 10))
                  (String (digit_char (Z.of_nat k mod 10)) "")))
             (seq 0 100) = true) by (vm_compute; reflexivity).
  rewrite forallb_forall in Hall.
  specialize (Hall (Z.to_nat n)).
  rewrite Z2Nat.id in Hall by lia.
  apply String.eqb_eq, Hall, in_seq. lia.
Qed.

(** A canonical time reads as sixty times its hours plus its minutes. *)
Lemma timeToMinutes_canonical s :
  canonicalTime s = true ->
  exists h m, 0 <= h <= 99 /\ 0 <= m <= 59 /\
    timeToMinutes s = Some (60 * h + m) /\
    s = padStart2 (digits h) +:+ ":" +:+ padStart2 (digits m) /\
    (clockTime s = true -> h <= 23).
Proof.
  unfold clockTime, canonicalTime.
  destruct s as [| h1 [| h2 [| c [| m1 [| m2 [| ? ?]]]]]]; try discriminate.
  destruct (digit_of h1) as [a |] eqn:H1; [| discriminate].
  destruct (digit_of h2) as [b |] eqn:H2; [| discriminate].
  destruct (digit_of m1) as [d |] eqn:H3; [| discriminate].
  destruct (digit_of m2) as [e |] eqn:H4; [| discriminate].
  intros Hc. apply andb_true_iff in Hc as [Hcolon Hd].
  apply Ascii.eqb_eq in Hcolon. subst c. apply Z.leb_le in Hd.
  destruct (digit_of_inv _ _ H1) as (Ha & Hca & Hn1).
  destruct (digit_of_inv _ _ H2) as (Hb & Hcb & Hn2).
  destruct (digit_of_inv _ _ H3) as (Hd' & Hcd & Hn3).
  destruct (digit_of_inv _ _ H4) as (He & Hce & Hn4).
  exists (a * 10 + b), (d * 10 + e).
  split; [lia |]. split; [lia |]. split; [| split].
  - unfold timeToMinutes. cbn [split_colon].
    apply Ascii.eqb_neq in Hn1, Hn2, Hn3, Hn4.
    rewrite Hn1, Hn2, Hn3, Hn4, Ascii.eqb_refl.
    cbn [map elem lookup list_lookup].
    rewrite !Number_digits
      by (cbn [is_digits]; rewrite ?H1, ?H2, ?H3, ?H4; reflexivity).
    cbn [parse_digits].
    rewrite H1, H2, H3, H4. cbn [add mul lift2]. f_equal. lia.
  - rewrite !padStart2_two_digits by lia.
    replace ((a * 10 + b) / 10) with a
      by (apply Z.div_unique_pos with (r := b); lia).
    replace ((a * 10 + b) mod 10) with b
      by (apply Z.mod_unique_pos with (q := a); lia).
    replace ((d * 10 + e) / 10) with d
      by (apply Z.div_unique_pos with (r := e); lia).
    replace ((d * 10 + e) mod 10) with e
      by (apply Z.mod_unique_pos with (q := d); lia).
    rewrite Hca, Hcb, Hcd, Hce. reflexivity.
  - simpl. intros Hclock. apply andb_true_iff in Hclock as [_ Hclock].
    apply Z.leb_le in Hclock. exact Hclock.
Qed.

End TimeStrings.

(** X1.  Printing a non-negative number of minutes and reading the text
    back gives the same number: [timeToMinutes] undoes [minutesToTime],
    also beyond 24 hours. *)
Theorem timeToMinutes_after_minutesToTime (m : Z) :
  0 <= m -> timeToMinutes (minutesToTime (Some m)) = Some m.
Proof. apply timeToMinutes_minutesToTime. Qed.

Lemma timeToMinutes_after_minutesToTime_witness :
  0 <= 1500 /\ timeToMinutes (minutesToTime (Some 1500)) = Some 1500.
Proof.
  split; [lia |]. apply (timeToMinutes_after_minutesToTime 1500). lia.
Defined.

(** X2.  On a canonical [HH:MM] string (two digits each, minutes below 60)
    [timeToMinutes] gives a number below 6000 that [minutesToTime] prints
    as the very same string; for a time of the 24-hour clock the number
    lies between 0 and 1439. *)
Theorem minutesToTime_after_timeToMinutes (s : string) :
  canonicalTime s = true ->
  exists m, timeToMinutes s = Some m /\ 0 <= m < 6000 /\
            minutesToTime (Some m) = s /\
            (clockTime s = true -> m <= 1439).
Proof.
  intros Hs.
  destruct (timeToMinutes_canonical s Hs) as (h & m & Hh & Hm & Ht & Hshape & Hclock).
  exists (60 * h + m). split; [exact Ht |]. split; [lia |]. split.
  - rewrite minutesToTime_nonneg by lia.
    replace ((60 * h + m) / 60) with h
      by (apply Z.div_unique_pos with (r := m); lia).
    replace ((60 * h + m) mod 60) with m
      by (apply Z.mod_unique_pos with (q := h); lia).
    now symmetry.
  - intros Hc. specialize (Hclock Hc). lia.
Qed.

Lemma minutesToTime_after_timeToMinutes_witness :
  canonicalTime "23:59" = true /\
  exists m, timeToMinutes "23:59" = Some m /\ minutesToTime (Some m) = "23:59".
Proof.
  split; [reflexivity |].
  destruct (minutesToTime_after_timeToMinutes "23:59" eq_refl)
    as (m & Ht & _ & Hp & _).
  exists m. auto.
Defined.

(** X3.  [timeToMinutes] reads only the first two pieces of its argument:
    whatever follows a second colon (seconds, for instance) is ignored. *)
Theorem timeToMinutes_ignores_seconds (s rest : string) :
  canonicalTime s = true ->
  timeToMinutes (s +:+ ":" +:+ rest) = timeToMinutes s.
Proof.
  unfold canonicalTime.
  destruct s as [| h1 [| h2 [| c [| m1 [| m2 [| ? ?]]]]]]; try discriminate.
  destruct (digit_of h1) as [a |] eqn:H1; [| discriminate].
  destruct (digit_of h2) as [b |] eqn:H2; [| discriminate].
  destruct (digit_of m1) as [d |] eqn:H3; [| discriminate].
  destruct (digit_of m2) as [e |] eqn:H4; [| discriminate].
  intros Hc. apply andb_true_iff in Hc as [Hcolon _].
  apply Ascii.eqb_eq in Hcolon. subst c.
  destruct (digit_of_inv _ _ H1) as (_ & _ & Hn1).
  destruct (digit_of_inv _ _ H2) as (_ & _ & Hn2).
  destruct (digit_of_inv _ _ H3) as (_ & _ & Hn3).
  destruct (digit_of_inv _ _ H4) as (_ & _ & Hn4).
  apply Ascii.eqb_neq in Hn1, Hn2, Hn3, Hn4.
  unfold timeToMinutes. rewrite !str_cons, !str_nil. cbn [split_colon].
  rewrite Hn1, Hn2, Hn3, Hn4, !Ascii.eqb_refl.
  destruct (split_colon rest) as [| r0 rs] eqn:Hrest; reflexivity.
Qed.

Lemma timeToMinutes_ignores_seconds_witness :
  canonicalTime "09:30" = true /\
  timeToMinutes ("09:30" +:+ ":" +:+ "45") = timeToMinutes "09:30".
Proof.
  split; [reflexivity |].
  apply (timeToMinutes_ignores_seconds "09:30" "45"). reflexivity.
Defined.

(** ** The conflict detector, further *)

Section Detector.

Variable today : string.

Lemma collectConflicts_tasks newTask newStart existingTasks :
  map CD.conflictingTask (CD.collectConflicts today newTask newStart existingTasks) =
  List.filter (overlapsTask today newTask newStart) existingTasks.
Proof.
  induction existingTasks as [| e rest IH]; [reflexivity |].
  cbn [CD.collectConflicts List.filter]. unfold overlapsTask at 1.
  destruct (CD.shouldCompareTasks today newTask e); simpl; [| exact IH].
  destruct (startTime e) as [s |]; [| exact IH].
  destruct (String.eqb s ""); simpl; [exact IH |].
  destruct (CD.doTimesOverlap newStart (endTime newTask) s (endTime e)); simpl;
    [f_equal |]; exact IH.
Qed.

Lemma collectConflicts_app newTask newStart l1 l2 :
  CD.collectConflicts today newTask newStart (l1 ++ l2)%list =
  (CD.collectConflicts today newTask newStart l1 ++
   CD.collectConflicts today newTask newStart l2)%list.
Proof.
  induction l1 as [| e rest IH]; [reflexivity |].
  cbn [app CD.collectConflicts].
  destruct (negb (CD.shouldCompareTasks today newTask e)); [exact IH |].
  destruct (startTime e) as [s |]; [| exact IH].
  destruct (negb (truthy (Some s))); [exact IH |].
  destruct (CD.doTimesOverlap newStart (endTime newTask) s (endTime e));
    [| exact IH].
  rewrite IH. reflexivity.
Qed.

Lemma check_conflicts newTask newStart existingTasks :
  startTime newTask = Some newStart -> newStart <> "" ->
  CD.checkTimeConflicts today newTask existingTasks =
  let conflicts := CD.collectConflicts today newTask newStart existingTasks in
  CD.mkResult (Nat.ltb 0 (length conflicts)) conflicts
    (if Nat.ltb 0 (length conflicts)
     then Some (CD.findNextAvailableTime today newStart existingTasks newTask)
     else None).
Proof.
  intros Hs Hne. unfold CD.checkTimeConflicts. rewrite Hs. unfold truthy.
  apply String.eqb_neq in Hne. rewrite Hne. reflexivity.
Qed.

Lemma shouldCompareTasks_sym task1 task2 :
  CD.shouldCompareTasks today task1 task2 = CD.shouldCompareTasks today task2 task1.
Proof.
  unfold CD.shouldCompareTasks.
  rewrite (orb_comm (completed task1)).
  destruct (completed task2 || completed task1); [reflexivity |].
  destruct (type task1), (type task2); simpl; try reflexivity;
    repeat case_bool_decide; congruence.
Qed.

Lemma overlapsTask_blocks newTask s o e :
  timeToMinutes s = Some o -> truthy (endTime newTask) = false ->
  overlapsTask today newTask s e = true <-> blocks today newTask o e.
Proof.
  intros Ho Hend. unfold overlapsTask, blocks.
  assert (Hie : intervalEnd s (endTime newTask) = Some (o + 60)).
  { unfold intervalEnd, truthy in *. rewrite Ho.
    destruct (endTime newTask) as [x |]; [| reflexivity].
    destruct (String.eqb x ""); [reflexivity | discriminate]. }
  destruct (CD.shouldCompareTasks today newTask e); simpl;
    [| split; [discriminate | intros [H _]; discriminate]].
  destruct (startTime e) as [s2 |];
    [| split; [discriminate | intros (_ & x & a & b & H & _); discriminate]].
  destruct (String.eqb_spec s2 "") as [-> | Hne]; simpl.
  { split; [discriminate |].
    intros (_ & x & a & b & H & Hx & _). inversion H; subst. now elim Hx. }
  rewrite doTimesOverlap_true_iff, Ho, Hie.
  split.
  - intros (a1 & b1 & a2 & b2 & H1 & H2 & H3 & H4 & Hm).
    inversion H1; inversion H2; subst.
    split; [reflexivity |]. exists s2, a2, b2. auto.
  - intros (_ & x & a & b & Hx & _ & Ha & Hb & Hm).
    inversion Hx; subst x.
    exists o, (o + 60), a, b. auto.
Qed.

End Detector.

(** X4.  For a candidate with a start time, the conflicting tasks reported
    by [checkTimeConflicts] are exactly the existing tasks that are
    compared with it, have a start time and overlap it, each once, in the
    order of the existing list: no such task is missed. *)
Theorem conflicts_complete_in_order (today : string) (newTask : Task)
    (newStart : string) (existingTasks : list Task) :
  startTime newTask = Some newStart -> newStart <> "" ->
  let r := CD.checkTimeConflicts today newTask existingTasks in
  map CD.conflictingTask (CD.conflicts r) =
    List.filter (overlapsTask today newTask newStart) existingTasks /\
  (forall e, e ∈ existingTasks -> overlapsTask today newTask newStart e = true ->
     exists c, c ∈ CD.conflicts r /\ CD.conflictingTask c = e) /\
  (length (CD.conflicts r) <= length existingTasks)%nat.
Proof.
  intros Hs Hne r. subst r. rewrite (check_conflicts today _ _ _ Hs Hne).
  cbn [CD.conflicts].
  pose proof (collectConflicts_tasks today newTask newStart existingTasks) as Hmap.
  split; [exact Hmap |]. split.
  - intros e He Hov.
    assert (Hin : e ∈ map CD.conflictingTask
                     (CD.collectConflicts today newTask newStart existingTasks)).
    { rewrite Hmap. apply list_elem_of_In, filter_In.
      split; [now apply list_elem_of_In | exact Hov]. }
    apply list_elem_of_fmap in Hin as (c & -> & Hc). eauto.
  - apply (f_equal length) in Hmap. rewrite length_map in Hmap.
    rewrite Hmap. apply filter_length_le.
Qed.

Lemma conflicts_complete_in_order_witness :
  startTime taskB = Some "09:30" /\ "09:30" <> "" /\
  map CD.conflictingTask
    (CD.conflicts (CD.checkTimeConflicts "2025-01-01" taskB [taskMorning; taskA; taskNoon])) =
  [taskA].
Proof.
  split; [reflexivity |]. split; [discriminate |].
  destruct (conflicts_complete_in_order "2025-01-01" taskB "09:30"
              [taskMorning; taskA; taskNoon] eq_refl) as (Hmap & _);
    [discriminate |].
  rewrite Hmap. reflexivity.
Defined.

(** X5.  Eligibility and conflict are symmetric: [shouldCompareTasks]
    gives the same answer with its two tasks exchanged, and checking [a]
    against [b] alone finds a conflict exactly when checking [b] against
    [a] alone does, with the same severity. *)
Theorem conflict_symmetric (today : string) (a b : Task) :
  CD.shouldCompareTasks today a b = CD.shouldCompareTasks today b a /\
  CD.hasConflicts (CD.checkTimeConflicts today a [b]) =
    CD.hasConflicts (CD.checkTimeConflicts today b [a]) /\
  CD.getConflictSeverity (CD.conflicts (CD.checkTimeConflicts today a [b])) =
    CD.getConflictSeverity (CD.conflicts (CD.checkTimeConflicts today b [a])).
Proof.
  split; [apply shouldCompareTasks_sym |].
  unfold CD.checkTimeConflicts. cbn [CD.collectConflicts].
  rewrite (shouldCompareTasks_sym today b a).
  destruct (CD.shouldCompareTasks today a b);
    destruct (startTime a) as [sa |], (startTime b) as [sb |];
    cbn [negb truthy]; try (split; reflexivity).
  - rewrite (doTimesOverlap_unfold sb), (doTimesOverlap_unfold sa), andb_comm.
    destruct (String.eqb sa ""), (String.eqb sb ""); cbn [negb];
      try (split; reflexivity).
    destruct (lt (timeToMinutes sb) (intervalEnd sa (endTime a)) &&
              lt (timeToMinutes sa) (intervalEnd sb (endTime b)));
      [| split; reflexivity].
    split; [reflexivity |]. unfold CD.getConflictSeverity. cbn.
    repeat case_bool_decide; congruence.
  - destruct (String.eqb sa ""); split; reflexivity.
  - destruct (String.eqb sb ""); split; reflexivity.
  - destruct (String.eqb sa ""), (String.eqb sb ""); split; reflexivity.
  - destruct (String.eqb sa ""); split; reflexivity.
  - destruct (String.eqb sb ""); split; reflexivity.
Qed.

(** X6.  Completed tasks take no part in conflict checking: a pair with a
    completed member is never compared, no conflict entry names a
    completed task, and a completed candidate has no conflicts. *)
Theorem completed_never_conflict (today : string) (newTask : Task)
    (existingTasks : list Task) :
  (forall task1 task2, completed task1 = true \/ completed task2 = true ->
     CD.shouldCompareTasks today task1 task2 = false) /\
  (forall c, c ∈ CD.conflicts (CD.checkTimeConflicts today newTask existingTasks) ->
     completed (CD.conflictingTask c) = false) /\
  (completed newTask = true ->
     CD.checkTimeConflicts today newTask existingTasks = CD.mkResult false [] None).
Proof.
  assert (Hcmp : forall task1 task2,
            completed task1 = true \/ completed task2 = true ->
            CD.shouldCompareTasks today task1 task2 = false).
  { intros task1 task2 [H | H]; unfold CD.shouldCompareTasks; rewrite H;
      rewrite ?orb_true_r; reflexivity. }
  split; [exact Hcmp |]. split.
  - intros c Hc.
    apply checkTimeConflicts_conflicts in Hc as (s & _ & _ & Hc).
    apply collectConflicts_elem in Hc as (_ & Hc & _).
    destruct (completed (CD.conflictingTask c)) eqn:Hdone; [| reflexivity].
    rewrite Hcmp in Hc by auto. discriminate.
  - intros Hdone. unfold CD.checkTimeConflicts.
    destruct (startTime newTask) as [s |]; [| reflexivity].
    destruct (negb (truthy (Some s))); [reflexivity |].
    rewrite collectConflicts_none; [reflexivity |].
    intros e _. apply Hcmp. now left.
Qed.

(** X7.  Tasks the detector places on different days are never reported
    against each other: two daily tasks with different frequencies, two
    one-time tasks with different dates, and a daily task against a
    one-time task whose date is not today.  This holds whatever their
    times are, also when the two frequencies share a weekday. *)
Theorem different_days_never_conflict (today : string) (newTask : Task)
    (existingTasks : list Task) (c : CD.TimeConflict) :
  c ∈ CD.conflicts (CD.checkTimeConflicts today newTask existingTasks) ->
  let e := CD.conflictingTask c in
  (type newTask = daily -> type e = daily -> frequency newTask = frequency e) /\
  (type newTask = once -> type e = once -> date newTask = date e) /\
  (type newTask = daily -> type e = once -> date e = Some today) /\
  (type newTask = once -> type e = daily -> date newTask = Some today).
Proof.
  intros Hc e.
  apply checkTimeConflicts_conflicts in Hc as (s & _ & _ & Hc).
  apply collectConflicts_elem in Hc as (_ & Hcmp & _). fold e in Hcmp.
  unfold CD.shouldCompareTasks in Hcmp.
  destruct (completed newTask || completed e); [discriminate |].
  repeat split; intros H1 H2; rewrite H1, H2 in Hcmp; simpl in Hcmp;
    now apply bool_decide_eq_true in Hcmp.
Qed.

Lemma different_days_never_conflict_witness :
  exists c, c ∈ CD.conflicts (CD.checkTimeConflicts "2025-01-01" taskB [taskA]) /\
    frequency taskB = frequency (CD.conflictingTask c).
Proof.
  exists (CD.mkTimeConflict taskA CD.overlap "You have another task at 09:00").
  assert (Hin : CD.mkTimeConflict taskA CD.overlap "You have another task at 09:00"
                  ∈ CD.conflicts (CD.checkTimeConflicts "2025-01-01" taskB [taskA]))
    by (vm_compute; left).
  split; [exact Hin |].
  apply (different_days_never_conflict "2025-01-01" taskB [taskA] _ Hin);
    reflexivity.
Defined.

(** X8.  The conflict list is additive in the existing tasks: checking
    against two lists put end to end reports the conflicts of the first
    list followed by those of the second, so more existing tasks never
    remove a conflict. *)
Theorem conflicts_additive (today : string) (newTask : Task)
    (l1 l2 : list Task) :
  CD.conflicts (CD.checkTimeConflicts today newTask (l1 ++ l2)%list) =
    (CD.conflicts (CD.checkTimeConflicts today newTask l1) ++
     CD.conflicts (CD.checkTimeConflicts today newTask l2))%list /\
  CD.hasConflicts (CD.checkTimeConflicts today newTask (l1 ++ l2)%list) =
    CD.hasConflicts (CD.checkTimeConflicts today newTask l1) ||
    CD.hasConflicts (CD.checkTimeConflicts today newTask l2).
Proof.
  unfold CD.checkTimeConflicts.
  destruct (startTime newTask) as [s |]; [| split; reflexivity].
  destruct (negb (truthy (Some s))); [split; reflexivity |].
  cbn [CD.conflicts CD.hasConflicts].
  rewrite collectConflicts_app. split; [reflexivity |].
  rewrite length_app.
  destruct (CD.collectConflicts today newTask s l1),
           (CD.collectConflicts today newTask s l2); reflexivity.
Qed.

(** X9.  Severity over two conflict lists put end to end: it is [error]
    exactly when one of the two is [error], and [none] exactly when both
    are [none]. *)
Theorem getConflictSeverity_app (l1 l2 : list CD.TimeConflict) :
  (CD.getConflictSeverity (l1 ++ l2)%list = CD.error <->
     CD.getConflictSeverity l1 = CD.error \/ CD.getConflictSeverity l2 = CD.error) /\
  (CD.getConflictSeverity (l1 ++ l2)%list = CD.none <->
     CD.getConflictSeverity l1 = CD.none /\ CD.getConflictSeverity l2 = CD.none).
Proof.
  destruct (getConflictSeverity_cases (l1 ++ l2)%list) as (Hn & He & _).
  destruct (getConflictSeverity_cases l1) as (Hn1 & He1 & _).
  destruct (getConflictSeverity_cases l2) as (Hn2 & He2 & _).
  rewrite He, He1, He2, Hn, Hn1, Hn2. split.
  - split.
    + intros (c & Hc & Hty). apply elem_of_app in Hc as [Hc | Hc]; eauto.
    + intros [(c & Hc & Hty) | (c & Hc & Hty)]; exists c;
        (split; [apply elem_of_app; auto | exact Hty]).
  - split.
    + intros H. apply app_eq_nil in H. exact H.
    + intros [-> ->]. reflexivity.
Qed.

Section Detector2.

Variable today : string.

Lemma set_startTime_same task :
  set_startTime task (startTime task) = task.
Proof. destruct task; reflexivity. Qed.

Lemma blocks_set_startTime newTask v x e :
  blocks today (set_startTime newTask v) x e <-> blocks today newTask x e.
Proof. reflexivity. Qed.

Lemma map_eq_nil {A B} (f : A -> B) (l : list A) : map f l = [] -> l = [].
Proof. destruct l; [reflexivity | discriminate]. Qed.

Lemma filter_none {A} (p : A -> bool) (l : list A) :
  (forall x, x ∈ l -> p x = false) -> List.filter p l = [].
Proof.
  induction l as [| x l IH]; intros H; [reflexivity |]. simpl.
  rewrite (H x) by left. apply IH. intros y Hy. apply H. now right.
Qed.

(** A candidate without an end time at minute [o]: it is conflict-free
    exactly when the probe at [o] is. *)
Lemma hasConflicts_probeFree newTask s o existingTasks :
  startTime newTask = Some s -> s <> "" -> timeToMinutes s = Some o ->
  truthy (endTime newTask) = false ->
  CD.hasConflicts (CD.checkTimeConflicts today newTask existingTasks) = false <->
  probeFree today newTask existingTasks o.
Proof.
  intros Hs Hne Ho Hend.
  rewrite (check_conflicts today _ _ _ Hs Hne). cbn [CD.hasConflicts].
  pose proof (collectConflicts_tasks today newTask s existingTasks) as Hmap.
  split.
  - intros Hnone e He Hb.
    apply (overlapsTask_blocks today newTask s o e Ho Hend) in Hb.
    assert (Hin : In e (List.filter (overlapsTask today newTask s) existingTasks)).
    { apply filter_In. split; [now apply list_elem_of_In | exact Hb]. }
    rewrite <- Hmap in Hin.
    destruct (CD.collectConflicts today newTask s existingTasks);
      [destruct Hin | discriminate].
  - intros Hfree.
    rewrite filter_none in Hmap.
    + apply map_eq_nil in Hmap. now rewrite Hmap.
    + intros e He.
      destruct (overlapsTask today newTask s e) eqn:Hov; [| reflexivity].
      apply (overlapsTask_blocks today newTask s o e Ho Hend) in Hov.
      elim (Hfree e He Hov).
Qed.

Lemma existsb_Permutation {A} (p : A -> bool) (l l' : list A) :
  l ≡ₚ l' -> existsb p l = existsb p l'.
Proof.
  induction 1 as [| x l l' _ IH | x y l | l l' l'' _ IH1 _ IH2]; simpl.
  - reflexivity.
  - now rewrite IH.
  - destruct (p x), (p y); reflexivity.
  - now rewrite IH1.
Qed.

Lemma probeLoop_Permutation n currentTime l l' task :
  l ≡ₚ l' ->
  CD.probeLoop today n currentTime l task = CD.probeLoop today n currentTime l' task.
Proof.
  intros Hperm. revert currentTime.
  induction n as [| n IH]; intros currentTime; [reflexivity |].
  cbn [CD.probeLoop]. rewrite (existsb_Permutation _ _ _ Hperm), IH. reflexivity.
Qed.

Lemma collectConflicts_cons newTask newStart e rest :
  CD.collectConflicts today newTask newStart (e :: rest) =
  (CD.collectConflicts today newTask newStart [e] ++
   CD.collectConflicts today newTask newStart rest)%list.
Proof. apply (collectConflicts_app today newTask newStart [e] rest). Qed.

Lemma collectConflicts_Permutation newTask newStart l l' :
  l ≡ₚ l' ->
  CD.collectConflicts today newTask newStart l ≡ₚ
  CD.collectConflicts today newTask newStart l'.
Proof.
  induction 1 as [| x l l' _ IH | x y l | l l' l'' _ IH1 _ IH2].
  - reflexivity.
  - rewrite (collectConflicts_cons _ _ x l), (collectConflicts_cons _ _ x l').
    now rewrite IH.
  - rewrite (collectConflicts_cons _ _ y (x :: l)), (collectConflicts_cons _ _ x l),
      (collectConflicts_cons _ _ x (y :: l)), (collectConflicts_cons _ _ y l).
    rewrite !app_assoc. f_equiv. apply Permutation_app_comm.
  - now rewrite IH1.
Qed.

Lemma getConflictSeverity_Permutation (l l' : list CD.TimeConflict) :
  l ≡ₚ l' -> CD.getConflictSeverity l = CD.getConflictSeverity l'.
Proof.
  intros Hperm.
  destruct (getConflictSeverity_cases l) as (Hn & He & Hw).
  destruct (getConflictSeverity_cases l') as (Hn' & He' & Hw').
  destruct (CD.getConflictSeverity l) eqn:Hsev.
  - symmetry. apply Hn'. apply Permutation_nil. rewrite <- Hperm.
    now rewrite (proj1 Hn eq_refl).
  - symmetry. apply Hw'. destruct (proj1 Hw eq_refl) as [Hne Hall]. split.
    + intros ->. apply Hne. now apply Permutation_nil_r in Hperm.
    + intros c Hc. apply Hall. now rewrite Hperm.
  - symmetry. apply He'. destruct (proj1 He eq_refl) as (c & Hc & Hty).
    exists c. split; [now rewrite <- Hperm | exact Hty].
Qed.

End Detector2.

(** Reading back what [minutesToTime] prints, for any integer. *)
Lemma timeToMinutes_minutesToTime_any (x : Z) :
  timeToMinutes (minutesToTime (Some x)) = Some (readBack x).
Proof.
  unfold minutesToTime. cbn [floor_div60 rem60 option_map].
  destruct (printed_number (x / 60)) as (Hn1 & Hsplit1 & _).
  destruct (printed_number (Z.rem x 60)) as (Hn2 & _ & Hsplit2).
  cbn zeta in Hn1, Hsplit1, Hn2, Hsplit2.
  unfold timeToMinutes. rewrite str_cons, str_nil, Hsplit1, Hsplit2.
  cbn [map elem lookup list_lookup]. rewrite Hn1, Hn2. reflexivity.
Qed.

Lemma readBack_hour (x : Z) : readBack x + 60 <= readBack (x + 60).
Proof. unfold readBack. Z.to_euclidean_division_equations. lia. Qed.

(** A time returned by the probe loop was printed from a minute whose
    probe hit no existing task. *)
Lemma probeLoop_some today n existingTasks task :
  forall x t,
    CD.probeLoop today n (Some x) existingTasks task = Some t ->
    exists x', t = minutesToTime (Some x') /\
      existsb (CD.probeHits today task (minutesToTime (Some x'))
                 (minutesToTime (Some (x' + 60)))) existingTasks = false.
Proof.
  induction n as [| n IH]; intros x t; [discriminate |].
  cbn [CD.probeLoop add lift2].
  destruct (existsb _ existingTasks) eqn:Hex; cbn [negb].
  - apply IH.
  - intros [= <-]. exists x. split; [reflexivity | exact Hex].
Qed.

(** A candidate without an end time that is moved to the time printed
    for minute [x] overlaps nothing that the probe at [x] does not
    hit. *)
Lemma moved_overlap_probeHits today newTask x e :
  truthy (endTime newTask) = false ->
  overlapsTask today (set_startTime newTask (Some (minutesToTime (Some x))))
    (minutesToTime (Some x)) e = true ->
  CD.probeHits today newTask (minutesToTime (Some x))
    (minutesToTime (Some (x + 60))) e = true.
Proof.
  intros Hend. unfold overlapsTask, CD.probeHits.
  change (CD.shouldCompareTasks today
            (set_startTime newTask (Some (minutesToTime (Some x)))) e)
    with (CD.shouldCompareTasks today newTask e).
  change (endTime (set_startTime newTask (Some (minutesToTime (Some x)))))
    with (endTime newTask).
  destruct (CD.shouldCompareTasks today newTask e); [| discriminate].
  cbn [andb negb]. destruct (startTime e) as [s2 |]; [| discriminate].
  unfold truthy at 1. destruct (String.eqb s2 ""); [discriminate |].
  cbn [andb negb]. rewrite !doTimesOverlap_true_iff.
  intros (a1 & b1 & a2 & b2 & Ha1 & Hb1 & Ha2 & Hb2 & Hm1 & Hm2).
  rewrite timeToMinutes_minutesToTime_any in Ha1. injection Ha1 as <-.
  assert (Hb1' : b1 = readBack x + 60).
  { unfold intervalEnd, truthy in Hb1, Hend.
    rewrite timeToMinutes_minutesToTime_any in Hb1.
    destruct (endTime newTask) as [v |].
    - destruct (String.eqb v ""); [| discriminate].
      simpl in Hb1. congruence.
    - simpl in Hb1. congruence. }
  subst b1.
  exists (readBack x), (readBack (x + 60)), a2, b2.
  split; [apply timeToMinutes_minutesToTime_any |].
  split.
  { unfold intervalEnd.
    pose proof (minutesToTime_truthy (Some (x + 60))) as Ht. simpl in Ht.
    destruct (String.eqb (minutesToTime (Some (x + 60))) ""); [discriminate |].
    apply timeToMinutes_minutesToTime_any. }
  split; [exact Ha2 |]. split; [exact Hb2 |].
  pose proof (readBack_hour x). split; lia.
Qed.

(** X10.  For a candidate without an end time: moving it to the suggested
    time removes every conflict exactly when the suggestion differs from
    the requested start (a suggestion equal to the requested start means
    that none of the 24 probes was free). *)
Theorem suggestion_resolves_conflicts (today : string) (newTask : Task)
    (existingTasks : list Task) (s t : string) :
  truthy (endTime newTask) = false ->
  startTime newTask = Some s ->
  CD.suggestedTime (CD.checkTimeConflicts today newTask existingTasks) = Some t ->
  (t <> s <->
   CD.hasConflicts
     (CD.checkTimeConflicts today (set_startTime newTask (Some t)) existingTasks)
   = false).
Proof.
  intros Hend Hs Ht.
  assert (Hconf : CD.hasConflicts
                    (CD.checkTimeConflicts today newTask existingTasks) = true).
  { revert Ht. unfold CD.checkTimeConflicts. rewrite Hs.
    destruct (negb (truthy (Some s))); [discriminate |].
    cbn [CD.suggestedTime CD.hasConflicts].
    destruct (Nat.ltb 0 _); [reflexivity | discriminate]. }
  destruct (hasConflicts_start _ _ _ Hconf) as (s' & o & Hs' & Hne & Ho & Hsugg).
  rewrite Hs in Hs'. injection Hs' as <-.
  rewrite Hsugg in Ht. injection Ht as Ht'.
  split.
  - intros Hdiff. unfold CD.findNextAvailableTime in Ht'. rewrite Ho in Ht'.
    destruct (CD.probeLoop today 24 (Some o) existingTasks newTask) as [t' |]
      eqn:Hloop; [subst t' | congruence].
    apply probeLoop_some in Hloop as (x & -> & Hex).
    pose proof (minutesToTime_truthy (Some x)) as Htr.
    unfold truthy in Htr. apply negb_true_iff, String.eqb_neq in Htr.
    rewrite (check_conflicts today
               (set_startTime newTask (Some (minutesToTime (Some x))))
               (minutesToTime (Some x)) existingTasks eq_refl Htr).
    cbn [CD.hasConflicts].
    pose proof (collectConflicts_tasks today
                  (set_startTime newTask (Some (minutesToTime (Some x))))
                  (minutesToTime (Some x)) existingTasks) as Hmap.
    rewrite filter_none in Hmap.
    + apply map_eq_nil in Hmap. now rewrite Hmap.
    + intros e He.
      destruct (overlapsTask today _ (minutesToTime (Some x)) e) eqn:Hov;
        [| reflexivity].
      apply (moved_overlap_probeHits today newTask x e Hend) in Hov.
      assert (Hsome : existsb (CD.probeHits today newTask (minutesToTime (Some x))
                         (minutesToTime (Some (x + 60)))) existingTasks = true).
      { apply existsb_exists. exists e.
        split; [now apply list_elem_of_In | exact Hov]. }
      congruence.
  - intros Hnone Heq.
    rewrite Heq, <- Hs, set_startTime_same in Hnone. congruence.
Qed.

Lemma suggestion_resolves_conflicts_witness :
  truthy (endTime taskB) = false /\ startTime taskB = Some "09:30" /\
  CD.suggestedTime (CD.checkTimeConflicts "2025-01-01" taskB [taskA]) = Some "10:00" /\
  CD.hasConflicts
    (CD.checkTimeConflicts "2025-01-01" (set_startTime taskB (Some "10:00")) [taskA])
  = false.
Proof.
  split; [reflexivity |]. split; [reflexivity |]. split; [reflexivity |].
  apply (suggestion_resolves_conflicts "2025-01-01" taskB [taskA] "09:30" "10:00");
    try reflexivity.
  discriminate.
Defined.

(** X11.  The order of the existing tasks matters only for the order of
    the conflict entries: for a rearranged list the entries are the same
    up to order, and [hasConflicts], the severity and the suggested time
    are the same. *)
Theorem checkTimeConflicts_order_independent (today : string) (newTask : Task)
    (l l' : list Task) :
  l ≡ₚ l' ->
  let r := CD.checkTimeConflicts today newTask l in
  let r' := CD.checkTimeConflicts today newTask l' in
  CD.conflicts r ≡ₚ CD.conflicts r' /\
  CD.hasConflicts r = CD.hasConflicts r' /\
  CD.getConflictSeverity (CD.conflicts r) = CD.getConflictSeverity (CD.conflicts r') /\
  CD.suggestedTime r = CD.suggestedTime r'.
Proof.
  intros Hperm r r'. subst r r'. unfold CD.checkTimeConflicts.
  destruct (startTime newTask) as [s |]; [| repeat split; reflexivity].
  destruct (negb (truthy (Some s))); [repeat split; reflexivity |].
  cbn [CD.conflicts CD.hasConflicts CD.suggestedTime].
  pose proof (collectConflicts_Permutation today newTask s l l' Hperm) as Hc.
  assert (Hlen : length (CD.collectConflicts today newTask s l) =
                 length (CD.collectConflicts today newTask s l'))
    by (now apply Permutation_length).
  split; [exact Hc |]. split; [now rewrite Hlen |].
  split; [now apply getConflictSeverity_Permutation |].
  rewrite Hlen. unfold CD.findNextAvailableTime.
  now rewrite (probeLoop_Permutation today 24 (timeToMinutes s) l l' newTask Hperm).
Qed.

Lemma checkTimeConflicts_order_independent_witness :
  [taskA; taskMorning] ≡ₚ [taskMorning; taskA] /\
  CD.suggestedTime (CD.checkTimeConflicts "2025-01-01" taskB [taskA; taskMorning]) =
  CD.suggestedTime (CD.checkTimeConflicts "2025-01-01" taskB [taskMorning; taskA]).
Proof.
  split; [apply Permutation_swap |].
  apply (checkTimeConflicts_order_independent "2025-01-01" taskB
           [taskA; taskMorning] [taskMorning; taskA]).
  apply Permutation_swap.
Defined.

(** ** The allocator, further *)

Section Allocator.

Lemma assign_prefix flex :
  forall slots i,
    map fst (Opt.assign flex slots i) =
    take (length (Opt.assign flex slots i)) (map id flex).
Proof.
  induction flex as [| task rest IH]; intros slots i; [reflexivity |].
  cbn [Opt.assign].
  destruct (slots !! Opt.skipExhausted (length slots) slots i) as [slot |];
    [| reflexivity].
  cbn [map length take fst]. f_equal. apply IH.
Qed.

(** Slot widths are never negative. *)
Let widthOk (slots : list Opt.Interval) : Prop :=
  forall j a b, slots !! j = Some (Opt.mkInterval (Some a) (Some b)) -> a <= b.

Lemma skipExhausted_freeHours slots :
  chained slots -> widthOk slots ->
  forall fuel i, (length slots <= fuel + i)%nat ->
    freeHours (drop (Opt.skipExhausted fuel slots i) slots) =
    freeHours (drop i slots).
Proof.
  intros [Hnum _] Hw. induction fuel as [| fuel IH]; intros i Hlen;
    [reflexivity |].
  cbn [Opt.skipExhausted].
  destruct (slots !! i) as [slot |] eqn:Hi; [| reflexivity].
  destruct (Hnum i slot Hi) as (a & b & ->).
  cbn [Opt.start Opt.end_ sub lift2 lt].
  destruct (Z.ltb_spec (b - a) 60) as [Hshort | Hroom]; [| reflexivity].
  rewrite IH by lia. rewrite (drop_S slots _ i Hi). cbn [freeHours foldr].
  unfold capacity. cbn [Opt.start Opt.end_].
  pose proof (Hw i a b Hi).
  rewrite Z.div_small by lia. reflexivity.
Qed.

Lemma assign_length flex :
  forall slots i, chained slots -> widthOk slots ->
    length (Opt.assign flex slots i) =
    Nat.min (length flex) (freeHours (drop i slots)).
Proof.
  induction flex as [| task rest IH]; intros slots i Hch Hw; [reflexivity |].
  cbn [Opt.assign].
  destruct (skipExhausted_spec slots (length slots) i ltac:(lia)) as [Hle Hroom].
  rewrite <- (skipExhausted_freeHours slots Hch Hw (length slots) i) by lia.
  set (i' := Opt.skipExhausted (length slots) slots i) in *.
  destruct (slots !! i') as [slot |] eqn:Hi'.
  2: { apply lookup_ge_None in Hi'. rewrite drop_ge by exact Hi'.
       cbn [freeHours foldr length]. lia. }
  destruct (proj1 Hch i' slot Hi') as (a & b & ->).
  specialize (Hroom a b eq_refl). cbn [Opt.start Opt.end_ add lift2 length].
  assert (Hlen : (i' < length slots)%nat) by (eapply lookup_lt_Some; eauto).
  rewrite IH.
  - rewrite drop_insert_ge by lia. rewrite Nat.sub_diag.
    rewrite (drop_S slots _ i' Hi'). cbn [insert list_insert freeHours foldr].
    unfold capacity at 1 3. cbn [Opt.start Opt.end_].
    replace (b - a) with (b - (a + 60) + 1 * 60) by lia.
    rewrite Z.div_add by lia.
    assert (0 <= (b - (a + 60)) / 60) by (apply Z.div_pos; lia).
    rewrite Z2Nat.inj_add by lia. cbn [length]. change (Z.to_nat 1) with 1%nat.
    lia.
  - now apply chained_insert.
  - intros j x y Hj. destruct (decide (i' = j)) as [<- | Hne].
    + rewrite list_lookup_insert_eq in Hj by exact Hlen.
      injection Hj as <- <-. lia.
    + rewrite list_lookup_insert_ne in Hj by exact Hne. eauto.
Qed.

Lemma hasTaskIn_app l1 l2 s e :
  Opt.hasTaskIn (l1 ++ l2)%list s e = Opt.hasTaskIn l1 s e || Opt.hasTaskIn l2 s e.
Proof. unfold Opt.hasTaskIn. apply existsb_app. Qed.

Lemma hasTaskIn_Permutation l l' s e :
  l ≡ₚ l' -> Opt.hasTaskIn l s e = Opt.hasTaskIn l' s e.
Proof. intros H. unfold Opt.hasTaskIn. now apply existsb_Permutation. Qed.

(** A slot of the gap loop ends at the end of the working window or at
    the start of an occupied interval. *)
Lemma gaps_ends l :
  forall lastEnd slot, slot ∈ Opt.gaps l lastEnd ->
    Opt.end_ slot = Opt.WORK_END \/
    exists t, t ∈ l /\ Opt.end_ slot = Opt.start t.
Proof.
  induction l as [| t l IH]; intros lastEnd slot Hin; cbn [Opt.gaps] in Hin.
  - destruct (ge _ _); [| inversion Hin].
    apply list_elem_of_singleton in Hin. subst slot. now left.
  - assert (Hlater : slot ∈ Opt.gaps l (max lastEnd (Opt.end_ t)) ->
              Opt.end_ slot = Opt.WORK_END \/
              exists t', t' ∈ t :: l /\ Opt.end_ slot = Opt.start t').
    { intros H. destruct (IH _ _ H) as [Hw | (t' & Ht' & Heq)]; [now left |].
      right. exists t'. split; [now right | exact Heq]. }
    destruct (ge (sub (Opt.start t) lastEnd) (Some 60)); [| exact (Hlater Hin)].
    apply elem_of_cons in Hin as [-> | Hin]; [| exact (Hlater Hin)].
    right. exists t. split; [left | reflexivity].
Qed.

End Allocator.

(** X12.  Suggestions go to the active flexible tasks in list order, with
    no gaps: the ids of the suggestions are the ids of the first few
    active flexible tasks, so once a flexible task is left without a
    slot, every later one is left without a slot too. *)
Theorem suggestions_first_fit (tasks : list Task) :
  let flexibleTasks := List.filter Opt.isActiveFlexible tasks in
  let sugg := Opt.suggestions tasks in
  map fst sugg = take (length sugg) (map id flexibleTasks) /\
  (length sugg <= length flexibleTasks)%nat /\
  (forall p q task task',
     (p <= q)%nat -> flexibleTasks !! p = Some task ->
     flexibleTasks !! q = Some task' ->
     (exists time, sugg !! q = Some (id task', time)) ->
     exists time, sugg !! p = Some (id task, time)).
Proof.
  intros flexibleTasks sugg.
  assert (Hpre : map fst sugg = take (length sugg) (map id flexibleTasks))
    by apply assign_prefix.
  assert (Hlen : (length sugg <= length flexibleTasks)%nat).
  { apply (f_equal length) in Hpre.
    rewrite length_map, length_take, length_map in Hpre. lia. }
  split; [exact Hpre |]. split; [exact Hlen |].
  intros p q task task' Hpq Hp Hq (time & Hsq).
  assert (Hq' : (q < length sugg)%nat) by (eapply lookup_lt_Some; eauto).
  destruct (sugg !! p) as [[i time'] |] eqn:Hsp.
  - exists time'. f_equal. f_equal.
    assert (Hfst : map fst sugg !! p = Some i)
      by (rewrite list_lookup_fmap, Hsp; reflexivity).
    rewrite Hpre, lookup_take_lt, list_lookup_fmap, Hp in Hfst by lia.
    now inversion Hfst.
  - apply lookup_ge_None in Hsp. lia.
Qed.

(** X13.  Under the data model's invariants on the non-completed tasks, a
    pass hands out exactly as many suggestions as there are active
    flexible tasks or whole free hours in the slots, whichever is fewer:
    a flexible task goes without a slot only when every free hour has
    been given away. *)
Theorem suggestions_count (tasks : list Task) :
  (forall task, task ∈ tasks -> completed task = false -> wellTimed task) ->
  length (Opt.suggestions tasks) =
  Nat.min (length (List.filter Opt.isActiveFlexible tasks))
          (freeHours (Opt.availableSlots (Opt.scheduledTasks tasks))).
Proof.
  intros Hw.
  destruct (scheduledTasks_sorted tasks Hw) as [Hproper Hsorted].
  destruct (availableSlots_chained _ Hproper Hsorted) as [Hch Hroomy].
  unfold Opt.suggestions.
  rewrite assign_length; [reflexivity | exact Hch |].
  intros j a b Hj. apply list_elem_of_lookup_2 in Hj.
  apply (proj1 (list.Forall_forall _ _) Hroomy) in Hj
    as [(a0 & b0 & Heq & _ & Hab) _].
  inversion Heq; subst. lia.
Qed.

Lemma suggestions_count_witness :
  length (Opt.suggestions [taskAllDay; taskFlex1; taskFlex2]) = 0%nat /\
  length (Opt.suggestions [taskMorning; taskFlex1; taskFlex2]) = 2%nat.
Proof.
  assert (Hw : forall l : list Task,
            Forall (fun t => startTime t = None \/
               exists s e a b, startTime t = Some s /\ endTime t = Some e /\
                 e <> "" /\ timeToMinutes s = Some a /\
                 timeToMinutes e = Some b /\ a <= b) l ->
            forall task, task ∈ l -> completed task = false -> wellTimed task).
  { intros l Hall task Hin _ s Hs.
    apply (proj1 (list.Forall_forall _ _) Hall) in Hin
      as [Hnone | (s' & e & a & b & Hs' & He & Hne & Ha & Hb & Hab)];
      [congruence |].
    rewrite Hs in Hs'. inversion Hs'; subst s'.
    exists a, b. split; [exact Ha |]. split; [| exact Hab].
    unfold intervalEnd. rewrite He.
    apply String.eqb_neq in Hne. now rewrite Hne. }
  split.
  - rewrite (suggestions_count [taskAllDay; taskFlex1; taskFlex2]);
      [reflexivity |].
    apply Hw. apply Forall_cons_2;
      [| repeat (apply Forall_cons_2; [left; reflexivity |]); constructor].
    right. exists "07:00", "23:00", 420, 1380.
    repeat split; try reflexivity; try discriminate.
  - rewrite (suggestions_count [taskMorning; taskFlex1; taskFlex2]);
      [reflexivity |].
    apply Hw. apply Forall_cons_2;
      [| repeat (apply Forall_cons_2; [left; reflexivity |]); constructor].
    right. exists "08:00", "09:00", 480, 540.
    repeat split; try reflexivity; try discriminate.
Defined.

Lemma scheduledTasks_perm (tasks : list Task) :
  let user := userIntervals tasks in
  let block s e :=
    if Opt.hasTaskIn user s e then [] else [Opt.mkInterval s e] in
  Opt.scheduledTasks tasks ≡ₚ
    (user ++ block Opt.SLEEP_START_1 Opt.SLEEP_END_1
          ++ block Opt.SLEEP_START_2 Opt.SLEEP_END_2
          ++ block Opt.MORNING_START Opt.MORNING_END)%list.
Proof.
  intros user block. unfold Opt.scheduledTasks. fold (userIntervals tasks).
  fold user. rewrite sortByStart_perm.
  assert (Huser : forall s e,
            Opt.hasTaskIn (Opt.sortByStart user) s e = Opt.hasTaskIn user s e).
  { intros s e. apply hasTaskIn_Permutation, sortByStart_perm. }
  unfold Opt.pushUnlessTaken, block.
  rewrite (Huser Opt.SLEEP_START_1 Opt.SLEEP_END_1).
  destruct (Opt.hasTaskIn user Opt.SLEEP_START_1 Opt.SLEEP_END_1); cbn [negb];
    rewrite ?hasTaskIn_app, !Huser;
    change (Opt.hasTaskIn [Opt.mkInterval Opt.SLEEP_START_1 Opt.SLEEP_END_1]
              Opt.SLEEP_START_2 Opt.SLEEP_END_2) with false;
    rewrite ?orb_false_r;
    destruct (Opt.hasTaskIn user Opt.SLEEP_START_2 Opt.SLEEP_END_2); cbn [negb];
    rewrite ?hasTaskIn_app, !Huser;
    change (Opt.hasTaskIn [Opt.mkInterval Opt.SLEEP_START_1 Opt.SLEEP_END_1]
              Opt.MORNING_START Opt.MORNING_END) with false;
    change (Opt.hasTaskIn [Opt.mkInterval Opt.SLEEP_START_2 Opt.SLEEP_END_2]
              Opt.MORNING_START Opt.MORNING_END) with false;
    rewrite ?orb_false_r;
    destruct (Opt.hasTaskIn user Opt.MORNING_START Opt.MORNING_END); cbn [negb];
    rewrite ?sortByStart_perm, ?app_nil_r, <- ?app_assoc; reflexivity.
Qed.

(** X14.  The occupied intervals of a pass are, up to order, the intervals
    of the non-completed tasks with a start time together with each of
    the three fixed blocks (sleep 23:00-24:00, sleep 00:00-06:00, morning
    06:00-07:00) that none of those intervals overlaps: a block is added
    exactly when the user has nothing in it. *)
Theorem scheduledTasks_blocks (tasks : list Task) :
  let user := userIntervals tasks in
  let block s e :=
    if Opt.hasTaskIn user s e then [] else [Opt.mkInterval s e] in
  Opt.scheduledTasks tasks ≡ₚ
    (user ++ block Opt.SLEEP_START_1 Opt.SLEEP_END_1
          ++ block Opt.SLEEP_START_2 Opt.SLEEP_END_2
          ++ block Opt.MORNING_START Opt.MORNING_END)%list.
Proof. apply scheduledTasks_perm. Qed.

Section Window.

Lemma minutesToTime_clock x :
  0 <= x < 24 * 60 -> clockTime (minutesToTime (Some x)) = true.
Proof.
  intros Hx. rewrite minutesToTime_nonneg by lia.
  assert (Hh : 0 <= x / 60 < 24).
  { split; [apply Z.div_pos; lia | apply Z.div_lt_upper_bound; lia]. }
  assert (Hm : 0 <= x mod 60 < 60) by (apply Z.mod_pos_bound; lia).
  rewrite !padStart2_two_digits by lia.
  assert (Hh1 : 0 <= x / 60 / 10 < 10).
  { split; [apply Z.div_pos; lia | apply Z.div_lt_upper_bound; lia]. }
  assert (Hh2 : 0 <= (x / 60) mod 10 < 10) by (apply Z.mod_pos_bound; lia).
  assert (Hm1 : 0 <= x mod 60 / 10 <= 5).
  { split; [apply Z.div_pos; lia |].
    apply Z.lt_succ_r, Z.div_lt_upper_bound; lia. }
  assert (Hm2 : 0 <= (x mod 60) mod 10 < 10) by (apply Z.mod_pos_bound; lia).
  rewrite !str_cons, !str_nil.
  unfold clockTime, canonicalTime.
  rewrite !digit_of_digit_char by lia.
  rewrite Ascii.eqb_refl. cbn [andb].
  apply andb_true_iff. split; apply Z.leb_le; [lia |].
  pose proof (Z.div_mod (x / 60) 10). lia.
Qed.

End Window.

(** X15.  Under the data model's invariants on the non-completed tasks,
    every suggested time handed out by a pass starts at 07:00 or later;
    and when no non-completed task starts after 23:00, the suggested hour
    also ends by 23:00 and the suggestion is a canonical time of the
    24-hour clock. *)
Theorem suggestions_in_window (tasks : list Task) :
  (forall task, task ∈ tasks -> completed task = false -> wellTimed task) ->
  forall t1 s1,
    t1 ∈ Opt.tasksAfter tasks -> type t1 = flexible -> completed t1 = false ->
    suggestedTime t1 = Some s1 ->
    exists x, timeToMinutes s1 = Some x /\ 7 * 60 <= x /\
      ((forall task, task ∈ tasks -> completed task = false ->
          startsBy (23 * 60) task) ->
       x + 60 <= 23 * 60 /\ clockTime s1 = true).
Proof.
  intros Hw t1 s1 Hin1 Hty1 Hc1 Hs1.
  destruct (scheduledTasks_sorted tasks Hw) as [Hproper Hsorted].
  destruct (availableSlots_chained _ Hproper Hsorted) as [Hch Hroomy].
  destruct (assign_spec (List.filter Opt.isActiveFlexible tasks)
              (Opt.availableSlots (Opt.scheduledTasks tasks)) 0 Hch)
    as (xs & Hmap & Hplaced & _).
  fold (Opt.suggestions tasks) in Hmap.
  assert (He1 : (id t1, s1) ∈ Opt.suggestions tasks).
  { apply tasksAfter_suggestion; try assumption.
    apply isActiveFlexible_true. auto. }
  apply list_elem_of_lookup in He1 as [p Hp].
  assert (Hsnd : map snd (Opt.suggestions tasks) !! p = Some s1)
    by (rewrite list_lookup_fmap, Hp; reflexivity).
  rewrite Hmap, list_lookup_fmap in Hsnd.
  destruct (xs !! p) as [x |] eqn:Hxp; [| discriminate].
  injection Hsnd as <-.
  apply list_elem_of_lookup_2 in Hxp.
  destruct (proj1 (list.Forall_forall _ _) Hplaced x Hxp)
    as (j & a & b & _ & Hslot & Hlo & Hhi).
  apply list_elem_of_lookup_2 in Hslot.
  destruct (proj1 (list.Forall_forall _ _) Hroomy _ Hslot)
    as [(a0 & b0 & Heq & Hwork & _) _].
  inversion Heq; subst a0 b0.
  exists x. split; [apply timeToMinutes_minutesToTime; lia |].
  split; [lia |]. intros Hby.
  assert (Hb : b <= 23 * 60).
  { destruct (gaps_ends _ _ _ Hslot) as [Hend | (t & Ht & Hend)]; cbn in Hend.
    - injection Hend as ->. lia.
    - rewrite (scheduledTasks_perm tasks) in Ht.
      repeat (apply elem_of_app in Ht as [Ht | Ht]).
      + apply list_elem_of_fmap in Ht as (task & -> & Htask).
        apply list_elem_of_In, filter_In in Htask as [Hin Hsched].
        apply list_elem_of_In in Hin.
        apply isScheduled_true in Hsched as (Hc & s & Hs & Hne).
        rewrite (toInterval_times task s Hs) in Hend. cbn in Hend.
        destruct (Hby task Hin Hc s Hs Hne) as (a' & Ha' & Hle).
        rewrite Ha' in Hend. injection Hend as ->. exact Hle.
      + destruct (Opt.hasTaskIn _ _ _); [inversion Ht |].
        apply list_elem_of_singleton in Ht. subst t. cbn in Hend.
        injection Hend as ->. lia.
      + destruct (Opt.hasTaskIn _ _ _); [inversion Ht |].
        apply list_elem_of_singleton in Ht. subst t. cbn in Hend.
        injection Hend as ->. lia.
      + destruct (Opt.hasTaskIn _ _ _); [inversion Ht |].
        apply list_elem_of_singleton in Ht. subst t. cbn in Hend.
        injection Hend as ->. lia. }
  split; [lia |]. apply minutesToTime_clock. lia.
Qed.

Lemma suggestions_in_window_witness :
  exists x, timeToMinutes "07:00" = Some x /\ 7 * 60 <= x.
Proof.
  destruct (suggestions_in_window [taskA; taskFlex1; taskFlex2]) with
    (t1 := set_suggestedTime taskFlex1 (Some "07:00")) (s1 := "07:00")
    as (x & Hx & Hlo & _).
  - intros task Hin _ s Hs.
    repeat (apply elem_of_cons in Hin as [-> | Hin]);
      [| discriminate | discriminate | inversion Hin].
    inversion Hs; subst s. exists 540, 600. vm_compute. split; [reflexivity |].
    split; [reflexivity | discriminate].
  - vm_compute. right. left.
  - reflexivity.
  - reflexivity.
  - reflexivity.
  - exists x. auto.
Defined.

(** ** The task list of the page *)

Section PageList.

Lemma set_completed_twice task :
  Page.set_completed (Page.set_completed task (negb (completed task)))
    (negb (negb (completed task))) = task.
Proof. destruct task as [? ? ? ? []]; reflexivity. Qed.

Lemma filter_filter_same {A} (p : A -> bool) (l : list A) :
  List.filter p (List.filter p l) = List.filter p l.
Proof.
  induction l as [| x l IH]; [reflexivity |]. simpl.
  destruct (p x) eqn:Hp; simpl; rewrite ?Hp, IH; reflexivity.
Qed.

Lemma filter_all {A} (p : A -> bool) (l : list A) :
  (forall x, x ∈ l -> p x = true) -> List.filter p l = l.
Proof.
  induction l as [| x l IH]; intros H; [reflexivity |]. simpl.
  rewrite (H x) by left. f_equal. apply IH. intros y Hy. apply H. now right.
Qed.

Lemma filter_app_last {A} (p : A -> bool) (l : list A) (x : A) :
  List.filter p (l ++ [x])%list =
  (List.filter p l ++ (if p x then [x] else []))%list.
Proof. rewrite filter_app. reflexivity. Qed.

Lemma filter_partition_length {A} (p : A -> bool) (l : list A) :
  (length (List.filter p l) + length (List.filter (fun x => negb (p x)) l))%nat
  = length l.
Proof.
  induction l as [| x l IH]; [reflexivity |]. simpl.
  destruct (p x); simpl; lia.
Qed.

End PageList.

(** X16.  Marking a task done and marking it again restores the list:
    [toggleTaskComplete] with the same id is its own inverse, toggles of
    different ids can be exchanged, and a toggle changes neither the
    length of the list nor any id. *)
Theorem toggleTaskComplete_involution (i j : string) (prev : list Task) :
  Page.toggleTaskComplete i (Page.toggleTaskComplete i prev) = prev /\
  Page.toggleTaskComplete i (Page.toggleTaskComplete j prev) =
    Page.toggleTaskComplete j (Page.toggleTaskComplete i prev) /\
  length (Page.toggleTaskComplete i prev) = length prev /\
  map id (Page.toggleTaskComplete i prev) = map id prev.
Proof.
  unfold Page.toggleTaskComplete. rewrite !map_map, length_map.
  split; [| split; [| split; [reflexivity |]]].
  - rewrite <- (map_id prev) at 2. apply map_ext. intros task.
    destruct (String.eqb (id task) i) eqn:Hi; cbn [id Page.set_completed];
      rewrite ?Hi; [apply set_completed_twice | reflexivity].
  - apply map_ext. intros task.
    destruct (String.eqb (id task) i) eqn:Hi,
             (String.eqb (id task) j) eqn:Hj;
      cbn [id Page.set_completed]; rewrite ?Hi, ?Hj; reflexivity.
  - apply map_ext. intros task.
    destruct (String.eqb (id task) i); reflexivity.
Qed.

(** X17.  [deleteTask] removes every task with the given id and nothing
    else: no task with that id is left, the other tasks stay in their
    order, deleting the same id again changes nothing, and deleting an id
    that no task has leaves the list as it was (the toast then names the
    task "undefined"). *)
Theorem deleteTask_removes_id (i : string) (tasks : list Task) :
  let after := Page.tasksOf (Page.deleteTask i tasks) tasks in
  (forall task, task ∈ after <-> task ∈ tasks /\ id task <> i) /\
  after `sublist_of` tasks /\
  Page.tasksOf (Page.deleteTask i after) after = after /\
  ((forall task, task ∈ tasks -> id task <> i) ->
     after = tasks /\
     Opt.toastDescription (Page.deleteTask i tasks) =
       Page.dquote +:+ "undefined" +:+ Page.dquote
         +:+ " has been removed from your planner.").
Proof.
  intros after. subst after. unfold Page.tasksOf, Page.deleteTask.
  cbn [Opt.setTasks Opt.toastDescription].
  split; [| split; [| split]].
  - intros task. rewrite !list_elem_of_In, filter_In, negb_true_iff,
      String.eqb_neq. reflexivity.
  - induction tasks as [| t l IH]; [constructor |]. simpl.
    destruct (negb _); [now apply sublist_skip | now apply sublist_cons].
  - apply filter_filter_same.
  - intros Hnone. split.
    + apply filter_all. intros t Ht. apply negb_true_iff, String.eqb_neq.
      now apply Hnone.
    + destruct (List.find _ tasks) as [t |] eqn:Hfind; [| reflexivity].
      apply find_some in Hfind as [Hin Heq].
      apply String.eqb_eq in Heq. apply list_elem_of_In in Hin.
      elim (Hnone t Hin Heq).
Qed.

(** X18.  [saveEditedTask] puts the edited task in the place of every
    task with its id and leaves the others alone: the list keeps its
    length and its ids, saving the same task again changes nothing, and
    when no task has that id the list is unchanged, so the edit is
    lost. *)
Theorem saveEditedTask_replaces (updatedTask : Task) (prev : list Task) :
  let after := Page.tasksOf (Page.saveEditedTask updatedTask prev) prev in
  (forall k task, prev !! k = Some task ->
     after !! k = Some (if String.eqb (id task) (id updatedTask)
                        then updatedTask else task)) /\
  length after = length prev /\
  map id after = map id prev /\
  Page.tasksOf (Page.saveEditedTask updatedTask after) after = after /\
  ((forall task, task ∈ prev -> id task <> id updatedTask) -> after = prev).
Proof.
  intros after. subst after. unfold Page.tasksOf, Page.saveEditedTask.
  cbn [Opt.setTasks].
  split; [| split; [| split; [| split]]].
  - intros k task Hk. rewrite list_lookup_fmap, Hk. reflexivity.
  - apply length_map.
  - rewrite map_map. apply map_ext. intros task.
    destruct (String.eqb_spec (id task) (id updatedTask)); congruence.
  - rewrite map_map. apply map_ext. intros task.
    destruct (String.eqb (id task) (id updatedTask)) eqn:Heq;
      rewrite ?String.eqb_refl, ?Heq; reflexivity.
  - intros Hnone. rewrite <- (map_id prev) at 2. apply map_ext_in.
    intros task Hin. apply list_elem_of_In in Hin.
    specialize (Hnone task Hin). apply String.eqb_neq in Hnone.
    now rewrite Hnone.
Qed.

(** X19.  The handlers keep ids distinct: if the ids of the list are
    pairwise different, they still are after a toggle, a save or a
    delete, and after [addTask] as well provided the fresh id is not
    already in use. *)
Theorem handlers_keep_ids_distinct (prev : list Task) :
  NoDup (map id prev) ->
  (forall i, NoDup (map id (Page.toggleTaskComplete i prev))) /\
  (forall updatedTask,
     NoDup (map id (Page.tasksOf (Page.saveEditedTask updatedTask prev) prev))) /\
  (forall i, NoDup (map id (Page.tasksOf (Page.deleteTask i prev) prev))) /\
  (forall now newTask, now ∉ map id prev ->
     NoDup (map id (Page.tasksOf (Page.addTask now newTask prev) prev))).
Proof.
  intros Hnd. split; [| split; [| split]].
  - intros i. unfold Page.toggleTaskComplete. rewrite map_map.
    erewrite map_ext; [exact Hnd |].
    intros task. destruct (String.eqb (id task) i); reflexivity.
  - intros updatedTask. unfold Page.tasksOf, Page.saveEditedTask.
    cbn [Opt.setTasks]. rewrite map_map.
    erewrite map_ext; [exact Hnd |].
    intros task. destruct (String.eqb_spec (id task) (id updatedTask)); congruence.
  - intros i. unfold Page.tasksOf, Page.deleteTask. cbn [Opt.setTasks].
    clear -Hnd. induction prev as [| t l IH]; [constructor |].
    cbn [map] in Hnd. pose proof (NoDup_cons_1_1 _ _ Hnd) as Hnotin.
    apply NoDup_cons_1_2 in Hnd. simpl.
    destruct (negb _); [| now apply IH].
    cbn [map]. apply NoDup_cons_2; [| now apply IH].
    intros Hin. apply Hnotin.
    apply list_elem_of_fmap in Hin as (t' & -> & Hin).
    apply list_elem_of_In, filter_In in Hin as [Hin _].
    apply list_elem_of_fmap. exists t'. split; [reflexivity |].
    now apply list_elem_of_In.
  - intros now newTask Hfresh. unfold Page.tasksOf, Page.addTask.
    cbn [Opt.setTasks]. rewrite map_app. cbn [map Page.set_id id].
    apply (proj2 (list.NoDup_app _ _)). split; [exact Hnd |]. split.
    + intros x Hx Hx'. apply list_elem_of_singleton in Hx'. subst x. auto.
    + apply NoDup_singleton.
Qed.

Lemma handlers_keep_ids_distinct_witness :
  NoDup (map id [taskA; taskB]) /\
  NoDup (map id (Page.tasksOf (Page.addTask "C" taskNoStart [taskA; taskB])
                   [taskA; taskB])).
Proof.
  assert (Hnd : NoDup (map id [taskA; taskB])).
  { cbn. apply NoDup_cons_2; [| apply NoDup_singleton].
    intros Hin. apply list_elem_of_singleton in Hin. discriminate. }
  split; [exact Hnd |].
  apply (handlers_keep_ids_distinct [taskA; taskB] Hnd).
  cbn. intros Hin.
  repeat (apply elem_of_cons in Hin as [Hin | Hin]; [discriminate |]).
  inversion Hin.
Defined.

(** X20.  Adding a task puts it last under the fresh id and leaves the
    earlier tasks alone; deleting that id straight away gives back the
    original list, provided the id was not in use before. *)
Theorem addTask_then_deleteTask (now : string) (newTask : Task)
    (prev : list Task) :
  let added := Page.tasksOf (Page.addTask now newTask prev) prev in
  added = (prev ++ [Page.set_id newTask now])%list /\
  length added = S (length prev) /\
  (forall k, (k < length prev)%nat -> added !! k = prev !! k) /\
  (now ∉ map id prev ->
   Page.tasksOf (Page.deleteTask now added) added = prev).
Proof.
  intros added. subst added. unfold Page.tasksOf, Page.addTask, Page.deleteTask.
  cbn [Opt.setTasks].
  split; [reflexivity |]. split; [rewrite length_app; simpl; lia |].
  split; [intros k Hk; now apply lookup_app_l |].
  intros Hfresh. rewrite filter_app_last. cbn [Page.set_id id].
  rewrite String.eqb_refl. cbn [negb]. rewrite app_nil_r.
  apply filter_all. intros t Ht. apply negb_true_iff, String.eqb_neq.
  intros Heq. apply Hfresh. apply list_elem_of_fmap. eauto.
Qed.

(** X21.  The counts of the statistics cards add up: every task is either
    active or completed, and the active tasks are the daily, one-time and
    flexible ones together. *)
Theorem stats_add_up (tasks : list Task) :
  (length (Page.activeTasks tasks) + length (Page.completedTasks tasks))%nat
    = length tasks /\
  (length (Page.dailyTasks tasks) + length (Page.onceTasks tasks)
     + length (Page.flexibleTasks tasks))%nat
    = length (Page.activeTasks tasks) /\
  Page.stats tasks =
    [("Total Tasks",
      (length (Page.dailyTasks tasks) + length (Page.onceTasks tasks)
         + length (Page.flexibleTasks tasks))%nat);
     ("Daily Tasks", length (Page.dailyTasks tasks));
     ("Appointments", length (Page.onceTasks tasks));
     ("Flexible", length (Page.flexibleTasks tasks))].
Proof.
  assert (H1 : (length (Page.activeTasks tasks)
                + length (Page.completedTasks tasks))%nat = length tasks).
  { unfold Page.activeTasks, Page.completedTasks.
    rewrite Nat.add_comm.
    apply (filter_partition_length (fun task => completed task)). }
  assert (H2 : (length (Page.dailyTasks tasks) + length (Page.onceTasks tasks)
                + length (Page.flexibleTasks tasks))%nat
               = length (Page.activeTasks tasks)).
  { unfold Page.dailyTasks, Page.onceTasks, Page.flexibleTasks. clear H1.
    induction (Page.activeTasks tasks) as [| t l IH]; [reflexivity |].
    cbn [List.filter].
    destruct (type t); repeat case_bool_decide; try discriminate;
      try congruence; cbn [length]; lia. }
  split; [exact H1 |]. split; [exact H2 |].
  unfold Page.stats. now rewrite H2.
Qed.

(** ** Today's schedule *)

Section Schedule.

Variable localeCompare : string -> string -> Z.
Variable today : string.
Variable dayOfWeek : nat.

Lemma insertByTime_perm x l : DS.insertByTime localeCompare x l ≡ₚ x :: l.
Proof.
  induction l as [| y l IH]; cbn [DS.insertByTime]; [reflexivity |].
  destruct (0 <? _); [| reflexivity].
  rewrite IH. apply Permutation_swap.
Qed.

Lemma sortByTime_perm l : DS.sortByTime localeCompare l ≡ₚ l.
Proof.
  induction l as [| x l IH]; simpl; [reflexivity |].
  rewrite insertByTime_perm. now rewrite IH.
Qed.

Lemma filter_split_perm {A} (p : A -> bool) (l : list A) :
  (List.filter p l ++ List.filter (fun x => negb (p x)) l)%list ≡ₚ l.
Proof.
  induction l as [| x l IH]; [reflexivity |]. simpl.
  destruct (p x); simpl.
  - now rewrite IH.
  - rewrite <- Permutation_middle. now rewrite IH.
Qed.

Lemma schedule_tasks tasks :
  map DS.task (DS.generateSchedule localeCompare today dayOfWeek tasks) ≡ₚ
  List.filter (DS.isTodaysTask today dayOfWeek) tasks.
Proof.
  unfold DS.generateSchedule. rewrite map_app, !map_map. cbn [DS.task DS.scheduledItem DS.flexibleItem].
  rewrite !map_id, sortByTime_perm. apply filter_split_perm.
Qed.

Lemma isTodaysTask_active task :
  DS.isTodaysTask today dayOfWeek task = true -> completed task = false.
Proof.
  unfold DS.isTodaysTask. destruct (completed task); [discriminate | reflexivity].
Qed.

Lemma schedule_elem tasks task :
  task ∈ map DS.task (DS.generateSchedule localeCompare today dayOfWeek tasks) <->
  task ∈ tasks /\ DS.isTodaysTask today dayOfWeek task = true.
Proof.
  rewrite schedule_tasks, list_elem_of_In, filter_In, <- list_elem_of_In.
  reflexivity.
Qed.

End Schedule.

(** X22.  Today's schedule lists exactly the tasks that pass the filter
    for today, each as often as it occurs in the task list, whatever the
    string comparison of the host does: a listed task is never completed,
    a one-time task dated another day is never listed, and a
    non-completed flexible task is always listed. *)
Theorem generateSchedule_lists_todays_tasks
    (localeCompare : string -> string -> Z) (today : string)
    (dayOfWeek : nat) (tasks : list Task) :
  let schedule := DS.generateSchedule localeCompare today dayOfWeek tasks in
  map DS.task schedule ≡ₚ List.filter (DS.isTodaysTask today dayOfWeek) tasks /\
  (length schedule <= length tasks)%nat /\
  (forall item, item ∈ schedule ->
     DS.task item ∈ tasks /\ completed (DS.task item) = false /\
     (TaskCard.type (DS.task item) = once ->
      forall d, date (DS.task item) = Some d -> d <> "" -> d = today)) /\
  (forall task, task ∈ tasks -> completed task = false ->
     TaskCard.type task = TaskCard.flexible ->
     task ∈ map DS.task schedule).
Proof.
  intros schedule.
  pose proof (schedule_tasks localeCompare today dayOfWeek tasks) as Hperm.
  fold schedule in Hperm.
  split; [exact Hperm |]. split; [| split].
  - apply Permutation_length in Hperm. rewrite length_map in Hperm.
    rewrite Hperm. apply filter_length_le.
  - intros item Hitem.
    assert (Hin : DS.task item ∈ map DS.task schedule)
      by (apply list_elem_of_fmap; eauto).
    apply schedule_elem in Hin as [Hin Htoday].
    split; [exact Hin |]. split; [eapply isTodaysTask_active; eauto |].
    intros Honce d Hd Hne. unfold DS.isTodaysTask in Htoday.
    destruct (completed (DS.task item)); [discriminate |].
    rewrite Honce, Hd in Htoday. cbn in Htoday.
    apply String.eqb_neq in Hne. rewrite Hne in Htoday. cbn in Htoday.
    apply bool_decide_eq_true in Htoday. congruence.
  - intros task Hin Hactive Hflex. apply schedule_elem.
    split; [exact Hin |]. unfold DS.isTodaysTask.
    rewrite Hactive, Hflex. reflexivity.
Qed.

(** X23.  The schedule is laid out in two parts: first the items of the
    tasks with a start time, marked 'scheduled' and showing the same time
    text as the task card ([formatTimeRange]); then the items of the
    tasks without one, marked 'flexible' and showing "Flexible", in the
    order of the task list. *)
Theorem generateSchedule_layout
    (localeCompare : string -> string -> Z) (today : string)
    (dayOfWeek : nat) (tasks : list Task) :
  let schedule := DS.generateSchedule localeCompare today dayOfWeek tasks in
  let flexiblePart :=
    List.filter (fun item => bool_decide (DS.type item = DS.flexible)) schedule in
  schedule = (DS.scheduledItems schedule ++ flexiblePart)%list /\
  (forall item, item ∈ DS.scheduledItems schedule ->
     truthy (startTime (DS.task item)) = true /\
     CardText.formatTimeRange (startTime (DS.task item)) (endTime (DS.task item))
       = Some (DS.time item)) /\
  (forall item, item ∈ flexiblePart ->
     truthy (startTime (DS.task item)) = false /\ DS.time item = "Flexible") /\
  map DS.task flexiblePart =
    List.filter (fun task => negb (truthy (startTime task)))
      (List.filter (DS.isTodaysTask today dayOfWeek) tasks).
Proof.
  intros schedule flexiblePart. subst flexiblePart schedule.
  unfold DS.generateSchedule, DS.scheduledItems.
  set (todays := List.filter (DS.isTodaysTask today dayOfWeek) tasks).
  set (timed := DS.sortByTime localeCompare
                  (List.filter (fun task => truthy (startTime task)) todays)).
  set (untimed := List.filter (fun task => negb (truthy (startTime task))) todays).
  assert (Htimed : forall task, task ∈ timed -> truthy (startTime task) = true).
  { intros task Hin. unfold timed in Hin. rewrite sortByTime_perm in Hin.
    now apply list_elem_of_In, filter_In in Hin as [_ Hin]. }
  assert (Huntimed : forall task, task ∈ untimed -> truthy (startTime task) = false).
  { intros task Hin. unfold untimed in Hin.
    apply list_elem_of_In, filter_In in Hin as [_ Hin].
    now apply negb_true_iff in Hin. }
  assert (Hs1 : List.filter (fun item => bool_decide (DS.type item = DS.scheduled))
                  (map DS.scheduledItem timed) = map DS.scheduledItem timed).
  { apply filter_all. intros item Hin.
    apply list_elem_of_fmap in Hin as (t & -> & _). reflexivity. }
  assert (Hs2 : List.filter (fun item => bool_decide (DS.type item = DS.scheduled))
                  (map DS.flexibleItem untimed) = []).
  { apply filter_none. intros item Hin.
    apply list_elem_of_fmap in Hin as (t & -> & _). reflexivity. }
  assert (Hf1 : List.filter (fun item => bool_decide (DS.type item = DS.flexible))
                  (map DS.scheduledItem timed) = []).
  { apply filter_none. intros item Hin.
    apply list_elem_of_fmap in Hin as (t & -> & _). reflexivity. }
  assert (Hf2 : List.filter (fun item => bool_decide (DS.type item = DS.flexible))
                  (map DS.flexibleItem untimed) = map DS.flexibleItem untimed).
  { apply filter_all. intros item Hin.
    apply list_elem_of_fmap in Hin as (t & -> & _). reflexivity. }
  rewrite !filter_app, Hs1, Hs2, Hf1, Hf2, app_nil_r. cbn [app].
  split; [reflexivity |]. split; [| split].
  - intros item Hin. apply list_elem_of_fmap in Hin as (t & -> & Ht).
    specialize (Htimed t Ht). split; [exact Htimed |].
    unfold CardText.formatTimeRange, DS.scheduledItem, DS.startOrEmpty.
    cbn [DS.task DS.time].
    destruct (startTime t) as [s |]; [| discriminate].
    rewrite Htimed. cbn [negb].
    destruct (endTime t) as [e |]; [| reflexivity].
    destruct (truthy (Some e)); reflexivity.
  - intros item Hin. apply list_elem_of_fmap in Hin as (t & -> & Ht).
    split; [now apply Huntimed | reflexivity].
  - rewrite map_map. cbn [DS.task DS.flexibleItem]. apply map_id.
Qed.

(** X24.  The days of the week (0 is Sunday) on which a frequency shows a
    daily task: every day without a frequency or with 'daily', Monday to
    Friday for 'weekdays', Monday to Saturday for 'monday_to_saturday',
    Sunday and Saturday for 'weekends', and the one day of its name for a
    named day. *)
Theorem shouldShowTaskToday_days (task : Task) :
  let days := List.filter (fun d => DS.shouldShowTaskToday d task) (seq 0 7) in
  match frequency task with
  | None | Some every_day => days = [0; 1; 2; 3; 4; 5; 6]%nat
  | Some weekdays => days = [1; 2; 3; 4; 5]%nat
  | Some monday_to_saturday => days = [1; 2; 3; 4; 5; 6]%nat
  | Some weekends => days = [0; 6]%nat
  | Some sunday => days = [0]%nat
  | Some monday => days = [1]%nat
  | Some tuesday => days = [2]%nat
  | Some wednesday => days = [3]%nat
  | Some thursday => days = [4]%nat
  | Some friday => days = [5]%nat
  | Some saturday => days = [6]%nat
  end.
Proof.
  unfold DS.shouldShowTaskToday.
  destruct (frequency task) as [[] |]; reflexivity.
Qed.

(** X25.  Which flexible items the component shows at minute
    [nowMinutes] of the day: an item without a suggestion always; an item
    whose suggestion was printed by [minutesToTime] from minute [x]
    exactly while [x] is still ahead; and an item whose suggestion does
    not read as a number never. *)
Theorem flexibleItems_visible (nowMinutes : Z) (schedule : list DS.ScheduleItem)
    (item : DS.ScheduleItem) :
  item ∈ schedule -> DS.type item = DS.flexible ->
  (truthy (suggestedTime (DS.task item)) = false ->
     item ∈ DS.flexibleItems nowMinutes schedule) /\
  (forall x, 0 <= x ->
     suggestedTime (DS.task item) = Some (minutesToTime (Some x)) ->
     (item ∈ DS.flexibleItems nowMinutes schedule <-> nowMinutes < x)) /\
  (forall s, suggestedTime (DS.task item) = Some s -> s <> "" ->
     timeToMinutes s = NaN ->
     item ∉ DS.flexibleItems nowMinutes schedule).
Proof.
  intros Hin Hty. unfold DS.flexibleItems.
  assert (Hmem : forall p, item ∈ List.filter p schedule <-> p item = true).
  { intros p. rewrite list_elem_of_In, filter_In, <- list_elem_of_In. tauto. }
  split; [| split].
  - intros Hnone. apply Hmem. rewrite Hty. cbn [negb].
    rewrite bool_decide_eq_true_2 by reflexivity. cbn [negb].
    destruct (suggestedTime (DS.task item)) as [s |]; [| reflexivity].
    now rewrite Hnone.
  - intros x Hx Hs. rewrite Hmem, Hty, Hs.
    rewrite bool_decide_eq_true_2 by reflexivity. cbn [negb].
    rewrite minutesToTime_truthy. cbn [negb].
    rewrite timeToMinutes_minutesToTime by exact Hx.
    unfold gt, lt. apply Z.ltb_lt.
  - intros s Hs Hne Hnan. rewrite Hmem, Hty, Hs.
    rewrite bool_decide_eq_true_2 by reflexivity. cbn [negb].
    unfold truthy. apply String.eqb_neq in Hne. rewrite Hne. cbn [negb].
    rewrite Hnan. discriminate.
Qed.

Lemma flexibleItems_visible_witness :
  DS.flexibleItem taskStale ∈ [DS.flexibleItem taskStale] /\
  (DS.flexibleItem taskStale ∈ DS.flexibleItems 500 [DS.flexibleItem taskStale]
   <-> 500 < 540).
Proof.
  split; [left |].
  apply (flexibleItems_visible 500 [DS.flexibleItem taskStale]
           (DS.flexibleItem taskStale)); try reflexivity; try lia.
  left.
Defined.

(** X26.  The schedule and the conflict detector disagree on what shares a
    day.  On a Saturday a 'monday_to_saturday' task and a 'weekends' task
    are both listed, and a one-time task without a date is listed with
    any daily task shown that day; yet in both cases the two tasks are
    never compared, so the detector reports no conflict between them
    whatever their times. *)
Theorem shown_together_never_compared
    (localeCompare : string -> string -> Z) (today : string)
    (dayOfWeek : nat) (tasks : list Task) (a b : Task) :
  a ∈ tasks -> b ∈ tasks ->
  completed a = false -> completed b = false -> TaskCard.type a = daily ->
  let listed task :=
    task ∈ map DS.task (DS.generateSchedule localeCompare today dayOfWeek tasks) in
  (TaskCard.type b = daily -> frequency a = Some monday_to_saturday ->
   frequency b = Some weekends -> dayOfWeek = 6%nat ->
   listed a /\ listed b /\
   CD.shouldCompareTasks today a b = false /\
   CD.conflicts (CD.checkTimeConflicts today a [b]) = []) /\
  (TaskCard.type b = once -> date b = None ->
   DS.shouldShowTaskToday dayOfWeek a = true ->
   listed a /\ listed b /\
   CD.shouldCompareTasks today a b = false /\
   CD.conflicts (CD.checkTimeConflicts today a [b]) = []).
Proof.
  intros Ha Hb Hca Hcb Hta listed.
  assert (Hnone : CD.shouldCompareTasks today a b = false ->
                  CD.conflicts (CD.checkTimeConflicts today a [b]) = []).
  { intros Hcmp. unfold CD.checkTimeConflicts.
    destruct (startTime a) as [s |]; [| reflexivity].
    destruct (negb (truthy (Some s))); [reflexivity |].
    cbn [CD.conflicts CD.collectConflicts]. now rewrite Hcmp. }
  split.
  - intros Htb Hfa Hfb ->.
    assert (Hcmp : CD.shouldCompareTasks today a b = false).
    { unfold CD.shouldCompareTasks. rewrite Hca, Hcb, Hta, Htb, Hfa, Hfb.
      reflexivity. }
    split; [| split; [| split; [exact Hcmp | now apply Hnone]]];
      apply schedule_elem; (split; [assumption |]);
      unfold DS.isTodaysTask, DS.shouldShowTaskToday;
      rewrite ?Hca, ?Hcb, ?Hta, ?Htb, ?Hfa, ?Hfb; reflexivity.
  - intros Htb Hdb Hshow.
    assert (Hcmp : CD.shouldCompareTasks today a b = false).
    { unfold CD.shouldCompareTasks. rewrite Hca, Hcb, Hta, Htb, Hdb.
      reflexivity. }
    split; [| split; [| split; [exact Hcmp | now apply Hnone]]];
      apply schedule_elem; (split; [assumption |]);
      unfold DS.isTodaysTask;
      rewrite ?Hca, ?Hcb, ?Hta, ?Htb, ?Hdb, ?Hshow; reflexivity.
Qed.

Lemma shown_together_never_compared_witness :
  taskMonSat ∈ [taskMonSat; taskWeekend] /\
  CD.conflicts (CD.checkTimeConflicts "2025-01-04" taskMonSat [taskWeekend]) = [].
Proof.
  assert (Ha : taskMonSat ∈ [taskMonSat; taskWeekend]) by left.
  assert (Hb : taskWeekend ∈ [taskMonSat; taskWeekend]) by (right; left).
  split; [exact Ha |].
  destruct (shown_together_never_compared (fun _ _ => 0) "2025-01-04" 6
              [taskMonSat; taskWeekend] taskMonSat taskWeekend
              Ha Hb eq_refl eq_refl eq_refl) as [Hsat _].
  apply Hsat; reflexivity.
Defined.

(** ** The dialogs *)

Lemma refused_false_iff (form : Dialogs.Form) :
  Dialogs.refused form = false <->
  forall r, Dialogs.conflictResult form = Some r ->
    CD.hasConflicts r = true ->
    CD.getConflictSeverity (CD.conflicts r) <> CD.error.
Proof.
  unfold Dialogs.refused. destruct (Dialogs.conflictResult form) as [r |].
  - split.
    + intros H r' [= <-] Hhas. rewrite Hhas in H. simpl in H.
      destruct (CD.getConflictSeverity (CD.conflicts r)); congruence.
    + intros H. destruct (CD.hasConflicts r) eqn:Hhas; [| reflexivity].
      specialize (H r eq_refl Hhas). simpl.
      destruct (CD.getConflictSeverity (CD.conflicts r)); congruence.
  - split; [intros _ r; discriminate | reflexivity].
Qed.

Lemma addSubmit_handedOver trim form t :
  Dialogs.handedOver (Dialogs.addSubmit trim form) = Some t ->
  trim (Dialogs.title form) <> "" /\ Dialogs.refused form = false /\
  t = Dialogs.addedTask trim form.
Proof.
  unfold Dialogs.addSubmit.
  destruct (String.eqb_spec (trim (Dialogs.title form)) "") as [| Hne];
    [discriminate |].
  destruct (Dialogs.refused form); [discriminate |].
  simpl. intros [= <-]. auto.
Qed.

Lemma editSubmit_handedOver trim form task t :
  Dialogs.handedOver (Dialogs.editSubmit trim form (Some task)) = Some t ->
  trim (Dialogs.title form) <> "" /\ Dialogs.refused form = false /\
  t = Dialogs.editedTask trim form task.
Proof.
  unfold Dialogs.editSubmit.
  destruct (String.eqb_spec (trim (Dialogs.title form)) "") as [| Hne];
    [discriminate |].
  destruct (Dialogs.refused form); [discriminate |].
  simpl. intros [= <-]. auto.
Qed.

(** A check whose result does not refuse the submit found no overlapping
    task of the candidate's category. *)
Lemma unrefused_no_clash today cand s existingTasks form :
  startTime cand = Some s -> s <> "" ->
  Dialogs.conflictResult form =
    Some (CD.checkTimeConflicts today cand existingTasks) ->
  Dialogs.refused form = false ->
  forall e, e ∈ existingTasks -> overlapsTask today cand s e = true ->
    category e <> category cand.
Proof.
  intros Hs Hne Hres Href e He Hov Hcat.
  pose proof (proj1 (refused_false_iff form) Href _ Hres) as Href'.
  clear Href. rename Href' into Href.
  rewrite (check_conflicts today _ _ _ Hs Hne) in Href. cbn zeta in Href.
  cbn [CD.hasConflicts CD.conflicts] in Href.
  assert (Hin : e ∈ map CD.conflictingTask
                  (CD.collectConflicts today cand s existingTasks)).
  { rewrite collectConflicts_tasks. apply list_elem_of_In, filter_In.
    split; [apply list_elem_of_In; exact He | exact Hov]. }
  apply list_elem_of_fmap in Hin as (c & -> & Hc).
  apply Href.
  - destruct (CD.collectConflicts today cand s existingTasks); [inversion Hc |].
    reflexivity.
  - apply getConflictSeverity_cases. exists c. split; [exact Hc |].
    apply collectConflicts_elem in Hc as (_ & _ & _ & ->).
    rewrite bool_decide_eq_true_2; [reflexivity | congruence].
Qed.

(** X27.  The conflict check of the edit dialog never reports the task
    being edited: every reported conflict is with a task of the list
    whose id differs from the edited task's id; and when the start field
    is empty or the type is flexible, nothing is checked at all. *)
Theorem editCheck_excludes_self (today : string) (form : Dialogs.Form)
    (task : Task) (existingTasks : list Task) (r : CD.ConflictCheckResult) :
  Dialogs.editCheck today form (Some task) existingTasks = Some r ->
  Dialogs.startTime form <> "" /\ Dialogs.type form <> flexible /\
  forall c, c ∈ CD.conflicts r ->
    CD.conflictingTask c ∈ existingTasks /\
    id (CD.conflictingTask c) <> id task.
Proof.
  unfold Dialogs.editCheck.
  destruct (String.eqb_spec (Dialogs.startTime form) "") as [| Hne];
    [discriminate |].
  cbn [negb andb]. unfold Dialogs.isTimed.
  destruct (Dialogs.isTimed (Dialogs.type form)) eqn:Htimed;
    unfold Dialogs.isTimed in Htimed; rewrite Htimed; [| discriminate].
  intros [= <-]. split; [exact Hne |]. split.
  { intros Hflex. rewrite Hflex in Htimed. discriminate. }
  intros c Hc.
  apply checkTimeConflicts_conflicts in Hc as (s & _ & _ & Hc).
  apply collectConflicts_elem in Hc as (Hin & _).
  unfold Dialogs.otherTasks in Hin.
  apply list_elem_of_In, filter_In in Hin as [Hin Hid].
  split; [apply list_elem_of_In; exact Hin |].
  apply negb_true_iff, String.eqb_neq in Hid. exact Hid.
Qed.

Lemma editCheck_excludes_self_witness :
  Dialogs.startTime (formStandup None) <> "" /\
  Dialogs.type (formStandup None) <> flexible /\
  forall c,
    c ∈ CD.conflicts
          (CD.checkTimeConflicts "2025-01-01"
             (Dialogs.editCandidate (formStandup None) taskB)
             (Dialogs.otherTasks taskB [taskA; taskB])) ->
    CD.conflictingTask c ∈ [taskA; taskB] /\
    id (CD.conflictingTask c) <> id taskB.
Proof.
  apply (editCheck_excludes_self "2025-01-01" (formStandup None) taskB
           [taskA; taskB]).
  reflexivity.
Defined.

(** X28.  With the stored conflict result in step with the form, a task
    that a dialog hands over never shares its category with an existing
    task it is compared with and overlaps: such a clash has severity
    error and the submit returns early.  In the edit dialog this holds
    for every existing task other than the edited one. *)
Theorem submit_never_category_clash (today : string) (trim : string -> string)
    (form : Dialogs.Form) (existingTasks : list Task) :
  Dialogs.startTime form <> "" -> Dialogs.type form <> flexible ->
  (forall t,
     Dialogs.conflictResult form = Dialogs.addCheck today form existingTasks ->
     Dialogs.handedOver (Dialogs.addSubmit trim form) = Some t ->
     forall e, e ∈ existingTasks ->
       overlapsTask today (Dialogs.addCandidate form)
         (Dialogs.startTime form) e = true ->
       category e <> category t) /\
  (forall task t,
     Dialogs.conflictResult form =
       Dialogs.editCheck today form (Some task) existingTasks ->
     Dialogs.handedOver (Dialogs.editSubmit trim form (Some task)) = Some t ->
     forall e, e ∈ existingTasks -> id e <> id task ->
       overlapsTask today (Dialogs.editCandidate form task)
         (Dialogs.startTime form) e = true ->
       category e <> category t).
Proof.
  intros Hne Hty.
  assert (Htimed : negb (String.eqb (Dialogs.startTime form) "") &&
                   Dialogs.isTimed (Dialogs.type form) = true).
  { apply String.eqb_neq in Hne. rewrite Hne. unfold Dialogs.isTimed.
    destruct (Dialogs.type form); [reflexivity | reflexivity | congruence]. }
  split.
  - intros t Hres Hsub e He Hov.
    apply addSubmit_handedOver in Hsub as (_ & Href & ->).
    unfold Dialogs.addCheck in Hres. rewrite Htimed in Hres.
    exact (unrefused_no_clash today (Dialogs.addCandidate form)
             (Dialogs.startTime form) existingTasks form eq_refl Hne Hres Href
             e He Hov).
  - intros task t Hres Hsub e He Hid Hov.
    apply editSubmit_handedOver in Hsub as (_ & Href & ->).
    unfold Dialogs.editCheck in Hres. rewrite Htimed in Hres.
    refine (unrefused_no_clash today (Dialogs.editCandidate form task)
              (Dialogs.startTime form) (Dialogs.otherTasks task existingTasks)
              form eq_refl Hne Hres Href e _ Hov).
    unfold Dialogs.otherTasks. apply list_elem_of_In, filter_In.
    split; [apply list_elem_of_In; exact He |].
    apply negb_true_iff, String.eqb_neq. exact Hid.
Qed.

Lemma submit_never_category_clash_witness :
  overlapsTask "2025-01-01" (Dialogs.addCandidate formChecked) "09:30" taskA
    = true /\
  category taskA <> Some family.
Proof.
  split; [reflexivity |].
  destruct (submit_never_category_clash "2025-01-01" (fun s => s) formChecked
              [taskA]) as [Hadd _].
  - discriminate.
  - discriminate.
  - apply (Hadd (Dialogs.addedTask (fun s => s) formChecked)
             eq_refl eq_refl taskA); [left | reflexivity].
Defined.

(** X29.  What the edit dialog saves is normalised by type: id,
    completion flag and priority are those of the edited task, the title
    is trimmed and not empty, a flexible task has no start or end time,
    only a one-time task has a date, only a daily task a frequency, only
    a flexible task a duration; and a time field left empty keeps the
    edited task's time.  The add dialog does not clear the times: a
    flexible form that still holds a start time hands it over. *)
Theorem editSubmit_normalises (trim : string -> string) (form : Dialogs.Form)
    (task t : Task) :
  Dialogs.handedOver (Dialogs.editSubmit trim form (Some task)) = Some t ->
  (id t = id task /\ completed t = completed task /\
   priority t = priority task /\ title t = trim (Dialogs.title form) /\
   title t <> "") /\
  (type t = flexible -> startTime t = None /\ endTime t = None) /\
  (type t <> once -> date t = None) /\
  (type t <> daily -> frequency t = None) /\
  (type t <> flexible -> flexibleDuration t = None) /\
  (type t <> flexible -> Dialogs.startTime form = "" ->
     startTime t = startTime task) /\
  (type t = flexible -> Dialogs.startTime form <> "" ->
   exists t', Dialogs.handedOver (Dialogs.addSubmit trim form) = Some t' /\
     type t' = flexible /\ startTime t' = Some (Dialogs.startTime form)).
Proof.
  intros Hsub. apply editSubmit_handedOver in Hsub as (Htitle & Href & ->).
  unfold Dialogs.editedTask, Dialogs.isTimed. cbn [id completed priority title
    type startTime endTime date frequency flexibleDuration].
  split; [auto |].
  split.
  { intros ->. auto. }
  split.
  { intros Hty. rewrite bool_decide_eq_false_2 by exact Hty. reflexivity. }
  split.
  { intros Hty. rewrite bool_decide_eq_false_2 by exact Hty. reflexivity. }
  split.
  { intros Hty. rewrite bool_decide_eq_false_2 by exact Hty. reflexivity. }
  split.
  { intros Hty ->. destruct (Dialogs.type form); try reflexivity. congruence. }
  intros Hty Hne. unfold Dialogs.addSubmit.
  apply String.eqb_neq in Htitle. rewrite Htitle, Href.
  eexists. split; [reflexivity |]. split; [exact Hty |].
  cbn [Dialogs.addedTask startTime]. unfold Dialogs.nonEmpty.
  apply String.eqb_neq in Hne. rewrite Hne. reflexivity.
Qed.

Lemma editSubmit_normalises_witness :
  id (Dialogs.editedTask (fun s => s) (formStandup None) taskNoon) = "L" /\
  date (Dialogs.editedTask (fun s => s) (formStandup None) taskNoon) = None.
Proof.
  destruct (editSubmit_normalises (fun s => s) (formStandup None) taskNoon
              (Dialogs.editedTask (fun s => s) (formStandup None) taskNoon)
              eq_refl) as ((Hid & _) & _ & Hdate & _).
  split; [exact Hid |]. apply Hdate. discriminate.
Defined.

(** X30.  Opening the edit dialog on a task and saving without touching
    a field gives the task back unchanged, for every task shaped as the
    dialogs produce them, provided the stored conflict result does not
    refuse the submit. *)
Theorem edit_load_save_roundtrip (trim : string -> string)
    (form0 : Dialogs.Form) (task : Task) :
  dialogShaped trim task ->
  Dialogs.refused (Dialogs.loadTask form0 task) = false ->
  Dialogs.handedOver
    (Dialogs.editSubmit trim (Dialogs.loadTask form0 task) (Some task)) =
  Some task.
Proof.
  intros (Htrim & Hne & Hcat & Hfreq & Hdur & Hdate & Hflex) Href.
  unfold Dialogs.editSubmit. rewrite Href.
  cbn [Dialogs.loadTask Dialogs.title]. rewrite Htrim.
  apply String.eqb_neq in Hne. rewrite Hne. cbn [Dialogs.handedOver].
  f_equal. unfold Dialogs.editedTask, Dialogs.isTimed, Dialogs.nonEmpty.
  cbn [Dialogs.loadTask Dialogs.title Dialogs.type Dialogs.frequency
       Dialogs.startTime Dialogs.endTime Dialogs.date Dialogs.category
       Dialogs.flexibleDuration].
  rewrite Htrim.
  destruct task as [i ti ty fr co st en da fd pr ca su].
  cbn [id title type frequency completed startTime endTime date
       flexibleDuration priority category suggestedTime] in *.
  destruct ca as [ca |]; [| congruence].
  assert (Hfr : (if bool_decide (ty = daily)
                 then match fr with Some f => Some f | None => Some every_day end
                 else None) = fr).
  { destruct (decide (ty = daily)) as [Hd | Hd].
    - rewrite bool_decide_eq_true_2 by exact Hd.
      destruct fr; [reflexivity |]. apply Hfreq in Hd. congruence.
    - rewrite bool_decide_eq_false_2 by exact Hd.
      destruct fr as [f |]; [| reflexivity].
      exfalso. apply Hd, Hfreq. discriminate. }
  assert (Hfd : (if bool_decide (ty = flexible)
                 then match fd with Some d => Some d | None => Some day end
                 else None) = fd).
  { destruct (decide (ty = flexible)) as [Hd | Hd].
    - rewrite bool_decide_eq_true_2 by exact Hd.
      destruct fd; [reflexivity |]. apply Hdur in Hd. congruence.
    - rewrite bool_decide_eq_false_2 by exact Hd.
      destruct fd as [d |]; [| reflexivity].
      exfalso. apply Hd, Hdur. discriminate. }
  rewrite Hfr, Hfd.
  assert (Hst : (if negb (bool_decide (ty = daily) || bool_decide (ty = once))
                 then None
                 else match
                        (if String.eqb (match st with Some s => s | None => "" end) ""
                         then None
                         else Some (match st with Some s => s | None => "" end))
                      with
                      | Some s => Some s
                      | None => st
                      end) = st).
  { destruct ty; cbn.
    - destruct st as [s |]; [| reflexivity].
      destruct (String.eqb s ""); reflexivity.
    - destruct st as [s |]; [| reflexivity].
      destruct (String.eqb s ""); reflexivity.
    - symmetry. apply Hflex. reflexivity. }
  assert (Hen : (if negb (bool_decide (ty = daily) || bool_decide (ty = once))
                 then None
                 else match
                        (if String.eqb (match en with Some s => s | None => "" end) ""
                         then None
                         else Some (match en with Some s => s | None => "" end))
                      with
                      | Some s => Some s
                      | None => en
                      end) = en).
  { destruct ty; cbn.
    - destruct en as [s |]; [| reflexivity].
      destruct (String.eqb s ""); reflexivity.
    - destruct en as [s |]; [| reflexivity].
      destruct (String.eqb s ""); reflexivity.
    - symmetry. apply Hflex. reflexivity. }
  assert (Hda : (if negb (bool_decide (ty = once))
                 then None
                 else match
                        (if String.eqb (match da with Some s => s | None => "" end) ""
                         then None
                         else Some (match da with Some s => s | None => "" end))
                      with
                      | Some s => Some s
                      | None => da
                      end) = da).
  { destruct (decide (ty = once)) as [Hd | Hd].
    - rewrite bool_decide_eq_true_2 by exact Hd. cbn.
      destruct da as [s |]; [| reflexivity].
      destruct (String.eqb s ""); reflexivity.
    - rewrite bool_decide_eq_false_2 by exact Hd. cbn.
      symmetry. apply Hdate. exact Hd. }
  rewrite Hst, Hen, Hda. reflexivity.
Qed.

Lemma edit_load_save_roundtrip_witness :
  Dialogs.handedOver
    (Dialogs.editSubmit (fun s => s)
       (Dialogs.loadTask Dialogs.initialForm taskA) (Some taskA)) =
  Some taskA.
Proof.
  apply (edit_load_save_roundtrip (fun s => s) Dialogs.initialForm taskA).
  - unfold dialogShaped.
    repeat split; try discriminate; try reflexivity; intros H;
      try discriminate H; try (exfalso; apply H; reflexivity).
  - reflexivity.
Defined.
